(** * Remote-Sensing-Demo: [Raster.py] and [vector_utils.py]

    A shallow embedding of the [Raster] class and of the two vector
    utilities [reproject_gdf] and [clip_raster], followed by the properties
    of the natural-language specification that were checked against it.

    Python objects whose identity matters (Raster instances, ndarrays,
    rasterio profiles, GeoDataFrames) live in a heap indexed by locations;
    attribute assignment rebinds a field of the object stored at a location.
    Exceptions are results.  The geospatial stack (rasterio, geopandas,
    pyproj, xmltodict, the file system, numpy scalar arithmetic) is an
    interface: the code below is generic in it. *)

From Stdlib Require Import ZArith String Ascii List Bool Lia.
From Stdlib Require Import Floats.SpecFloat.
From stdpp Require Import base option list strings pretty gmap fin_maps.

Local Open Scope string_scope.

(** ** Python [str] methods and [os.path] (posixpath) *)

Module PyStr.

(** [s[n:]] *)
Fixpoint drop (n : nat) (s : string) : string :=
  match n, s with
  | O, _ => s
  | S _, EmptyString => EmptyString
  | S k, String _ s' => drop k s'
  end.

(** [s[:n]] *)
Fixpoint take (n : nat) (s : string) : string :=
  match n, s with
  | O, _ => EmptyString
  | S _, EmptyString => EmptyString
  | S k, String c s' => String c (take k s')
  end.

(** [s.rfind(c) + 1]: the position just after the last [c], 0 if there is
    none. *)
Fixpoint rfind_succ (c : ascii) (s : string) : nat :=
  match s with
  | EmptyString => 0
  | String d s' =>
      match rfind_succ c s' with
      | S k => S (S k)
      | O => if Ascii.eqb d c then 1 else 0
      end
  end.

(** [s.rstrip(c)] for a single character [c]. *)
Fixpoint rstrip (c : ascii) (s : string) : string :=
  match s with
  | EmptyString => EmptyString
  | String d s' =>
      match rstrip c s' with
      | EmptyString => if Ascii.eqb d c then EmptyString else String d EmptyString
      | t => String d t
      end
  end.

(** [all(d == c for d in s)], i.e. [s == c * len(s)]. *)
Fixpoint all_eq (c : ascii) (s : string) : bool :=
  match s with
  | EmptyString => true
  | String d s' => Ascii.eqb d c && all_eq c s'
  end.

(** The scan of [str.replace] for a non-empty pattern: [skip] counts the
    characters of a match that was just replaced and are still to be
    passed over. *)
Fixpoint replace_scan (old new : string) (skip : nat) (s : string) : string :=
  match s with
  | EmptyString => EmptyString
  | String c s' =>
      match skip with
      | S k => replace_scan old new k s'
      | O =>
          if String.prefix old s
          then new +:+ replace_scan old new (String.length old - 1) s'
          else String c (replace_scan old new 0 s')
      end
  end.

(** With an empty pattern Python inserts [new] before every character
    and at the end. *)
Fixpoint intersperse (new : string) (s : string) : string :=
  match s with
  | EmptyString => new
  | String c s' => new +:+ String c (intersperse new s')
  end.

(** [s.replace(old, new)]: every non-overlapping occurrence, leftmost
    first. *)
Definition replace (old new s : string) : string :=
  match old with
  | EmptyString => intersperse new s
  | _ => replace_scan old new 0 s
  end.

End PyStr.

Module posixpath.

Definition sep : ascii := "/"%char.

(** [os.path.basename(p)]: [i = p.rfind('/') + 1; return p[i:]] *)
Definition basename (p : string) : string :=
  PyStr.drop (PyStr.rfind_succ sep p) p.

(** [os.path.dirname(p)]: the head up to the last slash, without its
    trailing slashes unless it consists of slashes only. *)
Definition dirname (p : string) : string :=
  let head := PyStr.take (PyStr.rfind_succ sep p) p in
  if negb (String.eqb head "") && negb (PyStr.all_eq sep head)
  then PyStr.rstrip sep head
  else head.

Definition startswith_sep (b : string) : bool :=
  match b with String c _ => Ascii.eqb c sep | EmptyString => false end.

Fixpoint endswith_sep (a : string) : bool :=
  match a with
  | EmptyString => false
  | String c EmptyString => Ascii.eqb c sep
  | String _ a' => endswith_sep a'
  end.

(** [os.path.join(a, b)] for two components. *)
Definition join (a b : string) : string :=
  if startswith_sep b then b
  else if String.eqb a "" || endswith_sep a then a +:+ b
  else a +:+ "/" +:+ b.

End posixpath.

(** ** Exceptions and results *)

Inductive exn :=
| FileNotFoundError
| KeyError (k : string)
| TypeError
| ValueError
| CRSError
| LibraryError (origin : string)  (* raised inside an external library *)
| OutOfModel.                     (* outside the fragment modelled here *)

Inductive res (A : Type) :=
| Ok (a : A)
| Raise (e : exn).

Arguments Ok {A} a.
Arguments Raise {A} e.

Definition res_bind {A B} (r : res A) (k : A → res B) : res B :=
  match r with Ok a => k a | Raise e => Raise e end.

(** ** The tree returned by [xmltodict.parse]

    A [dict] with [str] keys in document order whose values are [None],
    [str], nested dicts, or lists (one entry per repeated tag). *)

#[local] Unset Elimination Schemes.
Inductive xml :=
| XNone
| XStr (s : string)
| XList (l : list xml)
| XDict (kvs : list (string * xml)).
#[local] Set Elimination Schemes.

Module Py.

Fixpoint assoc {V} (k : string) (kvs : list (string * V)) : option V :=
  match kvs with
  | [] => None
  | (k', v) :: rest => if String.eqb k' k then Some v else assoc k rest
  end.

(** [v[k]] for a [str] key [k]. *)
Definition getitem (v : xml) (k : string) : res xml :=
  match v with
  | XDict kvs =>
      match assoc k kvs with
      | Some x => Ok x
      | None => Raise (KeyError k)
      end
  | XNone | XStr _ | XList _ => Raise TypeError
  end.

Fixpoint chars (s : string) : list xml :=
  match s with
  | EmptyString => []
  | String c s' => XStr (String c EmptyString) :: chars s'
  end.

(** The items visited by [for x in v]. *)
Definition iter (v : xml) : res (list xml) :=
  match v with
  | XList l => Ok l
  | XDict kvs => Ok (map (λ kv, XStr (fst kv)) kvs)
  | XStr s => Ok (chars s)
  | XNone => Raise TypeError
  end.

(** [[f(x) for x in l]], stopping at the first exception. *)
Fixpoint comprehension {A B} (f : A → res B) (l : list A) : res (list B) :=
  match l with
  | [] => Ok []
  | x :: rest =>
      res_bind (f x) (λ y, res_bind (comprehension f rest) (λ ys, Ok (y :: ys)))
  end.

End Py.

(** ** The types of the geospatial stack *)

Class Types := {
  scalar : Type;   (* a numpy array element *)
  crs : Type;      (* a coordinate reference system *)
  geom : Type;     (* a shapely geometry *)
  affine : Type;   (* a geotransform *)
}.

Definition loc := positive.

Section Objects.
Context `{Types}.

(** A 3-D array [band x row x column].  Its shape is
    [(length bands, nrows, ncols)]. *)
Record ndarray := {
  bands : list (list (list scalar));
  nrows : nat;
  ncols : nat;
}.

Definition shape (a : ndarray) : nat * nat * nat :=
  (length (bands a), nrows a, ncols a).

(** [a[b, r, c]] *)
Definition pixel (a : ndarray) (b r c : nat) : option scalar :=
  band ← bands a !! b; row ← band !! r; row !! c.

(** An entry of a rasterio profile. *)
Inductive pval :=
| PNone
| PInt (n : Z)
| PStr (s : string)
| PNum (x : scalar)
| PCrs (c : crs)
| PAffine (t : affine).

Record GeoDataFrame := {
  gdf_crs : option crs;
  geometry : list geom;
}.

(** An instance of class [Raster]; [None] in a field is Python's [None]
    ([XNone] for the metadata). *)
Record Raster := {
  wavelength : option (list scalar);
  _datacube : option loc;
  metadata : xml;
  profile : option loc;
  name : option string;
  path : option string;
}.

Inductive obj :=
| ORaster (r : Raster)
| ONdarray (a : ndarray)
| OProfile (p : gmap string pval)
| OGdf (g : GeoDataFrame).

Record state := {
  heap : gmap loc obj;
  stdout : list string;
}.

(** A rasterio dataset opened for writing in a [MemoryFile]. *)
Record dataset := {
  ds_profile : gmap string pval;
  ds_data : ndarray;
}.

End Objects.

(** ** The operations of the geospatial stack *)

Class Stack `{Types} := {
  (* numpy *)
  np_mul : scalar → scalar → scalar;
  np_add : scalar → scalar → scalar;
  np_float32 : string → option scalar;
  np_nan : scalar;
  (* the file system, rasterio and xmltodict readers *)
  listdir : string → res (list string);
  rasterio_read : string → res (gmap string pval * ndarray);
  read_text : string → res string;
  xmltodict_parse : string → res xml;
  (* pyproj and geopandas *)
  crs_from_epsg : Z → crs;
  crs_ne : crs → crs → bool;
  crs_str : crs → string;
  transform_geom : crs → crs → geom → geom;
  (* rasterio in-memory datasets and masking *)
  memfile_write : gmap string pval → ndarray → res dataset;
  mask_crop : dataset → list geom → res (ndarray * affine);
}.

(** ** Computations: a state and exception monad *)

Section Monad.
Context `{Types}.

Definition M (A : Type) : Type := state → res A * state.

#[global] Instance M_ret : MRet M := λ A a st, (Ok a, st).

#[global] Instance M_bind : MBind M := λ A B k m st,
  match m st with
  | (Ok a, st') => k a st'
  | (Raise e, st') => (Raise e, st')
  end.

Definition raise {A} (e : exn) : M A := λ st, (Raise e, st).

Definition lift {A} (r : res A) : M A := λ st, (r, st).

Definition alloc (o : obj) : M loc :=
  λ st, let l := fresh (dom (heap st)) in
        (Ok l, {| heap := <[l := o]> (heap st); stdout := stdout st |}).

Definition load (l : loc) : M obj :=
  λ st, match heap st !! l with
        | Some o => (Ok o, st)
        | None => (Raise OutOfModel, st)
        end.

Definition store (l : loc) (o : obj) : M unit :=
  λ st, (Ok tt, {| heap := <[l := o]> (heap st); stdout := stdout st |}).

Definition print (line : string) : M unit :=
  λ st, (Ok tt, {| heap := heap st; stdout := stdout st ++ [line] |}).

End Monad.


#[global] Instance res_ret : MRet res := λ A a, Ok a.
#[global] Instance res_mbind : MBind res := λ A B k r, res_bind r k.

(** ** numpy *)

Section Numpy.
Context `{Stack}.

(** One band combined with the scalar of its band: [f x g] at every
    pixel [x]. *)
Definition band_op (f : scalar → scalar → scalar) (g : scalar)
    (band : list (list scalar)) : list (list scalar) :=
  map (map (λ x, f x g)) band.

(** [a (op) v[:, None, None]]: a cube of shape [(n, R, C)] against a
    column of shape [(m, 1, 1)].  Equal band counts are combined band by
    band; a count of one on either side is stretched to the other; any
    other pair of counts cannot be broadcast. *)
Definition broadcast_bands (f : scalar → scalar → scalar)
    (a : ndarray) (v : list scalar) : res ndarray :=
  if Nat.eqb (length (bands a)) (length v)
  then Ok {| bands := zip_with (λ band g, band_op f g band) (bands a) v;
             nrows := nrows a; ncols := ncols a |}
  else
    match bands a, v with
    | [band], _ =>
        Ok {| bands := map (λ g, band_op f g band) v;
              nrows := nrows a; ncols := ncols a |}
    | _, [g] =>
        Ok {| bands := map (band_op f g) (bands a);
              nrows := nrows a; ncols := ncols a |}
    | _, _ => Raise ValueError
    end.

(** The two broadcasts of [rescale] fused: what
    [cube * gains[:, None, None] + offsets[:, None, None]] is when there
    is one gain and one offset per band. *)
Definition rescaled (cube : ndarray) (gains offsets : list scalar) : ndarray :=
  {| bands :=
       zip_with (λ band o, band_op np_add o band)
         (zip_with (λ band g, band_op np_mul g band) (bands cube) gains)
         offsets;
     nrows := nrows cube; ncols := ncols cube |}.

(** One element of [np.array(values, dtype=np.float32)]. *)
Definition float32_of (x : xml) : res scalar :=
  match x with
  | XStr s =>
      match np_float32 s with
      | Some f => Ok f
      | None => Raise ValueError
      end
  | XNone => Ok np_nan            (* None converts to nan *)
  | XDict _ => Raise TypeError
  | XList _ => Raise OutOfModel   (* a nested sequence: not a 1-D array *)
  end.

(** [np.array(values, dtype=np.float32)] for a flat list. *)
Definition np_array_float32 (values : list xml) : res (list scalar) :=
  Py.comprehension float32_of values.

End Numpy.

(** ** class Raster *)

Section RasterClass.
Context `{Stack}.

Definition get_raster (self : loc) : M Raster :=
  o ← load self;
  match o with
  | ORaster r => mret r
  | _ => raise OutOfModel
  end.

Definition get_ndarray (l : loc) : M ndarray :=
  o ← load l;
  match o with
  | ONdarray a => mret a
  | _ => raise OutOfModel
  end.

Definition get_profile (l : loc) : M (gmap string pval) :=
  o ← load l;
  match o with
  | OProfile p => mret p
  | _ => raise OutOfModel
  end.

(** [self.<field> = value] *)
Definition setattr (self : loc) (upd : Raster → Raster) : M unit :=
  r ← get_raster self;
  store self (ORaster (upd r)).

Definition set_wavelength v (r : Raster) : Raster :=
  {| wavelength := v; _datacube := _datacube r; metadata := metadata r;
     profile := profile r; name := name r; path := path r |}.
Definition set_datacube v (r : Raster) : Raster :=
  {| wavelength := wavelength r; _datacube := v; metadata := metadata r;
     profile := profile r; name := name r; path := path r |}.
Definition set_metadata v (r : Raster) : Raster :=
  {| wavelength := wavelength r; _datacube := _datacube r; metadata := v;
     profile := profile r; name := name r; path := path r |}.
Definition set_profile v (r : Raster) : Raster :=
  {| wavelength := wavelength r; _datacube := _datacube r; metadata := metadata r;
     profile := v; name := name r; path := path r |}.
Definition set_name v (r : Raster) : Raster :=
  {| wavelength := wavelength r; _datacube := _datacube r; metadata := metadata r;
     profile := profile r; name := v; path := path r |}.
Definition set_path v (r : Raster) : Raster :=
  {| wavelength := wavelength r; _datacube := _datacube r; metadata := metadata r;
     profile := profile r; name := name r; path := v |}.

(** The [for file in os.listdir(directory)] loop of [find_metadata_file]:
    [break] at the first equal name, the [else] branch when the listing is
    exhausted. *)
Fixpoint search_listing (directory xml_filename : string)
    (listing : list string) : res string :=
  match listing with
  | [] => Raise FileNotFoundError
  | file :: rest =>
      if String.eqb file xml_filename
      then Ok (posixpath.join directory file)
      else search_listing directory xml_filename rest
  end.

Definition xml_filename_of (tiff_file_path : string) : string :=
  PyStr.replace "SPECTRAL_IMAGE.TIF" "METADATA.XML"
    (posixpath.basename tiff_file_path).

Definition find_metadata_file (self : loc) : M string :=
  r ← get_raster self;
  match path r with
  | None => raise TypeError   (* os.path.dirname(None) *)
  | Some tiff_file_path =>
      let directory := posixpath.dirname tiff_file_path in
      let xml_filename := xml_filename_of tiff_file_path in
      listing ← lift (listdir directory);
      lift (search_listing directory xml_filename listing)
  end.

Definition get_metadata (self : loc) : M xml :=
  xml_file_path ← find_metadata_file self;
  my_xml ← lift (read_text xml_file_path);
  lift (xmltodict_parse my_xml).

(** [metadata["level_X"]["specific"]["bandCharacterisation"]["bandID"]] *)
Definition band_ids_of (md : xml) : res xml :=
  level ← Py.getitem md "level_X";
  specific ← Py.getitem level "specific";
  band_characterisation ← Py.getitem specific "bandCharacterisation";
  Py.getitem band_characterisation "bandID".

(** [[band[field] for band in band_ids]] *)
Definition band_values (field : string) (band_ids : xml) : res (list xml) :=
  items ← Py.iter band_ids;
  Py.comprehension (λ band, Py.getitem band field) items.

Definition get_wavelengths (self : loc) : M (list scalar) :=
  r ← get_raster self;
  band_ids ← lift (band_ids_of (metadata r));
  wavelengths ← lift (band_values "wavelengthCenterOfBand" band_ids);
  lift (np_array_float32 wavelengths).

Definition load_from_file (self : loc) (raster_path : string) : M unit :=
  '(src_profile, src_data) ← lift (rasterio_read raster_path);
  lp ← alloc (OProfile src_profile);
  setattr self (set_profile (Some lp));;
  lc ← alloc (ONdarray src_data);
  setattr self (set_datacube (Some lc));;
  setattr self (set_path (Some raster_path));;
  setattr self (set_name (Some (posixpath.basename raster_path)));;
  md ← get_metadata self;
  setattr self (set_metadata md);;
  wl ← get_wavelengths self;
  setattr self (set_wavelength (Some wl)).

Definition __init__ (self : loc) (path : option string)
    (wavelength : option (list scalar)) (datacube : option loc)
    (metadata : xml) (profile : option loc) (name : option string) : M unit :=
  match path with
  | Some p => load_from_file self p
  | None =>
      setattr self (set_wavelength wavelength);;
      setattr self (set_datacube datacube);;
      setattr self (set_metadata metadata);;
      setattr self (set_profile profile);;
      setattr self (set_name name);;
      setattr self (set_path None)
  end.

(** An object before [__init__] has run.  Every attribute reads as
    [None]; no method of the class reads an attribute before
    [__init__] or [load_from_file] has assigned it. *)
Definition blank : Raster :=
  {| wavelength := None; _datacube := None; metadata := XNone;
     profile := None; name := None; path := None |}.

(** The call [Raster(path, wavelength, datacube, metadata, profile, name)]. *)
Definition Raster_new (path : option string)
    (wavelength : option (list scalar)) (datacube : option loc)
    (metadata : xml) (profile : option loc) (name : option string) : M loc :=
  self ← alloc (ORaster blank);
  __init__ self path wavelength datacube metadata profile name;;
  mret self.

Definition get_gains_and_offsets (self : loc) : M (list scalar * list scalar) :=
  r ← get_raster self;
  band_ids ← lift (band_ids_of (metadata r));
  gains ← lift (band_values "GainOfBand" band_ids);
  offsets ← lift (band_values "OffsetOfBand" band_ids);
  gains ← lift (np_array_float32 gains);
  offsets ← lift (np_array_float32 offsets);
  mret (gains, offsets).

(** The [datacube] property: getter and setter. *)
Definition datacube (self : loc) : M (option loc) :=
  r ← get_raster self;
  mret (_datacube r).

Definition datacube_set (self : loc) (value : option loc) : M unit :=
  setattr self (set_datacube value).

Definition rescale (self : loc) : M loc :=
  '(gains, offsets) ← get_gains_and_offsets self;
  d ← datacube self;
  match d with
  | None =>
      (* None * ndarray: the product is taken element by element *)
      match gains with
      | [] => raise OutOfModel
      | _ :: _ => raise TypeError
      end
  | Some l =>
      cube ← get_ndarray l;
      scaled ← lift (broadcast_bands np_mul cube gains);
      shifted ← lift (broadcast_bands np_add scaled offsets);
      l' ← alloc (ONdarray shifted);
      datacube_set self (Some l');;
      mret self
  end.

(** The state left by a successful [rescale]: a new array is allocated and
    the [_datacube] attribute of [self] is bound to it. *)
Definition after_rescale (self : loc) (r : Raster) (cube' : ndarray)
    (st : state) : state :=
  let l' := fresh (dom (heap st)) in
  {| heap := <[self := ORaster (set_datacube (Some l') r)]>
               (<[l' := ONdarray cube']> (heap st));
     stdout := stdout st |}.

(** The sidecar tree that [get_metadata] reads for a raster at
    [tiff_file_path], as a function of the file system alone. *)
Definition sidecar_of (tiff_file_path : string) : res xml :=
  let directory := posixpath.dirname tiff_file_path in
  listing ← listdir directory;
  xml_file_path ← search_listing directory (xml_filename_of tiff_file_path) listing;
  my_xml ← read_text xml_file_path;
  xmltodict_parse my_xml.

(** The vector that [get_wavelengths] extracts from a metadata tree. *)
Definition wavelengths_of (md : xml) : res (list scalar) :=
  band_ids ← band_ids_of md;
  wavelengths ← band_values "wavelengthCenterOfBand" band_ids;
  np_array_float32 wavelengths.

(** The pair that [get_gains_and_offsets] extracts from a metadata tree. *)
Definition gains_and_offsets_of (md : xml) : res (list scalar * list scalar) :=
  band_ids ← band_ids_of md;
  gains ← band_values "GainOfBand" band_ids;
  offsets ← band_values "OffsetOfBand" band_ids;
  gains ← np_array_float32 gains;
  offsets ← np_array_float32 offsets;
  Ok (gains, offsets).

(** The state of [load_from_file] once the raster file has been read:
    profile and cube are allocated, [profile], [_datacube], [path] and
    [name] are assigned. *)
Definition opened (self : loc) (r0 : Raster) (raster_path : string)
    (src_profile : gmap string pval) (src_data : ndarray) (st : state)
  : state :=
  let lp := fresh (dom (heap st)) in
  let h1 := <[self := ORaster (set_profile (Some lp) r0)]>
              (<[lp := OProfile src_profile]> (heap st)) in
  let lc := fresh (dom h1) in
  {| heap :=
       <[self := ORaster
                   (set_name (Some (posixpath.basename raster_path))
                      (set_path (Some raster_path)
                         (set_datacube (Some lc)
                            (set_profile (Some lp) r0))))]>
         (<[lc := ONdarray src_data]> h1);
     stdout := stdout st |}.

(** [self.<field> = value] on the object currently stored at [self]. *)
Definition assign (self : loc) (upd : Raster → Raster) (st : state) : state :=
  match heap st !! self with
  | Some (ORaster r) =>
      {| heap := <[self := ORaster (upd r)]> (heap st); stdout := stdout st |}
  | _ => st
  end.

End RasterClass.

(** ** vector_utils *)

Section VectorUtils.
Context `{Stack}.

Definition get_gdf (l : loc) : M GeoDataFrame :=
  o ← load l;
  match o with
  | OGdf g => mret g
  | _ => raise OutOfModel
  end.

(** [gdf.to_crs(dst_crs)]: a new GeoDataFrame with every geometry
    transformed. *)
Definition to_crs (src dst : crs) (g : GeoDataFrame) : GeoDataFrame :=
  {| gdf_crs := Some dst; geometry := map (transform_geom src dst) (geometry g) |}.

(** [dst_crs = None] stands for a call that leaves the parameter out. *)
Definition reproject_gdf (gdf : loc) (dst_crs : option crs) : M loc :=
  let dst_crs := default (crs_from_epsg 4326) dst_crs in
  g ← get_gdf gdf;
  match gdf_crs g with
  | None => raise CRSError   (* CRS(None) *)
  | Some src_crs =>
      if crs_ne src_crs dst_crs then
        print ("Reprojecting GeoDataFrame from " +:+ crs_str src_crs
               +:+ " to " +:+ crs_str dst_crs);;
        alloc (OGdf (to_crs src_crs dst_crs g))
      else mret gdf
  end.

(** [clipped_profile = raster.profile.copy(); clipped_profile.update(...)] *)
Definition clipped_profile_of (p : gmap string pval)
    (clipped_data : ndarray) (clipped_transform : affine) : gmap string pval :=
  <["transform" := PAffine clipped_transform]>
    (<["width" := PInt (Z.of_nat (ncols clipped_data))]>
       (<["height" := PInt (Z.of_nat (nrows clipped_data))]> p)).

Definition clip_raster (raster : loc) (polygon : loc) : M loc :=
  r ← get_raster raster;
  match profile r with
  | None => raise TypeError   (* None["crs"] *)
  | Some lp =>
      p ← get_profile lp;
      match p !! "crs" with
      | None => raise (KeyError "crs")
      | Some (PCrs dst_crs) =>
          polygon ← reproject_gdf polygon (Some dst_crs);
          d ← datacube raster;
          match d with
          | None => raise OutOfModel   (* src.write(None) *)
          | Some lc =>
              cube ← get_ndarray lc;
              src ← lift (memfile_write p cube);
              g ← get_gdf polygon;
              '(clipped_data, clipped_transform) ← lift (mask_crop src (geometry g));
              ld ← alloc (ONdarray clipped_data);
              lq ← alloc (OProfile (clipped_profile_of p clipped_data clipped_transform));
              datacube_set raster (Some ld);;
              setattr raster (set_profile (Some lq));;
              mret raster
          end
      | Some _ => raise OutOfModel   (* a profile whose "crs" is not a CRS *)
      end
  end.

(** The state left by a successful [clip_raster]: the clipped array and
    the updated copy of the profile are new objects, and the [_datacube]
    and [profile] attributes of the raster are bound to them. *)
Definition after_clip (raster : loc) (r : Raster) (p : gmap string pval)
    (clipped_data : ndarray) (clipped_transform : affine) (st : state)
  : state :=
  let ld := fresh (dom (heap st)) in
  let h1 := <[ld := ONdarray clipped_data]> (heap st) in
  let lq := fresh (dom h1) in
  {| heap :=
       <[raster := ORaster (set_profile (Some lq) (set_datacube (Some ld) r))]>
         (<[lq := OProfile (clipped_profile_of p clipped_data clipped_transform)]>
            h1);
     stdout := stdout st |}.

End VectorUtils.

(** ** Band counts

    The number of bands of the cube of a Raster, the length of its
    wavelength vector, and the number of [bandID] items of its metadata. *)

Section BandCounts.
Context `{Stack}.

Definition band_count (self : loc) (st : state) : option nat :=
  match heap st !! self with
  | Some (ORaster r) =>
      match _datacube r with
      | Some lc =>
          match heap st !! lc with
          | Some (ONdarray a) => Some (length (bands a))
          | _ => None
          end
      | None => None
      end
  | _ => None
  end.

Definition wavelength_count (self : loc) (st : state) : option nat :=
  match heap st !! self with
  | Some (ORaster r) => length <$> wavelength r
  | _ => None
  end.

Definition sidecar_count (self : loc) (st : state) : option nat :=
  match heap st !! self with
  | Some (ORaster r) =>
      match band_ids_of (metadata r) ≫= Py.iter with
      | Ok items => Some (length items)
      | Raise _ => None
      end
  | _ => None
  end.

(** The three counts are all [n]. *)
Definition consistent (self : loc) (st : state) (n : nat) : Prop :=
  band_count self st = Some n ∧
  wavelength_count self st = Some n ∧
  sidecar_count self st = Some n.

End BandCounts.

(** ** A concrete stack: binary32 arithmetic and a small file system

    Used to run the model on explicit inputs.  Scalars are IEEE 754
    binary32 numbers ([np.float32]); CRSs are EPSG codes; a geometry is a
    point; the masking primitive keeps the first row of every band. *)

Module Demo.

Definition prec : Z := 24.
Definition emax : Z := 128.

(** The binary32 number nearest to an integer. *)
Definition f32 (z : Z) : spec_float := binary_normalize prec emax z 0 false.

Definition digit (c : ascii) : option Z :=
  let n := nat_of_ascii c in
  if (48 <=? n)%nat && (n <=? 57)%nat then Some (Z.of_nat (n - 48)) else None.

Fixpoint digits (acc : Z) (s : string) : option Z :=
  match s with
  | EmptyString => Some acc
  | String c s' =>
      match digit c with
      | Some d => digits (10 * acc + d)%Z s'
      | None => None
      end
  end.

(** [np.float32(s)] on the integer literals that binary32 represents
    exactly; every other string is rejected here. *)
Definition float32_literal (s : string) : option spec_float :=
  let '(neg, body) :=
    match s with
    | String "-"%char s' => (true, s')
    | _ => (false, s)
    end in
  match body with
  | EmptyString => None
  | _ =>
      match digits 0 body with
      | Some 0%Z => Some (S754_zero neg)
      | Some z =>
          if (z <? 2 ^ 24)%Z then Some (f32 (if neg then - z else z)%Z) else None
      | None => None
      end
  end.

#[global] Instance types : Types :=
  {| scalar := spec_float; crs := Z; geom := Z * Z; affine := Z * Z |}.

Definition band_entry (w g o : string) : xml :=
  XDict [("wavelengthCenterOfBand", XStr w); ("GainOfBand", XStr g);
         ("OffsetOfBand", XStr o)].

Definition sidecar (entries : list xml) : xml :=
  XDict [("level_X",
          XDict [("specific",
                  XDict [("bandCharacterisation",
                          XDict [("bandID", XList entries)])])])].

Definition band_text (w g o : string) : string :=
  "<bandID><wavelengthCenterOfBand>" +:+ w +:+ "</wavelengthCenterOfBand>"
  +:+ "<GainOfBand>" +:+ g +:+ "</GainOfBand>"
  +:+ "<OffsetOfBand>" +:+ o +:+ "</OffsetOfBand></bandID>".

Definition sidecar_text (entries : string) : string :=
  "<level_X><specific><bandCharacterisation>" +:+ entries
  +:+ "</bandCharacterisation></specific></level_X>".

(** Two descriptors: one with two bands, one with three. *)
Definition two_bands_text : string :=
  sidecar_text (band_text "450" "2" "1" +:+ band_text "550" "3" "0").
Definition two_bands : xml :=
  sidecar [band_entry "450" "2" "1"; band_entry "550" "3" "0"].

Definition three_bands_text : string :=
  sidecar_text (band_text "450" "2" "1" +:+ band_text "550" "3" "0"
                +:+ band_text "650" "1" "0").
Definition three_bands : xml :=
  sidecar [band_entry "450" "2" "1"; band_entry "550" "3" "0";
           band_entry "650" "1" "0"].

(** A 2 x 2 x 2 cube of small integers. *)
Definition cube222 : ndarray :=
  {| bands := [ [ [f32 1; f32 2]; [f32 3; f32 4] ];
                [ [f32 5; f32 6]; [f32 7; f32 8] ] ];
     nrows := 2; ncols := 2 |}.

Definition profile222 : gmap string pval :=
  <["crs" := PCrs 32633%Z]>
    (<["transform" := PAffine (0, 0)%Z]>
       (<["count" := PInt 2]>
          (<["height" := PInt 2]>
             (<["width" := PInt 2]>
                (<["dtype" := PStr "float32"]> ∅))))).

(** The file system: [/data] holds a raster with its descriptor,
    [/lonely] a raster without one, [/mismatch] a two-band raster whose
    descriptor lists three bands. *)
Definition demo_listdir (directory : string) : res (list string) :=
  if String.eqb directory "/data"
  then Ok ["README.txt"; "T1_SPECTRAL_IMAGE.TIF"; "T1_METADATA.XML"]
  else if String.eqb directory "/lonely"
  then Ok ["T2_SPECTRAL_IMAGE.TIF"]
  else if String.eqb directory "/mismatch"
  then Ok ["T3_METADATA.XML"; "T3_SPECTRAL_IMAGE.TIF"]
  else Raise FileNotFoundError.

Definition demo_rasterio_read (p : string)
  : res (gmap string pval * ndarray) :=
  if String.eqb p "/data/T1_SPECTRAL_IMAGE.TIF"
     || String.eqb p "/lonely/T2_SPECTRAL_IMAGE.TIF"
     || String.eqb p "/mismatch/T3_SPECTRAL_IMAGE.TIF"
  then Ok (profile222, cube222)
  else Raise (LibraryError "rasterio").

Definition demo_read_text (p : string) : res string :=
  if String.eqb p "/data/T1_METADATA.XML" then Ok two_bands_text
  else if String.eqb p "/mismatch/T3_METADATA.XML" then Ok three_bands_text
  else Raise FileNotFoundError.

Definition demo_parse (text : string) : res xml :=
  if String.eqb text two_bands_text then Ok two_bands
  else if String.eqb text three_bands_text then Ok three_bands
  else Raise (LibraryError "xmltodict").

Definition demo_mask (src : dataset) (shapes : list (Z * Z))
  : res (ndarray * (Z * Z)) :=
  match shapes with
  | [] => Raise ValueError
  | _ =>
      Ok ({| bands := map (take 1) (bands (ds_data src));
             nrows := 1; ncols := ncols (ds_data src) |}, (0, 1)%Z)
  end.

#[global] Instance stack : Stack :=
  {| np_mul := SFmul prec emax;
     np_add := SFadd prec emax;
     np_float32 := float32_literal;
     np_nan := S754_nan;
     listdir := demo_listdir;
     rasterio_read := demo_rasterio_read;
     read_text := demo_read_text;
     xmltodict_parse := demo_parse;
     crs_from_epsg := λ code, code;
     crs_ne := λ a b, negb (Z.eqb a b);
     crs_str := λ c, "EPSG:" +:+ pretty c;
     transform_geom := λ src dst '(x, y), (x + dst - src, y)%Z;
     memfile_write := λ p a, Ok {| ds_profile := p; ds_data := a |};
     mask_crop := demo_mask |}.

Definition empty : state := {| heap := ∅; stdout := [] |}.

(** The heap after [Raster("/data/T1_SPECTRAL_IMAGE.TIF")]: the Raster
    at location 1, its profile at 2, its cube at 3. *)
Definition loaded : state :=
  snd (Raster_new (Some "/data/T1_SPECTRAL_IMAGE.TIF")
         None None XNone None None empty).

(** A descriptor whose gains are -1 and whose offsets are 0. *)
Definition negating : xml :=
  sidecar [band_entry "450" "-1" "0"; band_entry "550" "-1" "0"].

(** The heap after [Raster(datacube=cube222, metadata=md)]: the cube at
    location 1, the Raster at location 2. *)
Definition in_memory (md : xml) : state :=
  snd ((lc ← alloc (ONdarray cube222);
        Raster_new None None (Some lc) md None None) empty).

(** A point layer in EPSG:4326, placed at location 4 of the heap
    [loaded]. *)
Definition polygon : GeoDataFrame :=
  {| gdf_crs := Some 4326%Z; geometry := [(10, 20)%Z] |}.

Definition with_polygon : state := snd (alloc (OGdf polygon) loaded).

(** The Raster object of the heap [loaded]. *)
Definition loaded_raster : @Raster types :=
  {| wavelength := Some [f32 450; f32 550];
     _datacube := Some 3%positive;
     metadata := two_bands;
     profile := Some 2%positive;
     name := Some "T1_SPECTRAL_IMAGE.TIF";
     path := Some "/data/T1_SPECTRAL_IMAGE.TIF" |}.

(** Descriptors that do not fit: a single [bandID] element, which
    xmltodict gives as a dict and not as a list; a band without offset
    (and with a gain that is no number); a band whose gain is no number;
    a tree without the [specific] level. *)
Definition single_band : xml :=
  XDict [("level_X",
          XDict [("specific",
                  XDict [("bandCharacterisation",
                          XDict [("bandID", band_entry "450" "2" "1")])])])].

Definition no_offset : xml :=
  sidecar [band_entry "450" "2" "1";
           XDict [("wavelengthCenterOfBand", XStr "550");
                  ("GainOfBand", XStr "high")]].

Definition bad_gain : xml :=
  sidecar [band_entry "450" "2" "1"; band_entry "550" "high" "0"].

Definition no_specific : xml := XDict [("level_X", XDict [])].

(** The Raster object of the heap [in_memory md]. *)
Definition in_memory_raster (md : xml) : @Raster types :=
  {| wavelength := None; _datacube := Some 1%positive; metadata := md;
     profile := None; name := None; path := None |}.

(** A cube with a single 1 x 2 band, and the heap after
    [Raster(datacube=a, metadata=md)] for any cube [a]: the cube at
    location 1, the Raster at location 2. *)
Definition cube112 : ndarray :=
  {| bands := [ [ [f32 1; f32 2] ] ]; nrows := 1; ncols := 2 |}.

Definition in_memory_cube (a : ndarray) (md : xml) : state :=
  snd ((lc ← alloc (ONdarray a);
        Raster_new None None (Some lc) md None None) empty).

(** A table with one band, given as a list of one dict. *)
Definition one_entry : xml := sidecar [band_entry "450" "2" "1"].

(** What [demo_mask] returns for [cube222]. *)
Definition clipped222 : ndarray :=
  {| bands := [ [ [f32 1; f32 2] ]; [ [f32 5; f32 6] ] ];
     nrows := 1; ncols := 2 |}.

(** A layer without geometries, which [demo_mask] rejects, at location 4
    of the heap [loaded]. *)
Definition empty_layer : GeoDataFrame :=
  {| gdf_crs := Some 32633%Z; geometry := [] |}.

Definition with_empty_layer : state := snd (alloc (OGdf empty_layer) loaded).

(** A Raster whose profile has no entries: the profile at location 1, the
    cube at 2, the Raster at 3. *)
Definition without_crs : state :=
  snd ((lp ← alloc (OProfile ∅);
        lc ← alloc (ONdarray cube222);
        Raster_new None None (Some lc) two_bands (Some lp) None) empty).

Definition without_crs_raster : @Raster types :=
  {| wavelength := None; _datacube := Some 2%positive; metadata := two_bands;
     profile := Some 1%positive; name := None; path := None |}.

(** A heap with one Raster, at location 1, whose [path] attribute is [p]
    and whose other attributes are [None]. *)
Definition path_only (p : string) : @Raster types :=
  {| wavelength := None; _datacube := None; metadata := XNone;
     profile := None; name := None; path := Some p |}.

Definition at_path (p : string) : state :=
  {| heap := {[ 1%positive := ORaster (path_only p) ]}; stdout := [] |}.

End Demo.

(** * Properties *)

(** ** str.replace *)

Section StrFacts.

Lemma replace_scan_skip old new s k :
  PyStr.replace_scan old new k s
  = PyStr.replace_scan old new 0 (PyStr.drop k s).
Proof.
  revert k. induction s as [|c s IH]; intros [|k]; simpl; auto.
Qed.

(** The three equations that determine [s.replace(old, new)] for a
    non-empty [old]: an occurrence at the front is replaced and the scan
    resumes after it; any other first character is kept. *)
Lemma replace_nil old new : old ≠ "" → PyStr.replace old new "" = "".
Proof. destruct old; [congruence|reflexivity]. Qed.

Lemma replace_match old new s :
  old ≠ "" →
  String.prefix old s = true →
  PyStr.replace old new s
  = new +:+ PyStr.replace old new (PyStr.drop (String.length old) s).
Proof.
  destruct old as [|a old]; [congruence|]. intros _ Hp.
  destruct s as [|c s]; [discriminate|].
  unfold PyStr.replace. cbn [PyStr.replace_scan]. rewrite Hp.
  rewrite replace_scan_skip. simpl. rewrite Nat.sub_0_r. reflexivity.
Qed.

Lemma replace_no_match old new c s :
  old ≠ "" →
  String.prefix old (String c s) = false →
  PyStr.replace old new (String c s) = String c (PyStr.replace old new s).
Proof.
  destruct old as [|a old]; [congruence|]. intros _ Hp.
  unfold PyStr.replace. cbn [PyStr.replace_scan]. rewrite Hp. reflexivity.
Qed.

End StrFacts.

(** ** Running monadic code *)

Section Run.
Context `{Stack}.

Lemma run_bind {A B} (m : M A) (k : A → M B) st :
  (m ≫= k) st =
  match m st with
  | (Ok a, st') => k a st'
  | (Raise e, st') => (Raise e, st')
  end.
Proof. reflexivity. Qed.

Lemma run_bind_ok {A B} (m : M A) (k : A → M B) st a st' :
  m st = (Ok a, st') → (m ≫= k) st = k a st'.
Proof. intros E. rewrite run_bind, E. reflexivity. Qed.

Lemma run_bind_raise {A B} (m : M A) (k : A → M B) st e st' :
  m st = (Raise e, st') → (m ≫= k) st = (Raise e, st').
Proof. intros E. rewrite run_bind, E. reflexivity. Qed.

Lemma run_lift {A} (r : res A) st : lift r st = (r, st).
Proof. reflexivity. Qed.

Lemma get_raster_ok self r st :
  heap st !! self = Some (ORaster r) → get_raster self st = (Ok r, st).
Proof.
  intros E. unfold get_raster. rewrite run_bind. unfold load. rewrite E.
  reflexivity.
Qed.

Lemma get_ndarray_ok l a st :
  heap st !! l = Some (ONdarray a) → get_ndarray l st = (Ok a, st).
Proof.
  intros E. unfold get_ndarray. rewrite run_bind. unfold load. rewrite E.
  reflexivity.
Qed.

Lemma get_profile_ok l p st :
  heap st !! l = Some (OProfile p) → get_profile l st = (Ok p, st).
Proof.
  intros E. unfold get_profile. rewrite run_bind. unfold load. rewrite E.
  reflexivity.
Qed.

Lemma get_gdf_ok l g st :
  heap st !! l = Some (OGdf g) → get_gdf l st = (Ok g, st).
Proof.
  intros E. unfold get_gdf. rewrite run_bind. unfold load. rewrite E.
  reflexivity.
Qed.

Lemma setattr_ok self upd r st :
  heap st !! self = Some (ORaster r) →
  setattr self upd st =
  (Ok tt, {| heap := <[self := ORaster (upd r)]> (heap st);
             stdout := stdout st |}).
Proof.
  intros E. unfold setattr. rewrite (run_bind_ok _ _ _ _ _ (get_raster_ok _ _ _ E)).
  reflexivity.
Qed.

(** A fresh location holds nothing, and differs from every location in
    use. *)
Lemma fresh_unused (h : gmap loc obj) : h !! fresh (dom h) = None.
Proof. apply not_elem_of_dom, is_fresh. Qed.

Lemma fresh_ne (h : gmap loc obj) l o : h !! l = Some o → fresh (dom h) ≠ l.
Proof. intros E Heq. rewrite <- Heq, fresh_unused in E. discriminate. Qed.

End Run.

(** ** numpy broadcasting *)

Section NumpyFacts.
Context `{Stack}.

Lemma lookup_map {A B} (f : A → B) (l : list A) (i : nat) :
  map f l !! i = f <$> (l !! i).
Proof.
  revert i. induction l as [|x l IH]; intros [|i]; simpl; auto.
Qed.

Lemma comprehension_length {A B} (f : A → res B) l l' :
  Py.comprehension f l = Ok l' → length l' = length l.
Proof.
  revert l'. induction l as [|x l IH]; simpl; intros l' E.
  - injection E as <-. reflexivity.
  - destruct (f x) as [y|e]; simpl in E; [|discriminate].
    destruct (Py.comprehension f l) as [ys|e]; simpl in E; [|discriminate].
    injection E as <-. simpl. f_equal. apply IH. reflexivity.
Qed.

(** With one scalar per band, broadcasting pairs band [b] with [v[b]]. *)
Lemma broadcast_bands_same f a v :
  length v = length (bands a) →
  broadcast_bands f a v =
  Ok {| bands := zip_with (λ band g, band_op f g band) (bands a) v;
        nrows := nrows a; ncols := ncols a |}.
Proof.
  intros E. unfold broadcast_bands.
  rewrite E, Nat.eqb_refl. reflexivity.
Qed.

Lemma pixel_band_op f g band r c :
  (row ← band_op f g band !! r; row !! c) =
  (λ x, f x g) <$> (row ← band !! r; row !! c).
Proof.
  unfold band_op. rewrite lookup_map.
  destruct (band !! r) as [row|]; simpl; [|reflexivity].
  apply lookup_map.
Qed.

Lemma pixel_zip_with f (a : ndarray) v nr nc b r c :
  pixel {| bands := zip_with (λ band g, band_op f g band) (bands a) v;
           nrows := nr; ncols := nc |} b r c =
  (x ← pixel a b r c; g ← v !! b; Some (f x g)).
Proof.
  unfold pixel. simpl. rewrite lookup_zip_with.
  destruct (bands a !! b) as [band|]; simpl; [|reflexivity].
  destruct (v !! b) as [g|]; simpl.
  - rewrite pixel_band_op.
    destruct (band !! r) as [row|]; simpl; [|reflexivity].
    destruct (row !! c); reflexivity.
  - destruct (band !! r) as [row|]; simpl; [|reflexivity].
    destruct (row !! c); reflexivity.
Qed.

Lemma length_zip_with_same {A B C} (f : A → B → C) l k :
  length k = length l → length (zip_with f l k) = length l.
Proof. intros E. rewrite length_zip_with. lia. Qed.

Lemma broadcast_rescaled cube gains offsets :
  length gains = length (bands cube) →
  length offsets = length (bands cube) →
  (scaled ← broadcast_bands np_mul cube gains;
   broadcast_bands np_add scaled offsets) = Ok (rescaled cube gains offsets).
Proof.
  intros Eg Eo. rewrite (broadcast_bands_same _ _ _ Eg). simpl.
  rewrite broadcast_bands_same; [reflexivity|].
  simpl. rewrite length_zip_with_same; auto.
Qed.

Lemma shape_rescaled cube gains offsets :
  length gains = length (bands cube) →
  length offsets = length (bands cube) →
  shape (rescaled cube gains offsets) = shape cube.
Proof.
  intros Eg Eo. unfold shape, rescaled. simpl.
  rewrite !length_zip_with_same; auto.
  rewrite length_zip_with_same; auto.
Qed.

Lemma pixel_rescaled cube gains offsets b r c :
  pixel (rescaled cube gains offsets) b r c =
  (x ← pixel cube b r c; g ← gains !! b; o ← offsets !! b;
   Some (np_add (np_mul x g) o)).
Proof.
  unfold rescaled.
  change (zip_with (λ band g, band_op np_mul g band) (bands cube) gains)
    with (bands {| bands := zip_with (λ band g, band_op np_mul g band)
                              (bands cube) gains;
                   nrows := nrows cube; ncols := ncols cube |}).
  rewrite pixel_zip_with, pixel_zip_with.
  destruct (pixel cube b r c) as [x|]; simpl; [|reflexivity].
  destruct (gains !! b) as [g|]; simpl; reflexivity.
Qed.

End NumpyFacts.

(** ** Raster: metadata lookup and rescale *)

Section RasterFacts.
Context `{Stack}.

Lemma run_alloc o st :
  alloc o st =
  (Ok (fresh (dom (heap st))),
   {| heap := <[fresh (dom (heap st)) := o]> (heap st); stdout := stdout st |}).
Proof. reflexivity. Qed.

(** [get_gains_and_offsets] only reads the metadata. *)
Lemma get_gains_and_offsets_run self r st :
  heap st !! self = Some (ORaster r) →
  get_gains_and_offsets self st = (gains_and_offsets_of (metadata r), st).
Proof.
  intros E. unfold get_gains_and_offsets, gains_and_offsets_of.
  rewrite (run_bind_ok _ _ _ _ _ (get_raster_ok _ _ _ E)).
  rewrite run_bind, run_lift.
  destruct (band_ids_of (metadata r)) as [ids|e]; simpl; [|reflexivity].
  rewrite run_bind, run_lift.
  destruct (band_values "GainOfBand" ids) as [gains|e]; simpl; [|reflexivity].
  rewrite run_bind, run_lift.
  destruct (band_values "OffsetOfBand" ids) as [offsets|e]; simpl;
    [|reflexivity].
  rewrite run_bind, run_lift.
  destruct (np_array_float32 gains) as [g|e]; simpl; [|reflexivity].
  rewrite run_bind, run_lift.
  destruct (np_array_float32 offsets) as [o|e]; reflexivity.
Qed.

Lemma band_values_length field ids values :
  band_values field ids = Ok values →
  ∃ items, Py.iter ids = Ok items ∧ length values = length items.
Proof.
  unfold band_values. intros E.
  destruct (Py.iter ids) as [items|e]; simpl in E; [|discriminate].
  exists items. split; [reflexivity|].
  apply comprehension_length in E. exact E.
Qed.

Lemma np_array_float32_length values v :
  np_array_float32 values = Ok v → length v = length values.
Proof. apply comprehension_length. Qed.

(** The gain and offset vectors have one entry per [bandID] item. *)
Lemma gains_offsets_lengths md g o :
  gains_and_offsets_of md = Ok (g, o) →
  ∃ items, band_ids_of md ≫= Py.iter = Ok items ∧
           length g = length items ∧ length o = length items.
Proof.
  unfold gains_and_offsets_of. intros E.
  destruct (band_ids_of md) as [ids|e]; simpl in E; [|discriminate].
  destruct (band_values "GainOfBand" ids) as [gains|e] eqn:Eg; simpl in E;
    [|discriminate].
  destruct (band_values "OffsetOfBand" ids) as [offsets|e] eqn:Eo; simpl in E;
    [|discriminate].
  destruct (np_array_float32 gains) as [g'|e] eqn:Ng; simpl in E;
    [|discriminate].
  destruct (np_array_float32 offsets) as [o'|e] eqn:No; simpl in E;
    [|discriminate].
  injection E as <- <-.
  destruct (band_values_length _ _ _ Eg) as (items & Ei & Lg).
  destruct (band_values_length _ _ _ Eo) as (items' & Ei' & Lo).
  rewrite Ei in Ei'. injection Ei' as <-.
  apply np_array_float32_length in Ng, No.
  exists items. simpl. split; [exact Ei|]. split; congruence.
Qed.

Lemma rescale_run self lc r cube g o st :
  heap st !! self = Some (ORaster r) →
  _datacube r = Some lc →
  heap st !! lc = Some (ONdarray cube) →
  get_gains_and_offsets self st = (Ok (g, o), st) →
  length g = length (bands cube) →
  length o = length (bands cube) →
  rescale self st = (Ok self, after_rescale self r (rescaled cube g o) st).
Proof.
  intros Hself Hd Hc Hgo Lg Lo. unfold rescale.
  rewrite (run_bind_ok _ _ _ _ _ Hgo).
  unfold datacube.
  rewrite run_bind, (run_bind_ok _ _ _ _ _ (get_raster_ok _ _ _ Hself)).
  simpl. rewrite Hd.
  rewrite (run_bind_ok _ _ _ _ _ (get_ndarray_ok _ _ _ Hc)).
  rewrite run_bind, run_lift, (broadcast_bands_same _ _ _ Lg).
  rewrite run_bind, run_lift, broadcast_bands_same
    by (simpl; rewrite length_zip_with_same; auto).
  rewrite run_bind, run_alloc.
  unfold datacube_set. rewrite run_bind.
  erewrite setattr_ok; [reflexivity|].
  simpl. rewrite lookup_insert_ne by (eapply fresh_ne; eauto). exact Hself.
Qed.

End RasterFacts.

Section RescaleProperties.
Context `{Stack}.

(** Whatever happens, [rescale] either raises and leaves the state as it
    was, or returns [self] in a state of the form [after_rescale]. *)
Lemma rescale_cases self r st out st' :
  heap st !! self = Some (ORaster r) →
  rescale self st = (out, st') →
  (st' = st ∧ ∃ e, out = Raise e) ∨
  (∃ cube', out = Ok self ∧ st' = after_rescale self r cube' st).
Proof.
  intros Hself. unfold rescale.
  rewrite run_bind, (get_gains_and_offsets_run _ _ _ Hself).
  destruct (gains_and_offsets_of (metadata r)) as [[g o]|e];
    [|intros [= <- <-]; eauto].
  unfold datacube.
  rewrite run_bind, (run_bind_ok _ _ _ _ _ (get_raster_ok _ _ _ Hself)).
  simpl. destruct (_datacube r) as [lc|];
    [|destruct g; intros [= <- <-]; eauto].
  rewrite run_bind. unfold get_ndarray. rewrite run_bind. unfold load.
  destruct (heap st !! lc) as [[| cube | |]|]; simpl;
    try (intros [= <- <-]; eauto; fail).
  rewrite run_bind, run_lift.
  destruct (broadcast_bands np_mul cube g) as [scaled|e]; simpl;
    [|intros [= <- <-]; eauto].
  rewrite run_bind, run_lift.
  destruct (broadcast_bands np_add scaled o) as [shifted|e]; simpl;
    [|intros [= <- <-]; eauto].
  rewrite run_bind, run_alloc. unfold datacube_set. rewrite run_bind.
  erewrite setattr_ok.
  - intros [= <- <-]. right. exists shifted. split; reflexivity.
  - simpl. rewrite lookup_insert_ne by (eapply fresh_ne; eauto). exact Hself.
Qed.

(** C1.  When the metadata of a Raster yields a gain vector [g] and an
    offset vector [o] with one scalar per band of its cube, [rescale]
    succeeds and returns the very same Raster object; that object, updated
    where it is, now holds a cube of the same shape in which every pixel
    [b, r, c] is [old[b, r, c] * g[b] + o[b]]. *)
Theorem rescale_affine_per_band self lc r cube g o st :
  heap st !! self = Some (ORaster r) →
  _datacube r = Some lc →
  heap st !! lc = Some (ONdarray cube) →
  get_gains_and_offsets self st = (Ok (g, o), st) →
  length g = length (bands cube) →
  ∃ st' lc' cube',
    rescale self st = (Ok self, st') ∧
    heap st' !! self = Some (ORaster (set_datacube (Some lc') r)) ∧
    heap st' !! lc' = Some (ONdarray cube') ∧
    shape cube' = shape cube ∧
    length o = length (bands cube) ∧
    (∀ b row c x,
        pixel cube b row c = Some x →
        ∃ gb ob, g !! b = Some gb ∧ o !! b = Some ob ∧
                 pixel cube' b row c = Some (np_add (np_mul x gb) ob)) ∧
    (∀ b row c, pixel cube b row c = None → pixel cube' b row c = None).
Proof.
  intros Hself Hd Hc Hgo Lg.
  assert (Lo : length o = length (bands cube)).
  { rewrite (get_gains_and_offsets_run _ _ _ Hself) in Hgo.
    injection Hgo as Hgo.
    destruct (gains_offsets_lengths _ _ _ Hgo) as (items & _ & L1 & L2).
    congruence. }
  exists (after_rescale self r (rescaled cube g o) st),
    (fresh (dom (heap st))), (rescaled cube g o).
  split; [eapply rescale_run; eauto|].
  split; [simpl; apply lookup_insert_eq|].
  split.
  { simpl. rewrite lookup_insert_ne by (symmetry; eapply fresh_ne; eauto).
    apply lookup_insert_eq. }
  split; [apply shape_rescaled; auto|].
  split; [exact Lo|].
  split.
  - intros b row c x Hx. rewrite pixel_rescaled, Hx. simpl.
    assert (Hb : b < length (bands cube)).
    { unfold pixel in Hx. destruct (bands cube !! b) eqn:Eb; [|discriminate].
      eapply lookup_lt_Some; eauto. }
    destruct (lookup_lt_is_Some_2 g b) as [gb Egb]; [lia|].
    destruct (lookup_lt_is_Some_2 o b) as [ob Eob]; [lia|].
    exists gb, ob. rewrite Egb, Eob. auto.
  - intros b row c Hx. rewrite pixel_rescaled, Hx. reflexivity.
Qed.

(** C9.  [rescale] changes nothing but the [_datacube] attribute: whether
    it returns or raises, the wavelength vector, metadata tree, profile,
    name and path of the Raster are as before, every other object of the
    heap (the profile and the previous array among them) is untouched, and
    nothing is printed. *)
Theorem rescale_frame self r st out st' :
  heap st !! self = Some (ORaster r) →
  rescale self st = (out, st') →
  ∃ r', heap st' !! self = Some (ORaster r') ∧
        wavelength r' = wavelength r ∧
        metadata r' = metadata r ∧
        profile r' = profile r ∧
        name r' = name r ∧
        path r' = path r ∧
        stdout st' = stdout st ∧
        ∀ l o, l ≠ self → heap st !! l = Some o → heap st' !! l = Some o.
Proof.
  intros Hself Hrun.
  destruct (rescale_cases _ _ _ _ _ Hself Hrun) as [[-> _]|(cube' & _ & ->)].
  - exists r. repeat split; auto.
  - exists (set_datacube (Some (fresh (dom (heap st)))) r).
    split; [simpl; apply lookup_insert_eq|].
    repeat split; auto.
    intros l o Hl Ho. simpl.
    rewrite lookup_insert_ne by congruence.
    rewrite lookup_insert_ne by (eapply fresh_ne; eauto). exact Ho.
Qed.

End RescaleProperties.

(** C1 on the raster loaded from [/data]: gains 2 and 3, offsets 1 and 0. *)
Lemma rescale_affine_per_band_witness :
  ∃ st' lc' cube',
    rescale 1%positive Demo.loaded = (Ok 1%positive, st') ∧
    heap st' !! 1%positive = Some (ORaster (set_datacube (Some lc') Demo.loaded_raster)) ∧
    heap st' !! lc' = Some (ONdarray cube') ∧
    shape cube' = shape Demo.cube222 ∧
    length [Demo.f32 1; Demo.f32 0] = length (bands Demo.cube222) ∧
    (∀ b row c x,
        pixel Demo.cube222 b row c = Some x →
        ∃ gb ob, [Demo.f32 2; Demo.f32 3] !! b = Some gb ∧
                 [Demo.f32 1; Demo.f32 0] !! b = Some ob ∧
                 pixel cube' b row c = Some (np_add (np_mul x gb) ob)) ∧
    (∀ b row c, pixel Demo.cube222 b row c = None → pixel cube' b row c = None).
Proof.
  apply (rescale_affine_per_band 1%positive 3%positive Demo.loaded_raster
           Demo.cube222
           [Demo.f32 2; Demo.f32 3] [Demo.f32 1; Demo.f32 0] Demo.loaded);
    vm_compute; reflexivity.
Defined.

(** ** Loading a Raster from a file *)

Section LoadFacts.
Context `{Stack}.

Lemma lookup_after_alloc (h : gmap loc obj) l o o' :
  h !! l = Some o → <[fresh (dom h) := o']> h !! l = Some o.
Proof.
  intros E. rewrite lookup_insert_ne by (eapply fresh_ne; eauto). exact E.
Qed.

Lemma setattr_assign self upd r st :
  heap st !! self = Some (ORaster r) →
  setattr self upd st = (Ok tt, assign self upd st).
Proof.
  intros E. rewrite (setattr_ok _ _ _ _ E). unfold assign. rewrite E.
  reflexivity.
Qed.

Lemma bind_setattr {B} self upd r (k : () → M B) st :
  heap st !! self = Some (ORaster r) →
  (setattr self upd ≫= k) st =
  k tt {| heap := <[self := ORaster (upd r)]> (heap st); stdout := stdout st |}.
Proof. intros E. apply run_bind_ok, setattr_ok, E. Qed.

Lemma search_listing_spec (directory xml_filename : string)
    (listing : list string) :
  search_listing directory xml_filename listing =
  if decide (xml_filename ∈ listing)
  then Ok (posixpath.join directory xml_filename)
  else Raise FileNotFoundError.
Proof.
  induction listing as [|file rest IH]; simpl.
  - destruct (decide (xml_filename ∈ [])) as [Hin|_]; [inversion Hin|reflexivity].
  - destruct (String.eqb_spec file xml_filename) as [->|Hne].
    + rewrite decide_True by constructor. reflexivity.
    + rewrite IH. destruct (decide (xml_filename ∈ rest)) as [Hin|Hnin].
      * rewrite decide_True by (constructor; exact Hin). reflexivity.
      * rewrite decide_False; [reflexivity|].
        intros Hin. apply elem_of_cons in Hin as [->|Hin]; tauto.
Qed.

Lemma find_metadata_file_run self r p st :
  heap st !! self = Some (ORaster r) →
  path r = Some p →
  find_metadata_file self st =
  ((listing ← listdir (posixpath.dirname p);
    search_listing (posixpath.dirname p) (xml_filename_of p) listing), st).
Proof.
  intros Hself Hp. unfold find_metadata_file.
  rewrite (run_bind_ok _ _ _ _ _ (get_raster_ok _ _ _ Hself)), Hp.
  rewrite run_bind, run_lift.
  destruct (listdir _) as [listing|e]; reflexivity.
Qed.

Lemma get_metadata_run self r p st :
  heap st !! self = Some (ORaster r) →
  path r = Some p →
  get_metadata self st = (sidecar_of p, st).
Proof.
  intros Hself Hp. unfold get_metadata, sidecar_of.
  rewrite run_bind, (find_metadata_file_run _ _ _ _ Hself Hp).
  destruct (listdir _) as [listing|e]; simpl; [|reflexivity].
  destruct (search_listing _ _ listing) as [f|e]; simpl; [|reflexivity].
  rewrite run_bind, run_lift.
  destruct (read_text f) as [text|e]; reflexivity.
Qed.

Lemma get_wavelengths_run self r st :
  heap st !! self = Some (ORaster r) →
  get_wavelengths self st = (wavelengths_of (metadata r), st).
Proof.
  intros Hself. unfold get_wavelengths, wavelengths_of.
  rewrite (run_bind_ok _ _ _ _ _ (get_raster_ok _ _ _ Hself)).
  rewrite run_bind, run_lift.
  destruct (band_ids_of (metadata r)) as [ids|e]; simpl; [|reflexivity].
  rewrite run_bind, run_lift.
  destruct (band_values "wavelengthCenterOfBand" ids) as [values|e];
    reflexivity.
Qed.

Lemma opened_self self r0 p src_profile src_data st :
  heap (opened self r0 p src_profile src_data st) !! self =
  Some (ORaster
          (set_name (Some (posixpath.basename p))
             (set_path (Some p)
                (set_datacube
                   (Some (fresh (dom (<[self := ORaster
                                           (set_profile (Some (fresh (dom (heap st)))) r0)]>
                                        (<[fresh (dom (heap st)) := OProfile src_profile]>
                                           (heap st))))))
                   (set_profile (Some (fresh (dom (heap st)))) r0))))).
Proof. unfold opened. simpl. apply lookup_insert_eq. Qed.

(** [load_from_file] as a function of what the file system holds. *)
Lemma load_from_file_run self r0 p st :
  heap st !! self = Some (ORaster r0) →
  load_from_file self p st =
  match rasterio_read p with
  | Raise e => (Raise e, st)
  | Ok (src_profile, src_data) =>
      let st1 := opened self r0 p src_profile src_data st in
      match sidecar_of p with
      | Raise e => (Raise e, st1)
      | Ok md =>
          let st2 := assign self (set_metadata md) st1 in
          match wavelengths_of md with
          | Raise e => (Raise e, st2)
          | Ok wl => (Ok tt, assign self (set_wavelength (Some wl)) st2)
          end
      end
  end.
Proof.
  intros Hself. unfold load_from_file.
  rewrite run_bind, run_lift.
  destruct (rasterio_read p) as [[src_profile src_data]|e]; [|reflexivity].
  cbv zeta. rewrite run_bind, run_alloc.
  erewrite bind_setattr; [|simpl; apply lookup_after_alloc; exact Hself].
  rewrite run_bind, run_alloc. simpl heap. simpl stdout.
  erewrite bind_setattr; [|simpl; apply lookup_after_alloc, lookup_insert_eq].
  simpl heap. simpl stdout.
  erewrite bind_setattr; [|simpl; apply lookup_insert_eq].
  simpl heap. simpl stdout.
  erewrite bind_setattr; [|simpl; apply lookup_insert_eq].
  simpl heap. simpl stdout. rewrite !insert_insert_eq.
  change {| heap := _; stdout := stdout st |}
    with (opened self r0 p src_profile src_data st).
  rewrite run_bind.
  erewrite get_metadata_run; [|apply opened_self|reflexivity].
  destruct (sidecar_of p) as [md|e]; [|reflexivity].
  erewrite (run_bind_ok _ _ _ _ _ (setattr_assign _ _ _ _ (opened_self _ _ _ _ _ _))).
  rewrite run_bind.
  erewrite get_wavelengths_run; cycle 1.
  { unfold assign. rewrite opened_self. simpl. apply lookup_insert_eq. }
  simpl metadata.
  destruct (wavelengths_of md) as [wl|e]; [|reflexivity].
  erewrite setattr_assign; [reflexivity|].
  unfold assign. rewrite opened_self. simpl. apply lookup_insert_eq.
Qed.

End LoadFacts.

Section LoadProperties.
Context `{Stack}.

Lemma sidecar_of_absent p (listing : list string) :
  listdir (posixpath.dirname p) = Ok listing →
  xml_filename_of p ∉ listing →
  sidecar_of p = Raise FileNotFoundError.
Proof.
  intros Hl Hnin. unfold sidecar_of. rewrite Hl. simpl.
  rewrite search_listing_spec, decide_False by exact Hnin. reflexivity.
Qed.

(** C3.  When the raster file itself opens and the listing of its
    directory does not contain the derived XML filename, constructing the
    Raster from the path raises [FileNotFoundError], the error that
    [find_metadata_file] raises itself, and nothing else. *)
Theorem load_without_sidecar (p : string) src_profile src_data
    (listing : list string) w d m pr n st :
  rasterio_read p = Ok (src_profile, src_data) →
  listdir (posixpath.dirname p) = Ok listing →
  PyStr.replace "SPECTRAL_IMAGE.TIF" "METADATA.XML" (posixpath.basename p)
    ∉ listing →
  fst (Raster_new (Some p) w d m pr n st) = Raise FileNotFoundError.
Proof.
  intros Hr Hl Hnin. unfold Raster_new.
  rewrite run_bind, run_alloc, run_bind. unfold __init__.
  erewrite load_from_file_run by (simpl; apply lookup_insert_eq).
  rewrite Hr. cbv zeta.
  rewrite (sidecar_of_absent _ _ Hl Hnin). reflexivity.
Qed.

(** C7.  The sidecar path is the raster's directory joined with the
    raster's basename in which "SPECTRAL_IMAGE.TIF" is replaced by
    "METADATA.XML"; it is found exactly when that name occurs in the
    listing of the raster's own directory, and no other directory is
    consulted. *)
Theorem sidecar_path_derivation self r (p : string) st :
  heap st !! self = Some (ORaster r) →
  path r = Some p →
  find_metadata_file self st =
  (match listdir (posixpath.dirname p) with
   | Ok listing =>
       if decide (PyStr.replace "SPECTRAL_IMAGE.TIF" "METADATA.XML"
                    (posixpath.basename p) ∈ listing)
       then Ok (posixpath.join (posixpath.dirname p)
                  (PyStr.replace "SPECTRAL_IMAGE.TIF" "METADATA.XML"
                     (posixpath.basename p)))
       else Raise FileNotFoundError
   | Raise e => Raise e
   end, st).
Proof.
  intros Hself Hp. rewrite (find_metadata_file_run _ _ _ _ Hself Hp).
  destruct (listdir _) as [listing|e]; simpl; [|reflexivity].
  rewrite search_listing_spec. reflexivity.
Qed.


End LoadProperties.

(** ** vector_utils *)

Section VectorProperties.
Context `{Stack}.

Lemma reproject_same gdf g src dst st :
  heap st !! gdf = Some (OGdf g) →
  gdf_crs g = Some src →
  crs_ne src dst = false →
  reproject_gdf gdf (Some dst) st = (Ok gdf, st).
Proof.
  intros Hg Hc Hne. unfold reproject_gdf.
  rewrite (run_bind_ok _ _ _ _ _ (get_gdf_ok _ _ _ Hg)), Hc. simpl.
  rewrite Hne. reflexivity.
Qed.

(** The state after a reprojection that had to be carried out. *)
Lemma reproject_other gdf g src dst st :
  heap st !! gdf = Some (OGdf g) →
  gdf_crs g = Some src →
  crs_ne src dst = true →
  reproject_gdf gdf (Some dst) st =
  (Ok (fresh (dom (heap st))),
   {| heap := <[fresh (dom (heap st)) := OGdf (to_crs src dst g)]> (heap st);
      stdout := stdout st ++
        ["Reprojecting GeoDataFrame from " +:+ crs_str src
         +:+ " to " +:+ crs_str dst] |}).
Proof.
  intros Hg Hc Hne. unfold reproject_gdf.
  rewrite (run_bind_ok _ _ _ _ _ (get_gdf_ok _ _ _ Hg)), Hc. simpl.
  rewrite Hne. reflexivity.
Qed.

(** Whatever it does, [reproject_gdf] leaves the objects of the heap as
    they are; a location it returns holds a GeoDataFrame. *)
Lemma reproject_preserves gdf dst out st st' :
  reproject_gdf gdf dst st = (out, st') →
  (∀ l o, heap st !! l = Some o → heap st' !! l = Some o) ∧
  (∀ l, out = Ok l → ∃ g, heap st' !! l = Some (OGdf g)).
Proof.
  unfold reproject_gdf. rewrite run_bind. unfold get_gdf.
  rewrite run_bind. unfold load.
  destruct (heap st !! gdf) as [[| | |g]|] eqn:Hg; simpl;
    try (intros [= <- <-]; split; [auto|discriminate]).
  destruct (gdf_crs g) as [src|];
    [|intros [= <- <-]; split; [auto|discriminate]].
  destruct (crs_ne src _).
  - intros [= <- <-]. simpl. split.
    + intros l o Hl. apply lookup_after_alloc. exact Hl.
    + intros l [= <-]. eexists. apply lookup_insert_eq.
  - intros [= <- <-]. split; [auto|].
    intros l [= <-]. eauto.
Qed.

(** C5.  A layer whose CRS is not different from the target comes back
    as the very same object, in an unchanged state (so with the same
    geometries); otherwise the result is a new layer in the target CRS
    whose geometries are the transformed geometries of the input, which
    itself stays as it was. *)
Theorem reproject_gdf_spec gdf g src dst st :
  heap st !! gdf = Some (OGdf g) →
  gdf_crs g = Some src →
  (crs_ne src dst = false →
     reproject_gdf gdf (Some dst) st = (Ok gdf, st)) ∧
  (crs_ne src dst = true →
     ∃ l' st',
       reproject_gdf gdf (Some dst) st = (Ok l', st') ∧
       l' ≠ gdf ∧
       heap st' !! l' =
         Some (OGdf {| gdf_crs := Some dst;
                       geometry := map (transform_geom src dst) (geometry g) |}) ∧
       heap st' !! gdf = Some (OGdf g)).
Proof.
  intros Hg Hc. split; intros Hne.
  - eapply reproject_same; eauto.
  - eexists _, _. split; [eapply reproject_other; eauto|].
    split; [eapply fresh_ne; eauto|].
    split; [simpl; apply lookup_insert_eq|].
    simpl. apply lookup_after_alloc. exact Hg.
Qed.

(** C8.  A call without a target CRS is a call with EPSG:4326: a layer in
    another CRS comes back as a new layer whose CRS is EPSG:4326 and whose
    geometries were transformed to it. *)
Theorem reproject_gdf_default gdf st :
  reproject_gdf gdf None st = reproject_gdf gdf (Some (crs_from_epsg 4326)) st ∧
  ∀ g src,
    heap st !! gdf = Some (OGdf g) →
    gdf_crs g = Some src →
    crs_ne src (crs_from_epsg 4326) = true →
    ∃ l' st',
      reproject_gdf gdf None st = (Ok l', st') ∧
      heap st' !! l' =
        Some (OGdf {| gdf_crs := Some (crs_from_epsg 4326);
                      geometry := map (transform_geom src (crs_from_epsg 4326))
                                    (geometry g) |}).
Proof.
  split; [reflexivity|].
  intros g src Hg Hc Hne.
  change (reproject_gdf gdf None st)
    with (reproject_gdf gdf (Some (crs_from_epsg 4326)) st).
  rewrite (reproject_other _ _ _ _ _ Hg Hc Hne).
  eexists _, _. split; [reflexivity|].
  simpl. apply lookup_insert_eq.
Qed.

Lemma clipped_profile_lookup (p : gmap string pval) clipped t :
  clipped_profile_of p clipped t !! "height"
    = Some (PInt (Z.of_nat (nrows clipped))) ∧
  clipped_profile_of p clipped t !! "width"
    = Some (PInt (Z.of_nat (ncols clipped))) ∧
  clipped_profile_of p clipped t !! "transform" = Some (PAffine t) ∧
  ∀ k, k ≠ "height" → k ≠ "width" → k ≠ "transform" →
       clipped_profile_of p clipped t !! k = p !! k.
Proof.
  unfold clipped_profile_of. repeat split.
  - rewrite lookup_insert_ne by discriminate.
    rewrite lookup_insert_ne by discriminate. apply lookup_insert_eq.
  - rewrite lookup_insert_ne by discriminate. apply lookup_insert_eq.
  - apply lookup_insert_eq.
  - intros k H1 H2 H3. rewrite !lookup_insert_ne by congruence. reflexivity.
Qed.

End VectorProperties.

Section ClipProperties.
Context `{Stack}.

(** What a successful [clip_raster] went through. *)
Lemma clip_raster_ok_inv raster polygon r lp p st v st' :
  heap st !! raster = Some (ORaster r) →
  profile r = Some lp →
  heap st !! lp = Some (OProfile p) →
  clip_raster raster polygon st = (Ok v, st') →
  ∃ dst_crs polygon' st1 lc cube src g clipped t,
    p !! "crs" = Some (PCrs dst_crs) ∧
    reproject_gdf polygon (Some dst_crs) st = (Ok polygon', st1) ∧
    _datacube r = Some lc ∧
    heap st1 !! lc = Some (ONdarray cube) ∧
    memfile_write p cube = Ok src ∧
    heap st1 !! polygon' = Some (OGdf g) ∧
    mask_crop src (geometry g) = Ok (clipped, t) ∧
    v = raster ∧
    st' = after_clip raster r p clipped t st1.
Proof.
  intros Hself Hp Hlp. unfold clip_raster.
  rewrite (run_bind_ok _ _ _ _ _ (get_raster_ok _ _ _ Hself)), Hp.
  rewrite (run_bind_ok _ _ _ _ _ (get_profile_ok _ _ _ Hlp)).
  destruct (p !! "crs") as [[| | | |dst_crs|]|] eqn:Hcrs;
    try (intros [=]; fail).
  rewrite run_bind.
  destruct (reproject_gdf polygon (Some dst_crs) st) as [[polygon'|e] st1] eqn:Hre;
    [|intros [=]].
  destruct (reproject_preserves _ _ _ _ _ Hre) as [Hpres Hgdf].
  destruct (Hgdf polygon' eq_refl) as [g Hg].
  unfold datacube.
  rewrite run_bind,
    (run_bind_ok _ _ _ _ _ (get_raster_ok _ _ _ (Hpres _ _ Hself))).
  simpl. destruct (_datacube r) as [lc|] eqn:Hd; [|intros [=]].
  rewrite run_bind. unfold get_ndarray. rewrite run_bind. unfold load.
  destruct (heap st1 !! lc) as [[|cube| |]|] eqn:Hc; simpl;
    try (intros [=]; fail).
  rewrite run_bind, run_lift.
  destruct (memfile_write p cube) as [src|e] eqn:Hw; [|intros [=]].
  rewrite (run_bind_ok _ _ _ _ _ (get_gdf_ok _ _ _ Hg)).
  rewrite run_bind, run_lift.
  destruct (mask_crop src (geometry g)) as [[clipped t]|e] eqn:Hm;
    [|intros [=]].
  rewrite run_bind, run_alloc, run_bind, run_alloc.
  unfold datacube_set. simpl heap. simpl stdout.
  erewrite bind_setattr;
    [|simpl; apply lookup_after_alloc, lookup_after_alloc, Hpres, Hself].
  simpl heap. simpl stdout.
  erewrite bind_setattr; [|simpl; apply lookup_insert_eq].
  simpl heap. simpl stdout. rewrite insert_insert_eq.
  intros [= <- <-].
  exists dst_crs, polygon', st1, lc, cube, src, g, clipped, t.
  repeat split; auto.
Qed.

(** A reprojection that returned: the layer it was given has a CRS, and
    the layer it returns is that one, or its transform to the target. *)
Lemma reproject_ok_inv gdf dst l st st1 :
  reproject_gdf gdf (Some dst) st = (Ok l, st1) →
  ∃ g src,
    heap st !! gdf = Some (OGdf g) ∧
    gdf_crs g = Some src ∧
    heap st1 !! l =
      Some (OGdf (if crs_ne src dst then to_crs src dst g else g)).
Proof.
  unfold reproject_gdf. rewrite run_bind. unfold get_gdf.
  rewrite run_bind. unfold load.
  destruct (heap st !! gdf) as [[| | |g]|] eqn:Hg; simpl;
    try (intros [=]; fail).
  destruct (gdf_crs g) as [src|] eqn:Hc; [|intros [=]].
  destruct (crs_ne src dst) eqn:Hne.
  - intros [= <- <-]. exists g, src. rewrite Hne. simpl.
    repeat split; auto. apply lookup_insert_eq.
  - intros [= <- <-]. exists g, src. rewrite Hne. auto.
Qed.

(** C2.  A successful [clip_raster] returns the raster it was given.  The
    clipped array and geotransform are what the masking primitive returns
    for the raster's cube, written to a dataset with the raster's profile,
    and the geometries of the polygon layer, transformed to the raster's CRS
    unless the layer is in it already.  Of the raster it rebinds the pixel
    cube, to the clipped array, and the profile, to a copy in which "height"
    and "width" are the row and column counts of the clipped array and
    "transform" is the clipped geotransform; every other key of the profile
    has the value it had, and name, path, wavelength and metadata are
    unchanged.  No other object that existed before the call is modified. *)
Theorem clip_raster_frame raster polygon r lp p lc cube st v st' :
  heap st !! raster = Some (ORaster r) →
  profile r = Some lp →
  heap st !! lp = Some (OProfile p) →
  _datacube r = Some lc →
  heap st !! lc = Some (ONdarray cube) →
  clip_raster raster polygon st = (Ok v, st') →
  ∃ r' ld lq clipped p' dst g src ds t,
    v = raster ∧
    heap st' !! raster = Some (ORaster r') ∧
    p !! "crs" = Some (PCrs dst) ∧
    heap st !! polygon = Some (OGdf g) ∧
    gdf_crs g = Some src ∧
    memfile_write p cube = Ok ds ∧
    mask_crop ds (if crs_ne src dst
                  then map (transform_geom src dst) (geometry g)
                  else geometry g) = Ok (clipped, t) ∧
    _datacube r' = Some ld ∧ heap st' !! ld = Some (ONdarray clipped) ∧
    profile r' = Some lq ∧ heap st' !! lq = Some (OProfile p') ∧
    p' !! "height" = Some (PInt (Z.of_nat (nrows clipped))) ∧
    p' !! "width" = Some (PInt (Z.of_nat (ncols clipped))) ∧
    p' !! "transform" = Some (PAffine t) ∧
    (∀ k, k ≠ "height" → k ≠ "width" → k ≠ "transform" → p' !! k = p !! k) ∧
    name r' = name r ∧ path r' = path r ∧
    wavelength r' = wavelength r ∧ metadata r' = metadata r ∧
    (∀ l o, l ≠ raster → heap st !! l = Some o → heap st' !! l = Some o).
Proof.
  intros Hself Hp Hlp Hd Hc Hrun.
  destruct (clip_raster_ok_inv _ _ _ _ _ _ _ _ Hself Hp Hlp Hrun)
    as (dst & polygon' & st1 & lc' & cube' & ds & g' & clipped & t
        & Hcrs & Hre & Hd' & Hc' & Hw & Hg' & Hm & -> & ->).
  destruct (reproject_preserves _ _ _ _ _ Hre) as [Hpres _].
  destruct (reproject_ok_inv _ _ _ _ _ Hre) as (g & src & Hg & Hsrc & Hg1).
  rewrite Hg1 in Hg'. injection Hg' as <-.
  assert (Hgeo : geometry (if crs_ne src dst then to_crs src dst g else g)
                 = if crs_ne src dst
                   then map (transform_geom src dst) (geometry g)
                   else geometry g)
    by (destruct (crs_ne src dst); reflexivity).
  rewrite Hgeo in Hm.
  rewrite Hd in Hd'. injection Hd' as <-.
  rewrite (Hpres _ _ Hc) in Hc'. injection Hc' as <-.
  destruct (clipped_profile_lookup p clipped t) as (Hh & Hwd & Ht & Hk).
  set (ld := fresh (dom (heap st1))).
  set (lq := fresh (dom (<[ld := ONdarray clipped]> (heap st1)))).
  assert (Hraster1 : (<[ld := ONdarray clipped]> (heap st1)) !! raster
                     = Some (ORaster r)).
  { apply lookup_after_alloc, Hpres, Hself. }
  assert (Hld : (<[ld := ONdarray clipped]> (heap st1)) !! ld
                = Some (ONdarray clipped)) by apply lookup_insert_eq.
  exists (set_profile (Some lq) (set_datacube (Some ld) r)), ld, lq, clipped,
    (clipped_profile_of p clipped t), dst, g, src, ds, t.
  split; [reflexivity|].
  split; [simpl; apply lookup_insert_eq|].
  split; [exact Hcrs|]. split; [exact Hg|]. split; [exact Hsrc|].
  split; [exact Hw|]. split; [exact Hm|].
  split; [reflexivity|].
  split.
  { simpl. fold ld. fold lq.
    rewrite lookup_insert_ne
      by (intros E; rewrite E, lookup_insert_eq in Hraster1; discriminate).
    apply lookup_after_alloc. exact Hld. }
  split; [reflexivity|].
  split.
  { simpl. fold ld. fold lq.
    rewrite lookup_insert_ne by (symmetry; eapply fresh_ne; exact Hraster1).
    apply lookup_insert_eq. }
  repeat (split; [assumption || reflexivity|]).
  intros l o Hl Ho. simpl. fold ld. fold lq.
  rewrite lookup_insert_ne by congruence.
  apply lookup_after_alloc, lookup_after_alloc, Hpres, Ho.
Qed.

End ClipProperties.

(** ** Applying rescale twice *)

Section RescaleTwice.
Context `{Stack}.

Lemma map_fixed {A} (f : A → A) (l : list A) :
  map f l = l ↔ ∀ i x, l !! i = Some x → f x = x.
Proof.
  induction l as [|y l IH]; simpl.
  - split; [intros _ i x Hx; discriminate|reflexivity].
  - destruct IH as [IH1 IH2]. split.
    + intros [= Hy Hl] [|i] x Hx; simpl in Hx.
      * injection Hx as <-. exact Hy.
      * exact (IH1 Hl i x Hx).
    + intros Hall. f_equal.
      * apply (Hall 0). reflexivity.
      * apply IH2. intros i x Hx. apply (Hall (S i)). exact Hx.
Qed.

Lemma ndarray_eq (a a' : ndarray) :
  bands a = bands a' → nrows a = nrows a' → ncols a = ncols a' → a = a'.
Proof. destruct a, a'. simpl. intros -> -> ->. reflexivity. Qed.

Lemma rescaled_bands_lookup cube g o b :
  bands (rescaled cube g o) !! b =
  (band ← bands cube !! b; gb ← g !! b; ob ← o !! b;
   Some (map (map (λ x, np_add (np_mul x gb) ob)) band)).
Proof.
  unfold rescaled. simpl. rewrite !lookup_zip_with.
  destruct (bands cube !! b) as [band|]; simpl; [|reflexivity].
  destruct (g !! b) as [gb|]; simpl; [|reflexivity].
  destruct (o !! b) as [ob|]; simpl; [|reflexivity].
  unfold band_op. rewrite map_map. f_equal.
  apply map_ext. intros row. rewrite map_map. reflexivity.
Qed.

Lemma rescaled_lengths cube g o :
  length g = length (bands cube) →
  length o = length (bands cube) →
  length (bands (rescaled cube g o)) = length (bands cube).
Proof.
  intros Lg Lo.
  pose proof (shape_rescaled cube g o Lg Lo) as E. unfold shape in E.
  congruence.
Qed.

(** Two applications give back the cube they started from exactly when
    every pixel is a fixed point of the affine map of its band applied
    twice. *)
Lemma rescaled_twice_fixed cube g o :
  length g = length (bands cube) →
  length o = length (bands cube) →
  rescaled (rescaled cube g o) g o = cube ↔
  ∀ b row c x gb ob,
    pixel cube b row c = Some x → g !! b = Some gb → o !! b = Some ob →
    np_add (np_mul (np_add (np_mul x gb) ob) gb) ob = x.
Proof.
  intros Lg Lo. split.
  - intros E b row c x gb ob Hx Hg Ho.
    assert (P : pixel (rescaled (rescaled cube g o) g o) b row c = Some x)
      by (rewrite E; exact Hx).
    rewrite !pixel_rescaled, Hx in P. simpl in P.
    rewrite Hg in P. simpl in P. rewrite Ho in P. simpl in P.
    congruence.
  - intros Hfix. apply ndarray_eq; [|reflexivity|reflexivity].
    apply list_eq. intros b.
    rewrite rescaled_bands_lookup, rescaled_bands_lookup.
    set (bs := bands cube) in *.
    destruct (bs !! b) as [band|] eqn:Eb; simpl; [|reflexivity].
    pose proof (lookup_lt_Some _ _ _ Eb) as Hb.
    destruct (lookup_lt_is_Some_2 g b) as [gb Egb]; [lia|].
    destruct (lookup_lt_is_Some_2 o b) as [ob Eob]; [lia|].
    rewrite Egb, Eob. simpl. f_equal.
    rewrite map_map. apply map_fixed. intros r row Hr.
    rewrite map_map. apply map_fixed. intros c x Hc.
    apply (Hfix b r c x gb ob); auto.
    unfold pixel. fold bs. rewrite Eb. simpl. rewrite Hr. exact Hc.
Qed.

(** C4 (as amended).  With one gain and one offset per band, two
    applications of [rescale] succeed and apply the affine map of each
    band twice: pixel [x] of band [b] becomes
    [(x * g[b] + o[b]) * g[b] + o[b]].  The resulting cube is the input
    cube exactly when every pixel is a fixed point of that map. *)
Theorem rescale_twice self lc r cube g o st :
  heap st !! self = Some (ORaster r) →
  _datacube r = Some lc →
  heap st !! lc = Some (ONdarray cube) →
  get_gains_and_offsets self st = (Ok (g, o), st) →
  length g = length (bands cube) →
  ∃ st2 lc2 cube2,
    (rescale self ≫= λ _, rescale self) st = (Ok self, st2) ∧
    heap st2 !! self = Some (ORaster (set_datacube (Some lc2) r)) ∧
    heap st2 !! lc2 = Some (ONdarray cube2) ∧
    (∀ b row c x,
        pixel cube b row c = Some x →
        ∃ gb ob, g !! b = Some gb ∧ o !! b = Some ob ∧
                 pixel cube2 b row c =
                 Some (np_add (np_mul (np_add (np_mul x gb) ob) gb) ob)) ∧
    (cube2 = cube ↔
     ∀ b row c x gb ob,
       pixel cube b row c = Some x → g !! b = Some gb → o !! b = Some ob →
       np_add (np_mul (np_add (np_mul x gb) ob) gb) ob = x).
Proof.
  intros Hself Hd Hc Hgo Lg.
  assert (Lo : length o = length (bands cube)).
  { rewrite (get_gains_and_offsets_run _ _ _ Hself) in Hgo.
    injection Hgo as Hgo.
    destruct (gains_offsets_lengths _ _ _ Hgo) as (items & _ & L1 & L2).
    congruence. }
  pose proof (rescale_run _ _ _ _ _ _ _ Hself Hd Hc Hgo Lg Lo) as R1.
  set (st1 := after_rescale self r (rescaled cube g o) st) in *.
  set (l1 := fresh (dom (heap st))).
  assert (Hself1 : heap st1 !! self = Some (ORaster (set_datacube (Some l1) r)))
    by (simpl; apply lookup_insert_eq).
  assert (Hc1 : heap st1 !! l1 = Some (ONdarray (rescaled cube g o))).
  { simpl. fold l1.
    rewrite lookup_insert_ne by (symmetry; eapply fresh_ne; eauto).
    apply lookup_insert_eq. }
  assert (Hgo1 : get_gains_and_offsets self st1 = (Ok (g, o), st1)).
  { rewrite (get_gains_and_offsets_run _ _ _ Hself1). simpl metadata.
    rewrite (get_gains_and_offsets_run _ _ _ Hself) in Hgo.
    injection Hgo as ->. reflexivity. }
  pose proof (rescale_run _ _ _ _ _ _ _ Hself1 eq_refl Hc1 Hgo1) as R2.
  rewrite rescaled_lengths in R2 by auto.
  specialize (R2 Lg Lo).
  exists (after_rescale self (set_datacube (Some l1) r)
            (rescaled (rescaled cube g o) g o) st1),
    (fresh (dom (heap st1))), (rescaled (rescaled cube g o) g o).
  split; [rewrite (run_bind_ok _ _ _ _ _ R1); exact R2|].
  split; [simpl; apply lookup_insert_eq|].
  split.
  { cbn [after_rescale heap].
    rewrite lookup_insert_ne by (symmetry; eapply fresh_ne; eauto).
    apply lookup_insert_eq. }
  split; [|apply rescaled_twice_fixed; auto].
  intros b row c x Hx.
  assert (Hb : b < length (bands cube)).
  { unfold pixel in Hx. destruct (bands cube !! b) eqn:Eb; [|discriminate].
    eapply lookup_lt_Some; eauto. }
  destruct (lookup_lt_is_Some_2 g b) as [gb Egb]; [lia|].
  destruct (lookup_lt_is_Some_2 o b) as [ob Eob]; [lia|].
  exists gb, ob. rewrite !pixel_rescaled, Hx. simpl.
  rewrite Egb. simpl. rewrite Eob. simpl. auto.
Qed.

End RescaleTwice.

(** ** Band counts after load, rescale and clip *)

Section BandCountFacts.
Context `{Stack}.

Lemma band_count_intro self r lc a st :
  heap st !! self = Some (ORaster r) →
  _datacube r = Some lc →
  heap st !! lc = Some (ONdarray a) →
  band_count self st = Some (length (bands a)).
Proof. intros E1 E2 E3. unfold band_count. rewrite E1, E2, E3. reflexivity. Qed.

Lemma band_count_elim self st n :
  band_count self st = Some n →
  ∃ r lc a, heap st !! self = Some (ORaster r) ∧ _datacube r = Some lc ∧
            heap st !! lc = Some (ONdarray a) ∧ length (bands a) = n.
Proof.
  unfold band_count.
  destruct (heap st !! self) as [[r| | |]|] eqn:E1; try (intros [=]; fail).
  destruct (_datacube r) as [lc|] eqn:E2; try (intros [=]; fail).
  destruct (heap st !! lc) as [[|a| |]|] eqn:E3; try (intros [=]; fail).
  intros [= <-]. exists r, lc, a. auto.
Qed.

Lemma wavelengths_of_length md wl :
  wavelengths_of md = Ok wl →
  ∃ items, band_ids_of md ≫= Py.iter = Ok items ∧ length wl = length items.
Proof.
  unfold wavelengths_of. intros E.
  destruct (band_ids_of md) as [ids|e]; simpl in E; [|discriminate].
  destruct (band_values "wavelengthCenterOfBand" ids) as [values|e] eqn:Ev;
    simpl in E; [|discriminate].
  destruct (band_values_length _ _ _ Ev) as (items & Ei & L).
  apply np_array_float32_length in E.
  exists items. split; [exact Ei|congruence].
Qed.

Lemma assign_lookup_self self upd r st :
  heap st !! self = Some (ORaster r) →
  heap (assign self upd st) !! self = Some (ORaster (upd r)).
Proof. intros E. unfold assign. rewrite E. simpl. apply lookup_insert_eq. Qed.

Lemma assign_lookup_ne self upd st l :
  l ≠ self → heap (assign self upd st) !! l = heap st !! l.
Proof.
  intros Hne. unfold assign.
  destruct (heap st !! self) as [[r| | |]|]; simpl; try reflexivity.
  apply lookup_insert_ne. congruence.
Qed.

(** The objects of the state [opened]: the Raster, its cube and its
    profile, at three different locations. *)
Lemma opened_others self r0 p src_profile src_data st :
  heap st !! self = Some (ORaster r0) →
  ∃ lp lc,
    heap (opened self r0 p src_profile src_data st) !! self =
      Some (ORaster
              (set_name (Some (posixpath.basename p))
                 (set_path (Some p)
                    (set_datacube (Some lc) (set_profile (Some lp) r0))))) ∧
    heap (opened self r0 p src_profile src_data st) !! lc
      = Some (ONdarray src_data) ∧
    heap (opened self r0 p src_profile src_data st) !! lp
      = Some (OProfile src_profile) ∧
    lc ≠ self ∧ lp ≠ self.
Proof.
  intros Hself.
  set (lp := fresh (dom (heap st))).
  set (h1 := <[self := ORaster (set_profile (Some lp) r0)]>
               (<[lp := OProfile src_profile]> (heap st))).
  set (lc := fresh (dom h1)).
  assert (Hself1 : h1 !! self = Some (ORaster (set_profile (Some lp) r0)))
    by apply lookup_insert_eq.
  assert (Hlp : lp ≠ self) by (eapply fresh_ne; exact Hself).
  assert (Hlc : lc ≠ self) by (eapply fresh_ne; exact Hself1).
  assert (Hlp1 : h1 !! lp = Some (OProfile src_profile)).
  { unfold h1. rewrite lookup_insert_ne by congruence. apply lookup_insert_eq. }
  assert (Hlclp : lc ≠ lp) by (eapply fresh_ne; exact Hlp1).
  exists lp, lc. unfold opened. cbn [heap]. fold lp. fold h1. fold lc.
  split; [apply lookup_insert_eq|].
  split; [rewrite lookup_insert_ne by congruence; apply lookup_insert_eq|].
  split; [|auto].
  rewrite !lookup_insert_ne by congruence. exact Hlp1.
Qed.

(** What a successful construction from a path leaves behind. *)
Lemma load_ok_inv p w d m pr n st self st' :
  Raster_new (Some p) w d m pr n st = (Ok self, st') →
  ∃ src_profile src_data md wl lp lc,
    rasterio_read p = Ok (src_profile, src_data) ∧
    sidecar_of p = Ok md ∧
    wavelengths_of md = Ok wl ∧
    heap st' !! self =
      Some (ORaster {| wavelength := Some wl; _datacube := Some lc;
                       metadata := md; profile := Some lp;
                       name := Some (posixpath.basename p);
                       path := Some p |}) ∧
    heap st' !! lc = Some (ONdarray src_data) ∧
    heap st' !! lp = Some (OProfile src_profile).
Proof.
  unfold Raster_new. rewrite run_bind, run_alloc, run_bind. unfold __init__.
  erewrite load_from_file_run by (simpl; apply lookup_insert_eq).
  destruct (rasterio_read p) as [[src_profile src_data]|e] eqn:Hr;
    [|intros [=]].
  cbv zeta.
  destruct (sidecar_of p) as [md|e] eqn:Hmd; [|intros [=]].
  destruct (wavelengths_of md) as [wl|e] eqn:Hwl; [|intros [=]].
  intros [= <- <-].
  set (st0 := {| heap := <[fresh (dom (heap st)) := ORaster blank]> (heap st);
                 stdout := stdout st |}).
  set (self := fresh (dom (heap st))).
  assert (Hself0 : heap st0 !! self = Some (ORaster blank))
    by (simpl; apply lookup_insert_eq).
  destruct (opened_others self blank p src_profile src_data st0 Hself0)
    as (lp & lc & Hself1 & Hlc1 & Hlp1 & Hlc & Hlp).
  exists src_profile, src_data, md, wl, lp, lc.
  repeat split; try reflexivity; try assumption.
  - rewrite (assign_lookup_self _ _ _ _
               (assign_lookup_self _ (set_metadata md) _ _ Hself1)).
    reflexivity.
  - rewrite !assign_lookup_ne by exact Hlc. exact Hlc1.
  - rewrite !assign_lookup_ne by exact Hlp. exact Hlp1.
Qed.

(** What a successful [rescale] went through. *)
Lemma rescale_ok_inv self r st v st' :
  heap st !! self = Some (ORaster r) →
  rescale self st = (Ok v, st') →
  ∃ g o lc cube scaled shifted,
    get_gains_and_offsets self st = (Ok (g, o), st) ∧
    _datacube r = Some lc ∧
    heap st !! lc = Some (ONdarray cube) ∧
    broadcast_bands np_mul cube g = Ok scaled ∧
    broadcast_bands np_add scaled o = Ok shifted ∧
    v = self ∧
    st' = after_rescale self r shifted st.
Proof.
  intros Hself. unfold rescale.
  rewrite run_bind.
  destruct (get_gains_and_offsets self st) as [[[g o]|e] st0] eqn:Hgo;
    [|intros [=]].
  assert (st0 = st) as ->.
  { rewrite (get_gains_and_offsets_run _ _ _ Hself) in Hgo. congruence. }
  unfold datacube.
  rewrite run_bind, (run_bind_ok _ _ _ _ _ (get_raster_ok _ _ _ Hself)).
  simpl. destruct (_datacube r) as [lc|]; [|destruct g; intros [=]].
  rewrite run_bind. unfold get_ndarray. rewrite run_bind. unfold load.
  destruct (heap st !! lc) as [[|cube| |]|] eqn:Hc; simpl;
    try (intros [=]; fail).
  rewrite run_bind, run_lift.
  destruct (broadcast_bands np_mul cube g) as [scaled|e] eqn:E1; simpl;
    [|intros [=]].
  rewrite run_bind, run_lift.
  destruct (broadcast_bands np_add scaled o) as [shifted|e] eqn:E2; simpl;
    [|intros [=]].
  rewrite run_bind, run_alloc. unfold datacube_set. rewrite run_bind.
  erewrite setattr_ok
    by (simpl; apply lookup_after_alloc; exact Hself).
  intros [= <- <-].
  exists g, o, lc, cube, scaled, shifted. repeat split; auto.
Qed.

End BandCountFacts.

Section BandCountInvariant.
Context `{Stack}.

Lemma broadcast_bands_length f a v b :
  length v = length (bands a) →
  broadcast_bands f a v = Ok b →
  length (bands b) = length (bands a).
Proof.
  intros L E. rewrite (broadcast_bands_same _ _ _ L) in E.
  injection E as <-. simpl. apply length_zip_with_same, L.
Qed.

Lemma sidecar_count_elim self r st n :
  heap st !! self = Some (ORaster r) →
  sidecar_count self st = Some n →
  ∃ items, band_ids_of (metadata r) ≫= Py.iter = Ok items ∧ length items = n.
Proof.
  intros Hself. unfold sidecar_count. rewrite Hself.
  destruct (band_ids_of (metadata r) ≫= Py.iter) as [items|e]; [|intros [=]].
  intros [= <-]. eauto.
Qed.

Lemma after_clip_lookups raster r p clipped t st :
  heap st !! raster = Some (ORaster r) →
  ∃ ld lq,
    heap (after_clip raster r p clipped t st) !! raster =
      Some (ORaster (set_profile (Some lq) (set_datacube (Some ld) r))) ∧
    heap (after_clip raster r p clipped t st) !! ld = Some (ONdarray clipped) ∧
    heap (after_clip raster r p clipped t st) !! lq =
      Some (OProfile (clipped_profile_of p clipped t)).
Proof.
  intros Hself.
  set (ld := fresh (dom (heap st))).
  set (h1 := <[ld := ONdarray clipped]> (heap st)).
  set (lq := fresh (dom h1)).
  assert (Hself1 : h1 !! raster = Some (ORaster r))
    by (apply lookup_after_alloc, Hself).
  assert (Hld : h1 !! ld = Some (ONdarray clipped)) by apply lookup_insert_eq.
  assert (Hld_ne : ld ≠ raster) by (eapply fresh_ne; exact Hself).
  assert (Hlq_ne : lq ≠ raster) by (eapply fresh_ne; exact Hself1).
  assert (Hlq_ld : lq ≠ ld) by (eapply fresh_ne; exact Hld).
  exists ld, lq. unfold after_clip. cbn [heap]. fold ld. fold h1. fold lq.
  split; [apply lookup_insert_eq|].
  split.
  - rewrite !lookup_insert_ne by congruence. exact Hld.
  - rewrite lookup_insert_ne by congruence. apply lookup_insert_eq.
Qed.

(** A clip that succeeds found a profile object on the raster. *)
Lemma clip_ok_profile raster polygon r st v st' :
  heap st !! raster = Some (ORaster r) →
  clip_raster raster polygon st = (Ok v, st') →
  ∃ lp p, profile r = Some lp ∧ heap st !! lp = Some (OProfile p).
Proof.
  intros Hself. unfold clip_raster.
  rewrite (run_bind_ok _ _ _ _ _ (get_raster_ok _ _ _ Hself)).
  destruct (profile r) as [lp|]; [|intros [=]].
  rewrite run_bind. unfold get_profile. rewrite run_bind. unfold load.
  destruct (heap st !! lp) as [[| |p|]|] eqn:Hlp; simpl;
    try (intros [=]; fail).
  intros _. eauto.
Qed.

Lemma load_counts p w d m pr n st self st' :
  Raster_new (Some p) w d m pr n st = (Ok self, st') →
  ∃ src_profile src_data k,
    rasterio_read p = Ok (src_profile, src_data) ∧
    band_count self st' = Some (length (bands src_data)) ∧
    wavelength_count self st' = Some k ∧
    sidecar_count self st' = Some k.
Proof.
  intros Hrun.
  destruct (load_ok_inv _ _ _ _ _ _ _ _ _ Hrun)
    as (src_profile & src_data & md & wl & lp & lc
        & Hr & _ & Hwl & Hself & Hlc & _).
  destruct (wavelengths_of_length _ _ Hwl) as (items & Hi & L).
  exists src_profile, src_data, (length wl).
  split; [exact Hr|].
  split; [eapply band_count_intro; eauto|].
  split.
  - unfold wavelength_count. rewrite Hself. reflexivity.
  - unfold sidecar_count. rewrite Hself. simpl metadata. rewrite Hi.
    congruence.
Qed.

Lemma rescale_consistent self st n v st' :
  consistent self st n →
  rescale self st = (Ok v, st') →
  consistent self st' n ∧
  ∃ g o, get_gains_and_offsets self st' = (Ok (g, o), st') ∧
         length g = n ∧ length o = n.
Proof.
  intros (Hb & Hw & Hs) Hrun.
  destruct (band_count_elim _ _ _ Hb) as (r & lc & a & Hself & Hd & Ha & La).
  destruct (sidecar_count_elim _ _ _ _ Hself Hs) as (items & Hi & Li).
  destruct (rescale_ok_inv _ _ _ _ _ Hself Hrun)
    as (g & o & lc' & cube & scaled & shifted
        & Hgo & Hd' & Hc & E1 & E2 & -> & ->).
  rewrite Hd in Hd'. injection Hd' as <-.
  rewrite Ha in Hc. injection Hc as <-.
  pose proof Hgo as Hpure.
  rewrite (get_gains_and_offsets_run _ _ _ Hself) in Hpure.
  injection Hpure as Hpure.
  destruct (gains_offsets_lengths _ _ _ Hpure) as (items' & Hit & Lg & Lo).
  assert (items' = items) as -> by congruence.
  assert (L1 : length (bands scaled) = length (bands a))
    by (eapply broadcast_bands_length; [|exact E1]; congruence).
  assert (L2 : length (bands shifted) = length (bands scaled))
    by (eapply broadcast_bands_length; [|exact E2]; congruence).
  set (l' := fresh (dom (heap st))).
  assert (Hself' : heap (after_rescale self r shifted st) !! self
                   = Some (ORaster (set_datacube (Some l') r)))
    by (simpl; apply lookup_insert_eq).
  assert (Hl' : heap (after_rescale self r shifted st) !! l'
                = Some (ONdarray shifted)).
  { simpl. fold l'.
    rewrite lookup_insert_ne by (symmetry; eapply fresh_ne; exact Hself).
    apply lookup_insert_eq. }
  split.
  - split; [|split].
    + rewrite (band_count_intro _ _ _ _ _ Hself' eq_refl Hl'). congruence.
    + unfold wavelength_count in *. rewrite Hself'. rewrite Hself in Hw.
      exact Hw.
    + unfold sidecar_count in *. rewrite Hself'. rewrite Hself in Hs.
      exact Hs.
  - exists g, o. split; [|split; congruence].
    rewrite (get_gains_and_offsets_run _ _ _ Hself'). simpl metadata.
    rewrite Hpure. reflexivity.
Qed.

Lemma clip_consistent self polygon st n v st' :
  (∀ p a ds, memfile_write p a = Ok ds →
             length (bands (ds_data ds)) = length (bands a)) →
  (∀ ds shapes out t, mask_crop ds shapes = Ok (out, t) →
                      length (bands out) = length (bands (ds_data ds))) →
  consistent self st n →
  clip_raster self polygon st = (Ok v, st') →
  consistent self st' n.
Proof.
  intros Hwrite Hmask (Hb & Hw & Hs) Hrun.
  destruct (band_count_elim _ _ _ Hb) as (r & lc & a & Hself & Hd & Ha & La).
  destruct (clip_ok_profile _ _ _ _ _ _ Hself Hrun) as (lp & p & Hp & Hlp).
  destruct (clip_raster_ok_inv _ _ _ _ _ _ _ _ Hself Hp Hlp Hrun)
    as (dst_crs & polygon' & st1 & lc' & cube & src & g & clipped & t
        & _ & Hre & Hd' & Hc & Hwr & _ & Hm & -> & ->).
  destruct (reproject_preserves _ _ _ _ _ Hre) as [Hpres _].
  rewrite Hd in Hd'. injection Hd' as <-.
  rewrite (Hpres _ _ Ha) in Hc. injection Hc as <-.
  destruct (after_clip_lookups self r p clipped t st1 (Hpres _ _ Hself))
    as (ld & lq & Hself' & Hld & _).
  split; [|split].
  - rewrite (band_count_intro _ _ _ _ _ Hself' eq_refl Hld).
    rewrite (Hmask _ _ _ _ Hm), (Hwrite _ _ _ Hwr). congruence.
  - unfold wavelength_count in *. rewrite Hself'. rewrite Hself in Hw.
    exact Hw.
  - unfold sidecar_count in *. rewrite Hself'. rewrite Hself in Hs.
    exact Hs.
Qed.

Lemma load_consistent p w d m pr n st self st' src_profile src_data md
    (items : list xml) :
  Raster_new (Some p) w d m pr n st = (Ok self, st') →
  rasterio_read p = Ok (src_profile, src_data) →
  sidecar_of p = Ok md →
  band_ids_of md ≫= Py.iter = Ok items →
  length items = length (bands src_data) →
  consistent self st' (length (bands src_data)).
Proof.
  intros Hrun Hr Hmd Hitems Hlen.
  destruct (load_ok_inv _ _ _ _ _ _ _ _ _ Hrun)
    as (src_profile' & src_data' & md' & wl & lp & lc
        & Hr' & Hmd' & Hwl & Hself & Hlc & _).
  rewrite Hr in Hr'. injection Hr' as <- <-.
  rewrite Hmd in Hmd'. injection Hmd' as <-.
  destruct (wavelengths_of_length _ _ Hwl) as (items' & Hi & L).
  rewrite Hitems in Hi. injection Hi as <-.
  split; [|split].
  - eapply band_count_intro; eauto.
  - unfold wavelength_count. rewrite Hself. simpl. congruence.
  - unfold sidecar_count. rewrite Hself. simpl metadata. rewrite Hitems.
    congruence.
Qed.

(** C6.  A Raster loaded from a file whose sidecar lists one [bandID] item
    per band of the raster has a cube whose band count is the length of its
    wavelength vector.  A successful [rescale] keeps this, and the gain and
    offset vectors it uses have that length too.  A successful
    [clip_raster] keeps it as well, the dataset write and the masking
    primitive returning as many bands as they are given. *)
Theorem band_count_invariant :
  (∀ p w d m pr n st self st' src_profile src_data md (items : list xml),
      Raster_new (Some p) w d m pr n st = (Ok self, st') →
      rasterio_read p = Ok (src_profile, src_data) →
      sidecar_of p = Ok md →
      band_ids_of md ≫= Py.iter = Ok items →
      length items = length (bands src_data) →
      consistent self st' (length (bands src_data))) ∧
  (∀ self st n v st',
      consistent self st n →
      rescale self st = (Ok v, st') →
      consistent self st' n ∧
      ∃ g o, get_gains_and_offsets self st' = (Ok (g, o), st') ∧
             length g = n ∧ length o = n) ∧
  ((∀ p a ds, memfile_write p a = Ok ds →
              length (bands (ds_data ds)) = length (bands a)) →
   (∀ ds shapes out t, mask_crop ds shapes = Ok (out, t) →
                       length (bands out) = length (bands (ds_data ds))) →
   ∀ self polygon st n v st',
     consistent self st n →
     clip_raster self polygon st = (Ok v, st') →
     consistent self st' n).
Proof.
  split; [|split].
  - apply load_consistent.
  - apply rescale_consistent.
  - intros Hwrite Hmask self polygon st n v st'.
    apply clip_consistent; assumption.
Qed.

End BandCountInvariant.

(** ** The model on explicit inputs *)

Example basename_ex :
  posixpath.basename "/data/S2/T1_SPECTRAL_IMAGE.TIF" = "T1_SPECTRAL_IMAGE.TIF".
Proof. reflexivity. Qed.

Example dirname_ex :
  posixpath.dirname "/data/S2/T1_SPECTRAL_IMAGE.TIF" = "/data/S2".
Proof. reflexivity. Qed.

Example dirname_bare : posixpath.dirname "T1_SPECTRAL_IMAGE.TIF" = "".
Proof. reflexivity. Qed.

Example replace_ex :
  PyStr.replace "SPECTRAL_IMAGE.TIF" "METADATA.XML" "T1_SPECTRAL_IMAGE.TIF"
  = "T1_METADATA.XML".
Proof. reflexivity. Qed.

Example reproject_default_ex :
  reproject_gdf 4%positive None Demo.with_polygon
  = (Ok 4%positive, Demo.with_polygon).
Proof. vm_compute. reflexivity. Qed.

Example replace_absent :
  PyStr.replace "SPECTRAL_IMAGE.TIF" "METADATA.XML" "scene.tif" = "scene.tif".
Proof. reflexivity. Qed.

(** C9 on the raster loaded from [/data]. *)
Lemma rescale_frame_witness :
  ∃ r', heap (snd (rescale 1%positive Demo.loaded)) !! 1%positive
        = Some (ORaster r') ∧
        wavelength r' = Some [Demo.f32 450; Demo.f32 550] ∧
        metadata r' = Demo.two_bands ∧
        profile r' = Some 2%positive ∧
        name r' = Some "T1_SPECTRAL_IMAGE.TIF" ∧
        path r' = Some "/data/T1_SPECTRAL_IMAGE.TIF" ∧
        stdout (snd (rescale 1%positive Demo.loaded)) = stdout Demo.loaded ∧
        ∀ l o, l ≠ 1%positive → heap Demo.loaded !! l = Some o →
               heap (snd (rescale 1%positive Demo.loaded)) !! l = Some o.
Proof.
  apply (rescale_frame 1%positive
           Demo.loaded_raster
           Demo.loaded (fst (rescale 1%positive Demo.loaded))
           (snd (rescale 1%positive Demo.loaded)));
    vm_compute; reflexivity.
Defined.

(** C3 on the raster of [/lonely], which has no descriptor beside it. *)
Lemma load_without_sidecar_witness :
  fst (Raster_new (Some "/lonely/T2_SPECTRAL_IMAGE.TIF")
         None None XNone None None Demo.empty) = Raise FileNotFoundError.
Proof.
  apply (load_without_sidecar "/lonely/T2_SPECTRAL_IMAGE.TIF"
           Demo.profile222 Demo.cube222 ["T2_SPECTRAL_IMAGE.TIF"]).
  - reflexivity.
  - reflexivity.
  - vm_compute. intros Hin.
    apply elem_of_cons in Hin as [Heq|Hin]; [discriminate Heq|inversion Hin].
Defined.

(** C7 on the raster loaded from [/data]. *)
Lemma sidecar_path_derivation_witness :
  find_metadata_file 1%positive Demo.loaded =
  (Ok "/data/T1_METADATA.XML", Demo.loaded).
Proof.
  exact (sidecar_path_derivation 1%positive
           Demo.loaded_raster
           "/data/T1_SPECTRAL_IMAGE.TIF" Demo.loaded
           ltac:(vm_compute; reflexivity) eq_refl).
Defined.

(** C2: the raster loaded from [/data] clipped by the point layer. *)
Lemma clip_raster_frame_witness :
  ∃ r' ld lq clipped p' dst g src ds t,
    1%positive = 1%positive ∧
    heap (snd (clip_raster 1%positive 4%positive Demo.with_polygon)) !! 1%positive
      = Some (ORaster r') ∧
    Demo.profile222 !! "crs" = Some (PCrs dst) ∧
    heap Demo.with_polygon !! 4%positive = Some (OGdf g) ∧
    gdf_crs g = Some src ∧
    memfile_write Demo.profile222 Demo.cube222 = Ok ds ∧
    mask_crop ds (if crs_ne src dst
                  then map (transform_geom src dst) (geometry g)
                  else geometry g) = Ok (clipped, t) ∧
    _datacube r' = Some ld ∧
    heap (snd (clip_raster 1%positive 4%positive Demo.with_polygon)) !! ld
      = Some (ONdarray clipped) ∧
    profile r' = Some lq ∧
    heap (snd (clip_raster 1%positive 4%positive Demo.with_polygon)) !! lq
      = Some (OProfile p') ∧
    p' !! "height" = Some (PInt (Z.of_nat (nrows clipped))) ∧
    p' !! "width" = Some (PInt (Z.of_nat (ncols clipped))) ∧
    p' !! "transform" = Some (PAffine t) ∧
    (∀ k, k ≠ "height" → k ≠ "width" → k ≠ "transform" →
          p' !! k = Demo.profile222 !! k) ∧
    name r' = name Demo.loaded_raster ∧ path r' = path Demo.loaded_raster ∧
    wavelength r' = wavelength Demo.loaded_raster ∧
    metadata r' = metadata Demo.loaded_raster ∧
    (∀ l o, l ≠ 1%positive → heap Demo.with_polygon !! l = Some o →
            heap (snd (clip_raster 1%positive 4%positive Demo.with_polygon)) !! l
            = Some o).
Proof.
  apply (clip_raster_frame 1%positive 4%positive Demo.loaded_raster 2%positive
           Demo.profile222 3%positive Demo.cube222 Demo.with_polygon
           1%positive (snd (clip_raster 1%positive 4%positive Demo.with_polygon)));
    vm_compute; reflexivity.
Defined.

(** C5: the point layer, in EPSG:4326, sent to EPSG:4326 and to
    EPSG:32633. *)
Lemma reproject_gdf_spec_witness :
  reproject_gdf 4%positive (Some 4326%Z) Demo.with_polygon
    = (Ok 4%positive, Demo.with_polygon) ∧
  ∃ l' st',
    reproject_gdf 4%positive (Some 32633%Z) Demo.with_polygon = (Ok l', st') ∧
    l' ≠ 4%positive ∧
    heap st' !! l' =
      Some (OGdf {| gdf_crs := Some 32633%Z;
                    geometry := map (transform_geom 4326%Z 32633%Z)
                                  (geometry Demo.polygon) |}) ∧
    heap st' !! 4%positive = Some (OGdf Demo.polygon).
Proof.
  split.
  - apply (proj1 (reproject_gdf_spec 4%positive Demo.polygon 4326%Z 4326%Z
                    Demo.with_polygon ltac:(vm_compute; reflexivity) eq_refl)).
    reflexivity.
  - apply (proj2 (reproject_gdf_spec 4%positive Demo.polygon 4326%Z 32633%Z
                    Demo.with_polygon ltac:(vm_compute; reflexivity) eq_refl)).
    reflexivity.
Defined.

(** C4 (as amended) on the raster loaded from [/data]. *)
Lemma rescale_twice_witness :
  ∃ st2 lc2 cube2,
    (rescale 1%positive ≫= λ _, rescale 1%positive) Demo.loaded
      = (Ok 1%positive, st2) ∧
    heap st2 !! 1%positive
      = Some (ORaster (set_datacube (Some lc2) Demo.loaded_raster)) ∧
    heap st2 !! lc2 = Some (ONdarray cube2) ∧
    (∀ b row c x,
        pixel Demo.cube222 b row c = Some x →
        ∃ gb ob, [Demo.f32 2; Demo.f32 3] !! b = Some gb ∧
                 [Demo.f32 1; Demo.f32 0] !! b = Some ob ∧
                 pixel cube2 b row c =
                 Some (np_add (np_mul (np_add (np_mul x gb) ob) gb) ob)) ∧
    (cube2 = Demo.cube222 ↔
     ∀ b row c x gb ob,
       pixel Demo.cube222 b row c = Some x →
       [Demo.f32 2; Demo.f32 3] !! b = Some gb →
       [Demo.f32 1; Demo.f32 0] !! b = Some ob →
       np_add (np_mul (np_add (np_mul x gb) ob) gb) ob = x).
Proof.
  apply (rescale_twice 1%positive 3%positive Demo.loaded_raster Demo.cube222
           [Demo.f32 2; Demo.f32 3] [Demo.f32 1; Demo.f32 0] Demo.loaded);
    vm_compute; reflexivity.
Defined.

(** C4, as stated, fails.  The gains of this Raster are -1, not 1, and its
    offsets 0; yet after two applications of [rescale] its cube is, pixel
    for pixel, the cube it started with. *)
Lemma rescale_twice_counterexample :
  heap (Demo.in_memory Demo.negating) !! 1%positive
    = Some (ONdarray Demo.cube222) ∧
  fst (datacube 2%positive (Demo.in_memory Demo.negating))
    = Ok (Some 1%positive) ∧
  fst (get_gains_and_offsets 2%positive (Demo.in_memory Demo.negating))
    = Ok ([Demo.f32 (-1); Demo.f32 (-1)], [Demo.f32 0; Demo.f32 0]) ∧
  Demo.f32 (-1) ≠ Demo.f32 1 ∧
  ∃ st2 lc2,
    (rescale 2%positive ≫= λ _, rescale 2%positive)
      (Demo.in_memory Demo.negating) = (Ok 2%positive, st2) ∧
    fst (datacube 2%positive st2) = Ok (Some lc2) ∧
    heap st2 !! lc2 = Some (ONdarray Demo.cube222).
Proof.
  split; [vm_compute; reflexivity|].
  split; [vm_compute; reflexivity|].
  split; [vm_compute; reflexivity|].
  split; [vm_compute; discriminate|].
  exists (snd ((rescale 2%positive ≫= λ _, rescale 2%positive)
                 (Demo.in_memory Demo.negating))), 4%positive.
  split; [vm_compute; reflexivity|].
  split; vm_compute; reflexivity.
Qed.

(** Nothing compares the sidecar with the raster file.  The raster in
    [/mismatch] has two bands and its sidecar lists three: loading
    succeeds, with a wavelength vector of length three on a cube of two
    bands. *)
Example load_mismatch_ex :
  ∃ st',
    Raster_new (Some "/mismatch/T3_SPECTRAL_IMAGE.TIF")
      None None XNone None None Demo.empty = (Ok 1%positive, st') ∧
    band_count 1%positive st' = Some 2 ∧
    wavelength_count 1%positive st' = Some 3.
Proof.
  exists (snd (Raster_new (Some "/mismatch/T3_SPECTRAL_IMAGE.TIF")
                 None None XNone None None Demo.empty)).
  split; [vm_compute; reflexivity|].
  split; vm_compute; reflexivity.
Qed.

(** C6: the raster loaded from [/data], whose sidecar lists its two bands,
    after loading, after [rescale] and after [clip_raster]. *)
Lemma band_count_invariant_witness :
  consistent 1%positive Demo.loaded 2 ∧
  consistent 1%positive (snd (rescale 1%positive Demo.loaded)) 2 ∧
  consistent 1%positive
    (snd (clip_raster 1%positive 4%positive Demo.with_polygon)) 2.
Proof.
  split; [|split].
  - apply (proj1 band_count_invariant "/data/T1_SPECTRAL_IMAGE.TIF"
             None None XNone None None Demo.empty 1%positive Demo.loaded
             Demo.profile222 Demo.cube222 Demo.two_bands
             [Demo.band_entry "450" "2" "1"; Demo.band_entry "550" "3" "0"]);
      vm_compute; reflexivity.
  - apply (proj1 (proj2 band_count_invariant) 1%positive Demo.loaded 2
             1%positive (snd (rescale 1%positive Demo.loaded))).
    + repeat split; vm_compute; reflexivity.
    + vm_compute; reflexivity.
  - apply (proj2 (proj2 band_count_invariant)) with
      (polygon := 4%positive) (st := Demo.with_polygon) (v := 1%positive).
    + intros p a ds [= <-]. reflexivity.
    + intros ds [|s shapes] out t; [intros [=]|].
      intros [= <- _]. simpl. apply length_map.
    + repeat split; vm_compute; reflexivity.
    + vm_compute; reflexivity.
Defined.

(** ** The array that [rescale] replaces *)

Section RescaleAliasing.
Context `{Stack}.

(** X22.  [rescale] binds the attribute to a newly allocated array: the
    array object that was the cube before the call is still in the heap
    with its old pixels, so a reference to it taken earlier does not see
    the rescaled values. *)
Lemma rescale_keeps_old_array self lc r cube g o st :
  heap st !! self = Some (ORaster r) →
  _datacube r = Some lc →
  heap st !! lc = Some (ONdarray cube) →
  get_gains_and_offsets self st = (Ok (g, o), st) →
  length g = length (bands cube) →
  ∃ st' lc',
    rescale self st = (Ok self, st') ∧
    fst (datacube self st') = Ok (Some lc') ∧
    lc' ≠ lc ∧
    heap st' !! lc = Some (ONdarray cube).
Proof.
  intros Hself Hd Hc Hgo Lg.
  assert (Lo : length o = length (bands cube)).
  { rewrite (get_gains_and_offsets_run _ _ _ Hself) in Hgo.
    injection Hgo as Hgo.
    destruct (gains_offsets_lengths _ _ _ Hgo) as (items & _ & L1 & L2).
    congruence. }
  exists (after_rescale self r (rescaled cube g o) st), (fresh (dom (heap st))).
  split; [eapply rescale_run; eauto|].
  split.
  { unfold datacube.
    rewrite (run_bind_ok _ _ _ _ _
               (get_raster_ok self (set_datacube (Some (fresh (dom (heap st)))) r)
                  (after_rescale self r (rescaled cube g o) st)
                  (lookup_insert_eq _ _ _))).
    reflexivity. }
  split; [eapply fresh_ne; eauto|].
  simpl. rewrite lookup_insert_ne.
  - apply lookup_after_alloc. exact Hc.
  - intros ->. rewrite Hself in Hc. discriminate.
Qed.

End RescaleAliasing.

(** * Further properties of the code *)

(** ** Reading the band table of the metadata *)

Section BandTable.
Context `{Stack}.

Lemma get_wavelengths_raise self r e st :
  heap st !! self = Some (ORaster r) →
  wavelengths_of (metadata r) = Raise e →
  get_wavelengths self st = (Raise e, st).
Proof. intros Hself E. rewrite (get_wavelengths_run _ _ _ Hself), E. reflexivity. Qed.

Lemma rescale_raise self r e st :
  heap st !! self = Some (ORaster r) →
  gains_and_offsets_of (metadata r) = Raise e →
  rescale self st = (Raise e, st).
Proof.
  intros Hself E. unfold rescale.
  rewrite run_bind, (get_gains_and_offsets_run _ _ _ Hself), E. reflexivity.
Qed.

Lemma band_ids_raise md e :
  band_ids_of md = Raise e →
  wavelengths_of md = Raise e ∧ gains_and_offsets_of md = Raise e.
Proof.
  intros E. unfold wavelengths_of, gains_and_offsets_of. rewrite E. auto.
Qed.

(** The values of one field, when every item is a dict that has it. *)
Lemma band_values_ok field (items values : list xml) :
  Forall2 (λ item value, ∃ kvs, item = XDict kvs ∧
                                Py.assoc field kvs = Some value) items values →
  band_values field (XList items) = Ok values.
Proof.
  unfold band_values. simpl.
  induction 1 as [|item value items values (kvs & -> & Hk) _ IH]; simpl.
  - reflexivity.
  - rewrite Hk. simpl. simpl in IH. rewrite IH. reflexivity.
Qed.

Lemma np_array_float32_ok (values : list xml) (v : list scalar) :
  Forall2 (λ value x, ∃ s, value = XStr s ∧ np_float32 s = Some x) values v →
  np_array_float32 values = Ok v.
Proof.
  unfold np_array_float32.
  induction 1 as [|value x values v (s & -> & Hs) _ IH]; simpl.
  - reflexivity.
  - rewrite Hs. simpl. rewrite IH. reflexivity.
Qed.

(** One field of every band, read and converted. *)
Lemma field_vector field (items : list xml) (v : list scalar) :
  Forall2 (λ item x, ∃ kvs s, item = XDict kvs ∧
                              Py.assoc field kvs = Some (XStr s) ∧
                              np_float32 s = Some x) items v →
  ∃ values, band_values field (XList items) = Ok values ∧
            np_array_float32 values = Ok v.
Proof.
  intros F.
  assert (∃ values,
    Forall2 (λ item value, ∃ kvs, item = XDict kvs ∧
                                  Py.assoc field kvs = Some value) items values ∧
    Forall2 (λ value x, ∃ s, value = XStr s ∧ np_float32 s = Some x) values v)
    as (values & F1 & F2).
  { induction F as [|item x items v (kvs & s & -> & Hk & Hs) _ (values & F1 & F2)].
    - exists []. split; constructor.
    - exists (XStr s :: values). split; constructor; eauto. }
  exists values. split; [apply band_values_ok, F1|apply np_array_float32_ok, F2].
Qed.

(** X1.  When [bandID] is a list of dicts that each give a wavelength
    string numpy can convert, [get_wavelengths] returns the converted
    values, one per band and in the order of the list, and changes
    nothing. *)
Theorem get_wavelengths_spec self r (items : list xml) (wl : list scalar) st :
  heap st !! self = Some (ORaster r) →
  band_ids_of (metadata r) = Ok (XList items) →
  Forall2 (λ item w, ∃ kvs s, item = XDict kvs ∧
             Py.assoc "wavelengthCenterOfBand" kvs = Some (XStr s) ∧
             np_float32 s = Some w) items wl →
  get_wavelengths self st = (Ok wl, st).
Proof.
  intros Hself Hids F.
  destruct (field_vector _ _ _ F) as (values & E1 & E2).
  rewrite (get_wavelengths_run _ _ _ Hself). unfold wavelengths_of.
  rewrite Hids. simpl. rewrite E1. simpl. rewrite E2. reflexivity.
Qed.

(** X2.  Likewise [get_gains_and_offsets] returns the converted
    [GainOfBand] and [OffsetOfBand] values of the bands, in the order of
    the list, and changes nothing. *)
Theorem get_gains_and_offsets_spec self r (items : list xml)
    (g o : list scalar) st :
  heap st !! self = Some (ORaster r) →
  band_ids_of (metadata r) = Ok (XList items) →
  Forall2 (λ item x, ∃ kvs s, item = XDict kvs ∧
             Py.assoc "GainOfBand" kvs = Some (XStr s) ∧
             np_float32 s = Some x) items g →
  Forall2 (λ item x, ∃ kvs s, item = XDict kvs ∧
             Py.assoc "OffsetOfBand" kvs = Some (XStr s) ∧
             np_float32 s = Some x) items o →
  get_gains_and_offsets self st = (Ok (g, o), st).
Proof.
  intros Hself Hids Fg Fo.
  destruct (field_vector _ _ _ Fg) as (gains & G1 & G2).
  destruct (field_vector _ _ _ Fo) as (offsets & O1 & O2).
  rewrite (get_gains_and_offsets_run _ _ _ Hself). unfold gains_and_offsets_of.
  rewrite Hids. simpl. rewrite G1. simpl. rewrite O1. simpl.
  rewrite G2. simpl. rewrite O2. reflexivity.
Qed.

End BandTable.

Section BandTableErrors.
Context `{Stack}.

(** X3.  A Raster without metadata (the default of the constructor) cannot
    be rescaled and has no wavelengths: both calls raise [TypeError] and
    leave the state as it was. *)
Theorem metadata_none self r st :
  heap st !! self = Some (ORaster r) →
  metadata r = XNone →
  get_wavelengths self st = (Raise TypeError, st) ∧
  rescale self st = (Raise TypeError, st).
Proof.
  intros Hself Hm.
  destruct (band_ids_raise (metadata r) TypeError) as [E1 E2];
    [rewrite Hm; reflexivity|].
  split; [eapply get_wavelengths_raise|eapply rescale_raise]; eauto.
Qed.

(** X4.  A metadata tree that lacks one of the four nested tags
    [level_X], [specific], [bandCharacterisation], [bandID] makes both
    calls raise [KeyError] for the first tag that is missing, with the
    state unchanged. *)
Theorem metadata_missing_key self r (k : string) st :
  heap st !! self = Some (ORaster r) →
  (∃ kvs, metadata r = XDict kvs ∧ Py.assoc "level_X" kvs = None ∧
          k = "level_X") ∨
  (∃ kvs, Py.getitem (metadata r) "level_X" = Ok (XDict kvs) ∧
          Py.assoc "specific" kvs = None ∧ k = "specific") ∨
  (∃ l kvs, Py.getitem (metadata r) "level_X" = Ok l ∧
            Py.getitem l "specific" = Ok (XDict kvs) ∧
            Py.assoc "bandCharacterisation" kvs = None ∧
            k = "bandCharacterisation") ∨
  (∃ l s kvs, Py.getitem (metadata r) "level_X" = Ok l ∧
              Py.getitem l "specific" = Ok s ∧
              Py.getitem s "bandCharacterisation" = Ok (XDict kvs) ∧
              Py.assoc "bandID" kvs = None ∧ k = "bandID") →
  get_wavelengths self st = (Raise (KeyError k), st) ∧
  rescale self st = (Raise (KeyError k), st).
Proof.
  intros Hself Hk.
  assert (E : band_ids_of (metadata r) = Raise (KeyError k)).
  { unfold band_ids_of.
    destruct Hk as [(kvs & -> & Hn & ->)
                   |[(kvs & E1 & Hn & ->)
                    |[(l & kvs & E1 & E2 & Hn & ->)
                     |(l & s & kvs & E1 & E2 & E3 & Hn & ->)]]].
    - simpl. rewrite Hn. reflexivity.
    - rewrite E1. simpl. rewrite Hn. reflexivity.
    - rewrite E1. simpl. rewrite E2. simpl. rewrite Hn. reflexivity.
    - rewrite E1. simpl. rewrite E2. simpl. rewrite E3. simpl. rewrite Hn.
      reflexivity. }
  destruct (band_ids_raise _ _ E) as [E1 E2].
  split; [eapply get_wavelengths_raise|eapply rescale_raise]; eauto.
Qed.

(** X5.  When [bandID] is a single dict, as xmltodict returns for a
    descriptor with one band, the comprehension iterates over its keys and
    subscripts a string: both calls raise [TypeError]. *)
Theorem single_band_sidecar self r kv kvs st :
  heap st !! self = Some (ORaster r) →
  band_ids_of (metadata r) = Ok (XDict (kv :: kvs)) →
  get_wavelengths self st = (Raise TypeError, st) ∧
  rescale self st = (Raise TypeError, st).
Proof.
  intros Hself Hids. split.
  - apply (get_wavelengths_raise _ _ _ _ Hself).
    unfold wavelengths_of. rewrite Hids. reflexivity.
  - apply (rescale_raise _ _ _ _ Hself).
    unfold gains_and_offsets_of. rewrite Hids. reflexivity.
Qed.

Lemma band_values_missing field (items : list xml) :
  Forall (λ item, ∃ kvs, item = XDict kvs) items →
  Exists (λ item, ∃ kvs, item = XDict kvs ∧ Py.assoc field kvs = None) items →
  band_values field (XList items) = Raise (KeyError field).
Proof.
  unfold band_values. simpl.
  induction 1 as [|item items (kvs & ->) _ IH]; intros Hex.
  - inversion Hex.
  - simpl. destruct (Py.assoc field kvs) as [value|] eqn:Hk; [|reflexivity].
    simpl. apply Exists_cons in Hex as [(kvs' & [= <-] & Hn)|Hex];
      [congruence|].
    simpl in IH. rewrite (IH Hex). reflexivity.
Qed.

Lemma band_values_present field (items : list xml) :
  Forall (λ item, ∃ kvs, item = XDict kvs ∧
                         is_Some (Py.assoc field kvs)) items →
  ∃ values, band_values field (XList items) = Ok values.
Proof.
  unfold band_values. simpl.
  induction 1 as [|item items (kvs & -> & [value Hk]) _ (values & IH)].
  - exists []. reflexivity.
  - exists (value :: values). simpl. rewrite Hk. simpl.
    simpl in IH. rewrite IH. reflexivity.
Qed.

(** X6.  With a [bandID] list of dicts, a band without [GainOfBand] makes
    [rescale] raise [KeyError] for that name; when every band has a gain
    and one has no [OffsetOfBand], it raises [KeyError] for the offset,
    whatever the gain values are, since both lists are collected before any
    value is converted. *)
Theorem rescale_missing_field self r (items : list xml) st :
  heap st !! self = Some (ORaster r) →
  band_ids_of (metadata r) = Ok (XList items) →
  (Forall (λ item, ∃ kvs, item = XDict kvs) items →
   Exists (λ item, ∃ kvs, item = XDict kvs ∧
                          Py.assoc "GainOfBand" kvs = None) items →
   rescale self st = (Raise (KeyError "GainOfBand"), st)) ∧
  (Forall (λ item, ∃ kvs, item = XDict kvs ∧
                          is_Some (Py.assoc "GainOfBand" kvs)) items →
   Exists (λ item, ∃ kvs, item = XDict kvs ∧
                          Py.assoc "OffsetOfBand" kvs = None) items →
   rescale self st = (Raise (KeyError "OffsetOfBand"), st)).
Proof.
  intros Hself Hids. split.
  - intros Hd Hex. apply (rescale_raise _ _ _ _ Hself).
    unfold gains_and_offsets_of. rewrite Hids. simpl.
    rewrite (band_values_missing _ _ Hd Hex). reflexivity.
  - intros Hg Hex. apply (rescale_raise _ _ _ _ Hself).
    unfold gains_and_offsets_of. rewrite Hids. simpl.
    destruct (band_values_present _ _ Hg) as (gains & ->). simpl.
    rewrite band_values_missing; [reflexivity| |exact Hex].
    eapply Forall_impl; [exact Hg|]. intros item (kvs & -> & _). eauto.
Qed.

Lemma field_unparsable field (items : list xml) :
  Forall (λ item, ∃ kvs s, item = XDict kvs ∧
                           Py.assoc field kvs = Some (XStr s)) items →
  Exists (λ item, ∃ kvs s, item = XDict kvs ∧
                           Py.assoc field kvs = Some (XStr s) ∧
                           np_float32 s = None) items →
  ∃ values, band_values field (XList items) = Ok values ∧
            np_array_float32 values = Raise ValueError.
Proof.
  unfold band_values, np_array_float32. simpl.
  induction 1 as [|item items (kvs & s & -> & Hk) Hall IH]; intros Hex.
  - inversion Hex.
  - simpl. rewrite Hk. simpl.
    destruct (np_float32 s) as [x|] eqn:Hs.
    + apply Exists_cons in Hex as [(kvs' & s' & [= <-] & Hk' & Hn)|Hex];
        [congruence|].
      destruct (IH Hex) as (values & E1 & E2).
      exists (XStr s :: values). simpl in E1. rewrite E1. simpl.
      rewrite Hs. simpl. rewrite E2. auto.
    + assert (∃ values,
        Py.comprehension (λ band, Py.getitem band field) items = Ok values)
        as (values & E1).
      { clear IH Hex. induction Hall as [|i rest (k' & s' & -> & Hk') _ (vs & IH)].
        - exists []. reflexivity.
        - exists (XStr s' :: vs). simpl. rewrite Hk'. simpl. rewrite IH.
          reflexivity. }
      exists (XStr s :: values). rewrite E1. simpl. rewrite Hs. auto.
Qed.

(** X7.  With every field present as a string, a wavelength that numpy
    cannot convert makes [get_wavelengths] raise [ValueError], and a gain
    that it cannot convert makes [rescale] raise [ValueError]. *)
Theorem unparsable_value self r (items : list xml) st :
  heap st !! self = Some (ORaster r) →
  band_ids_of (metadata r) = Ok (XList items) →
  (Forall (λ item, ∃ kvs s, item = XDict kvs ∧
             Py.assoc "wavelengthCenterOfBand" kvs = Some (XStr s)) items →
   Exists (λ item, ∃ kvs s, item = XDict kvs ∧
             Py.assoc "wavelengthCenterOfBand" kvs = Some (XStr s) ∧
             np_float32 s = None) items →
   get_wavelengths self st = (Raise ValueError, st)) ∧
  (Forall (λ item, ∃ kvs s, item = XDict kvs ∧
             Py.assoc "GainOfBand" kvs = Some (XStr s)) items →
   Forall (λ item, ∃ kvs, item = XDict kvs ∧
             is_Some (Py.assoc "OffsetOfBand" kvs)) items →
   Exists (λ item, ∃ kvs s, item = XDict kvs ∧
             Py.assoc "GainOfBand" kvs = Some (XStr s) ∧
             np_float32 s = None) items →
   rescale self st = (Raise ValueError, st)).
Proof.
  intros Hself Hids. split.
  - intros Hall Hex. apply (get_wavelengths_raise _ _ _ _ Hself).
    unfold wavelengths_of. rewrite Hids. simpl.
    destruct (field_unparsable _ _ Hall Hex) as (values & -> & E). exact E.
  - intros Hall Hoff Hex. apply (rescale_raise _ _ _ _ Hself).
    unfold gains_and_offsets_of. rewrite Hids. simpl.
    destruct (field_unparsable _ _ Hall Hex) as (gains & -> & E). simpl.
    destruct (band_values_present _ _ Hoff) as (offsets & ->). simpl.
    rewrite E. reflexivity.
Qed.

End BandTableErrors.

(** Lists of bands given explicitly: one goal per band. *)
Ltac solve_items :=
  repeat match goal with
         | |- Forall2 _ _ _ => constructor
         | |- Forall _ _ => constructor
         end;
  repeat first [ reflexivity | split | eexists ].

(** X1 on the two-band descriptor. *)
Lemma get_wavelengths_spec_witness :
  get_wavelengths 2%positive (Demo.in_memory Demo.two_bands)
  = (Ok [Demo.f32 450; Demo.f32 550], Demo.in_memory Demo.two_bands).
Proof.
  apply (get_wavelengths_spec 2%positive (Demo.in_memory_raster Demo.two_bands)
           [Demo.band_entry "450" "2" "1"; Demo.band_entry "550" "3" "0"]).
  - vm_compute. reflexivity.
  - reflexivity.
  - solve_items.
Defined.

(** X2 on the two-band descriptor. *)
Lemma get_gains_and_offsets_spec_witness :
  get_gains_and_offsets 2%positive (Demo.in_memory Demo.two_bands)
  = (Ok ([Demo.f32 2; Demo.f32 3], [Demo.f32 1; Demo.f32 0]),
     Demo.in_memory Demo.two_bands).
Proof.
  apply (get_gains_and_offsets_spec 2%positive
           (Demo.in_memory_raster Demo.two_bands)
           [Demo.band_entry "450" "2" "1"; Demo.band_entry "550" "3" "0"]).
  - vm_compute. reflexivity.
  - reflexivity.
  - solve_items.
  - solve_items.
Defined.

(** X3 on a Raster built without metadata. *)
Lemma metadata_none_witness :
  get_wavelengths 2%positive (Demo.in_memory XNone)
    = (Raise TypeError, Demo.in_memory XNone) ∧
  rescale 2%positive (Demo.in_memory XNone)
    = (Raise TypeError, Demo.in_memory XNone).
Proof.
  apply (metadata_none 2%positive (Demo.in_memory_raster XNone)).
  - vm_compute. reflexivity.
  - reflexivity.
Defined.

(** X4 on a tree without the [specific] level. *)
Lemma metadata_missing_key_witness :
  get_wavelengths 2%positive (Demo.in_memory Demo.no_specific)
    = (Raise (KeyError "specific"), Demo.in_memory Demo.no_specific) ∧
  rescale 2%positive (Demo.in_memory Demo.no_specific)
    = (Raise (KeyError "specific"), Demo.in_memory Demo.no_specific).
Proof.
  apply (metadata_missing_key 2%positive
           (Demo.in_memory_raster Demo.no_specific)).
  - vm_compute. reflexivity.
  - right. left. exists []. repeat split; reflexivity.
Defined.

(** X5 on the descriptor with a single band. *)
Lemma single_band_sidecar_witness :
  get_wavelengths 2%positive (Demo.in_memory Demo.single_band)
    = (Raise TypeError, Demo.in_memory Demo.single_band) ∧
  rescale 2%positive (Demo.in_memory Demo.single_band)
    = (Raise TypeError, Demo.in_memory Demo.single_band).
Proof.
  apply (single_band_sidecar 2%positive
           (Demo.in_memory_raster Demo.single_band)
           ("wavelengthCenterOfBand", XStr "450")
           [("GainOfBand", XStr "2"); ("OffsetOfBand", XStr "1")]).
  - vm_compute. reflexivity.
  - reflexivity.
Defined.

(** X6 on a descriptor whose second band has no offset and a gain that is
    no number. *)
Lemma rescale_missing_field_witness :
  rescale 2%positive (Demo.in_memory Demo.no_offset)
  = (Raise (KeyError "OffsetOfBand"), Demo.in_memory Demo.no_offset).
Proof.
  apply (proj2 (rescale_missing_field 2%positive
                  (Demo.in_memory_raster Demo.no_offset)
                  [Demo.band_entry "450" "2" "1";
                   XDict [("wavelengthCenterOfBand", XStr "550");
                          ("GainOfBand", XStr "high")]]
                  (Demo.in_memory Demo.no_offset)
                  ltac:(vm_compute; reflexivity) eq_refl)).
  - solve_items.
  - apply Exists_cons_tl, Exists_cons_hd. eexists. split; reflexivity.
Defined.

(** X7 on a descriptor whose second gain is no number. *)
Lemma unparsable_value_witness :
  rescale 2%positive (Demo.in_memory Demo.bad_gain)
  = (Raise ValueError, Demo.in_memory Demo.bad_gain).
Proof.
  apply (proj2 (unparsable_value 2%positive
                  (Demo.in_memory_raster Demo.bad_gain)
                  [Demo.band_entry "450" "2" "1";
                   Demo.band_entry "550" "high" "0"]
                  (Demo.in_memory Demo.bad_gain)
                  ltac:(vm_compute; reflexivity) eq_refl)).
  - solve_items.
  - solve_items.
  - apply Exists_cons_tl, Exists_cons_hd. eexists _, _.
    repeat split; reflexivity.
Defined.

(** ** Broadcasting in rescale *)

Section RescaleBroadcast.
Context `{Stack}.

Lemma rescale_run_broadcast self lc r cube g o scaled shifted st :
  heap st !! self = Some (ORaster r) →
  _datacube r = Some lc →
  heap st !! lc = Some (ONdarray cube) →
  get_gains_and_offsets self st = (Ok (g, o), st) →
  broadcast_bands np_mul cube g = Ok scaled →
  broadcast_bands np_add scaled o = Ok shifted →
  rescale self st = (Ok self, after_rescale self r shifted st).
Proof.
  intros Hself Hd Hc Hgo E1 E2. unfold rescale.
  rewrite (run_bind_ok _ _ _ _ _ Hgo). unfold datacube.
  rewrite run_bind, (run_bind_ok _ _ _ _ _ (get_raster_ok _ _ _ Hself)).
  simpl. rewrite Hd.
  rewrite (run_bind_ok _ _ _ _ _ (get_ndarray_ok _ _ _ Hc)).
  rewrite run_bind, run_lift, E1, run_bind, run_lift, E2.
  rewrite run_bind, run_alloc. unfold datacube_set. rewrite run_bind.
  erewrite setattr_ok; [reflexivity|].
  simpl. apply lookup_after_alloc. exact Hself.
Qed.

Lemma rescale_run_mismatch self lc r cube g o e st :
  heap st !! self = Some (ORaster r) →
  _datacube r = Some lc →
  heap st !! lc = Some (ONdarray cube) →
  get_gains_and_offsets self st = (Ok (g, o), st) →
  broadcast_bands np_mul cube g = Raise e →
  rescale self st = (Raise e, st).
Proof.
  intros Hself Hd Hc Hgo E1. unfold rescale.
  rewrite (run_bind_ok _ _ _ _ _ Hgo). unfold datacube.
  rewrite run_bind, (run_bind_ok _ _ _ _ _ (get_raster_ok _ _ _ Hself)).
  simpl. rewrite Hd.
  rewrite (run_bind_ok _ _ _ _ _ (get_ndarray_ok _ _ _ Hc)).
  rewrite run_bind, run_lift, E1. reflexivity.
Qed.

Lemma gains_offsets_same_length self r g o st :
  heap st !! self = Some (ORaster r) →
  get_gains_and_offsets self st = (Ok (g, o), st) →
  length o = length g.
Proof.
  intros Hself Hgo.
  rewrite (get_gains_and_offsets_run _ _ _ Hself) in Hgo.
  injection Hgo as Hgo.
  destruct (gains_offsets_lengths _ _ _ Hgo) as (items & _ & L1 & L2).
  congruence.
Qed.

(** X8.  When the number of gains is neither the number of bands of the
    cube nor one, and the cube does not have exactly one band, the
    operands cannot be broadcast: [rescale] raises [ValueError] and the
    Raster keeps its cube. *)
Theorem rescale_band_mismatch self lc r cube g o st :
  heap st !! self = Some (ORaster r) →
  _datacube r = Some lc →
  heap st !! lc = Some (ONdarray cube) →
  get_gains_and_offsets self st = (Ok (g, o), st) →
  length g ≠ length (bands cube) →
  length g ≠ 1 →
  length (bands cube) ≠ 1 →
  rescale self st = (Raise ValueError, st).
Proof.
  intros Hself Hd Hc Hgo N1 N2 N3.
  eapply rescale_run_mismatch; eauto.
  unfold broadcast_bands.
  destruct (Nat.eqb_spec (length (bands cube)) (length g)) as [E|_];
    [congruence|].
  destruct (bands cube) as [|b1 [|b2 bs]]; simpl in *; try congruence;
    destruct g as [|g1 [|g2 gs]]; simpl in *; congruence.
Qed.

Lemma broadcast_one_band f (a : ndarray) band v :
  bands a = [band] →
  broadcast_bands f a v =
  Ok {| bands := map (λ g, band_op f g band) v;
        nrows := nrows a; ncols := ncols a |}.
Proof.
  intros E. unfold broadcast_bands. rewrite E. simpl.
  destruct v as [|g [|g' v]]; reflexivity.
Qed.

Lemma broadcast_one_scalar f (a : ndarray) g :
  broadcast_bands f a [g] =
  Ok {| bands := map (band_op f g) (bands a);
        nrows := nrows a; ncols := ncols a |}.
Proof.
  unfold broadcast_bands.
  destruct (bands a) as [|b1 [|b2 bs]]; reflexivity.
Qed.

(** X9.  A cube with a single band is stretched over the gains: with [m]
    gains and offsets the Raster ends up with a cube of [m] bands, band [b]
    being the one input band scaled by [g[b]] and shifted by [o[b]]. *)
Theorem rescale_one_band_stretched self lc r cube band g o st :
  heap st !! self = Some (ORaster r) →
  _datacube r = Some lc →
  heap st !! lc = Some (ONdarray cube) →
  get_gains_and_offsets self st = (Ok (g, o), st) →
  bands cube = [band] →
  ∃ st' lc' cube',
    rescale self st = (Ok self, st') ∧
    heap st' !! self = Some (ORaster (set_datacube (Some lc') r)) ∧
    heap st' !! lc' = Some (ONdarray cube') ∧
    length (bands cube') = length g ∧
    nrows cube' = nrows cube ∧ ncols cube' = ncols cube ∧
    ∀ b row c,
      pixel cube' b row c =
      (x ← pixel cube 0 row c; gb ← g !! b; ob ← o !! b;
       Some (np_add (np_mul x gb) ob)).
Proof.
  intros Hself Hd Hc Hgo Hb.
  pose proof (gains_offsets_same_length _ _ _ _ _ Hself Hgo) as L.
  set (scaled := {| bands := map (λ gb, band_op np_mul gb band) g;
                    nrows := nrows cube; ncols := ncols cube |}).
  set (shifted := {| bands := zip_with (λ bd ob, band_op np_add ob bd)
                                (bands scaled) o;
                     nrows := nrows cube; ncols := ncols cube |}).
  assert (E1 : broadcast_bands np_mul cube g = Ok scaled)
    by (apply broadcast_one_band, Hb).
  assert (E2 : broadcast_bands np_add scaled o = Ok shifted).
  { rewrite broadcast_bands_same by (simpl; rewrite length_map; exact L).
    reflexivity. }
  exists (after_rescale self r shifted st), (fresh (dom (heap st))), shifted.
  split; [eapply rescale_run_broadcast; eauto|].
  split; [simpl; apply lookup_insert_eq|].
  split.
  { simpl. rewrite lookup_insert_ne by (symmetry; eapply fresh_ne; eauto).
    apply lookup_insert_eq. }
  split.
  { simpl. rewrite length_zip_with_same; rewrite length_map; auto. }
  split; [reflexivity|]. split; [reflexivity|].
  intros b row c. unfold shifted.
  rewrite (pixel_zip_with np_add scaled o). unfold pixel at 1. simpl.
  rewrite lookup_map. unfold pixel. rewrite Hb. simpl.
  destruct (g !! b) as [gb|] eqn:Eg; simpl.
  - rewrite pixel_band_op.
    destruct (band !! row) as [rw|]; simpl; [|reflexivity].
    destruct (rw !! c) as [x|]; simpl; reflexivity.
  - destruct (band !! row) as [rw|]; simpl; [|reflexivity].
    destruct (rw !! c) as [x|]; simpl; reflexivity.
Qed.

(** X10.  A single gain and offset are applied to every band: the band
    count and shape stay and every pixel [x] becomes [x * g + o]. *)
Theorem rescale_single_gain self lc r cube g0 o0 st :
  heap st !! self = Some (ORaster r) →
  _datacube r = Some lc →
  heap st !! lc = Some (ONdarray cube) →
  get_gains_and_offsets self st = (Ok ([g0], [o0]), st) →
  ∃ st' lc' cube',
    rescale self st = (Ok self, st') ∧
    heap st' !! self = Some (ORaster (set_datacube (Some lc') r)) ∧
    heap st' !! lc' = Some (ONdarray cube') ∧
    shape cube' = shape cube ∧
    ∀ b row c,
      pixel cube' b row c =
      (λ x, np_add (np_mul x g0) o0) <$> pixel cube b row c.
Proof.
  intros Hself Hd Hc Hgo.
  set (scaled := {| bands := map (band_op np_mul g0) (bands cube);
                    nrows := nrows cube; ncols := ncols cube |}).
  set (shifted := {| bands := map (band_op np_add o0) (bands scaled);
                     nrows := nrows cube; ncols := ncols cube |}).
  exists (after_rescale self r shifted st), (fresh (dom (heap st))), shifted.
  split.
  { eapply rescale_run_broadcast; eauto; apply broadcast_one_scalar. }
  split; [simpl; apply lookup_insert_eq|].
  split.
  { simpl. rewrite lookup_insert_ne by (symmetry; eapply fresh_ne; eauto).
    apply lookup_insert_eq. }
  split.
  { unfold shape. simpl. rewrite !length_map. reflexivity. }
  intros b row c. unfold pixel. simpl. rewrite !lookup_map.
  destruct (bands cube !! b) as [band|]; simpl; [|reflexivity].
  rewrite pixel_band_op.
  change (band_op np_mul g0 band !! row ≫= λ rw, rw !! c)
    with (rw ← band_op np_mul g0 band !! row; rw !! c).
  rewrite pixel_band_op.
  destruct (band !! row) as [rw|]; simpl; [|reflexivity].
  destruct (rw !! c); reflexivity.
Qed.

(** X11.  [rescale] is all or nothing: when it raises, whatever the
    exception, the state is exactly the state before the call. *)
Theorem rescale_atomic self e st st' :
  rescale self st = (Raise e, st') → st' = st.
Proof.
  destruct (heap st !! self) as [[r| | |]|] eqn:Hself.
  - intros Hrun.
    destruct (rescale_cases _ _ _ _ _ Hself Hrun) as [[-> _]|(cube' & [=] & _)].
    reflexivity.
  - unfold rescale, get_gains_and_offsets, get_raster.
    rewrite !run_bind. unfold load. rewrite Hself. simpl. congruence.
  - unfold rescale, get_gains_and_offsets, get_raster.
    rewrite !run_bind. unfold load. rewrite Hself. simpl. congruence.
  - unfold rescale, get_gains_and_offsets, get_raster.
    rewrite !run_bind. unfold load. rewrite Hself. simpl. congruence.
  - unfold rescale, get_gains_and_offsets, get_raster.
    rewrite !run_bind. unfold load. rewrite Hself. simpl. congruence.
Qed.

End RescaleBroadcast.

(** X8: three gains on the two bands of [cube222]. *)
Lemma rescale_band_mismatch_witness :
  rescale 2%positive (Demo.in_memory Demo.three_bands)
  = (Raise ValueError, Demo.in_memory Demo.three_bands).
Proof.
  apply (rescale_band_mismatch 2%positive 1%positive
           (Demo.in_memory_raster Demo.three_bands) Demo.cube222
           [Demo.f32 2; Demo.f32 3; Demo.f32 1]
           [Demo.f32 1; Demo.f32 0; Demo.f32 0]);
    try (vm_compute; reflexivity); vm_compute; discriminate.
Defined.

(** X9: two gains on the single band of [cube112]. *)
Lemma rescale_one_band_stretched_witness :
  ∃ st' lc' cube',
    rescale 2%positive (Demo.in_memory_cube Demo.cube112 Demo.two_bands)
      = (Ok 2%positive, st') ∧
    heap st' !! 2%positive
      = Some (ORaster (set_datacube (Some lc')
                         (Demo.in_memory_raster Demo.two_bands))) ∧
    heap st' !! lc' = Some (ONdarray cube') ∧
    length (bands cube') = length [Demo.f32 2; Demo.f32 3] ∧
    nrows cube' = nrows Demo.cube112 ∧ ncols cube' = ncols Demo.cube112 ∧
    ∀ b row c,
      pixel cube' b row c =
      (x ← pixel Demo.cube112 0 row c;
       gb ← [Demo.f32 2; Demo.f32 3] !! b;
       ob ← [Demo.f32 1; Demo.f32 0] !! b;
       Some (np_add (np_mul x gb) ob)).
Proof.
  apply (rescale_one_band_stretched 2%positive 1%positive
           (Demo.in_memory_raster Demo.two_bands) Demo.cube112
           [[Demo.f32 1; Demo.f32 2]]);
    vm_compute; reflexivity.
Defined.

(** X10: one gain on the two bands of [cube222]. *)
Lemma rescale_single_gain_witness :
  ∃ st' lc' cube',
    rescale 2%positive (Demo.in_memory Demo.one_entry) = (Ok 2%positive, st') ∧
    heap st' !! 2%positive
      = Some (ORaster (set_datacube (Some lc')
                         (Demo.in_memory_raster Demo.one_entry))) ∧
    heap st' !! lc' = Some (ONdarray cube') ∧
    shape cube' = shape Demo.cube222 ∧
    ∀ b row c,
      pixel cube' b row c =
      (λ x, np_add (np_mul x (Demo.f32 2)) (Demo.f32 1))
        <$> pixel Demo.cube222 b row c.
Proof.
  apply (rescale_single_gain 2%positive 1%positive
           (Demo.in_memory_raster Demo.one_entry) Demo.cube222);
    vm_compute; reflexivity.
Defined.

(** X11 on the failing call of X8. *)
Lemma rescale_atomic_witness :
  snd (rescale 2%positive (Demo.in_memory Demo.three_bands))
  = Demo.in_memory Demo.three_bands.
Proof.
  apply (rescale_atomic 2%positive ValueError).
  vm_compute. reflexivity.
Defined.

(** ** Clipping: what is masked, and what a failure leaves *)

Section ClipRuns.
Context `{Stack}.

(** The polygon that [clip_raster] hands to the masking primitive, and the
    state in which it does so. *)
Lemma reproject_run gdf g src dst st :
  heap st !! gdf = Some (OGdf g) →
  gdf_crs g = Some src →
  ∃ polygon' st1,
    reproject_gdf gdf (Some dst) st = (Ok polygon', st1) ∧
    (∀ l o, heap st !! l = Some o → heap st1 !! l = Some o) ∧
    heap st1 !! polygon' =
      Some (OGdf (if crs_ne src dst then to_crs src dst g else g)) ∧
    stdout st1 =
      app (stdout st)
        (if crs_ne src dst
         then ["Reprojecting GeoDataFrame from " +:+ crs_str src
               +:+ " to " +:+ crs_str dst]
         else []).
Proof.
  intros Hg Hc. destruct (crs_ne src dst) eqn:Hne.
  - eexists _, _. split; [apply (reproject_other _ _ _ _ _ Hg Hc Hne)|].
    simpl. split; [|split; [apply lookup_insert_eq|reflexivity]].
    intros l o Hl. apply lookup_after_alloc, Hl.
  - exists gdf, st. split; [apply (reproject_same _ _ _ _ _ Hg Hc Hne)|].
    split; [auto|]. split; [exact Hg|]. rewrite app_nil_r. reflexivity.
Qed.

Lemma clip_raster_run raster polygon r lp p lc cube dst polygon' g' st st1 :
  heap st !! raster = Some (ORaster r) →
  profile r = Some lp →
  heap st !! lp = Some (OProfile p) →
  _datacube r = Some lc →
  heap st !! lc = Some (ONdarray cube) →
  p !! "crs" = Some (PCrs dst) →
  reproject_gdf polygon (Some dst) st = (Ok polygon', st1) →
  (∀ l o, heap st !! l = Some o → heap st1 !! l = Some o) →
  heap st1 !! polygon' = Some (OGdf g') →
  clip_raster raster polygon st =
  match memfile_write p cube with
  | Raise e => (Raise e, st1)
  | Ok ds =>
      match mask_crop ds (geometry g') with
      | Raise e => (Raise e, st1)
      | Ok (clipped, t) => (Ok raster, after_clip raster r p clipped t st1)
      end
  end.
Proof.
  intros Hself Hp Hlp Hd Hc Hcrs Hre Hpres Hg. unfold clip_raster.
  rewrite (run_bind_ok _ _ _ _ _ (get_raster_ok _ _ _ Hself)), Hp.
  rewrite (run_bind_ok _ _ _ _ _ (get_profile_ok _ _ _ Hlp)), Hcrs.
  rewrite (run_bind_ok _ _ _ _ _ Hre). unfold datacube.
  rewrite run_bind,
    (run_bind_ok _ _ _ _ _ (get_raster_ok _ _ _ (Hpres _ _ Hself))).
  simpl. rewrite Hd.
  rewrite (run_bind_ok _ _ _ _ _ (get_ndarray_ok _ _ _ (Hpres _ _ Hc))).
  rewrite run_bind, run_lift.
  destruct (memfile_write p cube) as [ds|e]; [|reflexivity].
  rewrite (run_bind_ok _ _ _ _ _ (get_gdf_ok _ _ _ Hg)).
  rewrite run_bind, run_lift.
  destruct (mask_crop ds (geometry g')) as [[clipped t]|e]; [|reflexivity].
  rewrite run_bind, run_alloc, run_bind, run_alloc.
  unfold datacube_set. simpl heap. simpl stdout.
  erewrite bind_setattr;
    [|simpl; apply lookup_after_alloc, lookup_after_alloc, Hpres, Hself].
  simpl heap. simpl stdout.
  erewrite bind_setattr; [|simpl; apply lookup_insert_eq].
  simpl heap. simpl stdout. rewrite insert_insert_eq. reflexivity.
Qed.

(** X12.  [clip_raster] succeeds as soon as the profile has a CRS, the
    layer has one, the cube can be written to a dataset with the raster's
    profile and the masking primitive accepts the layer's geometries, which
    are transformed to the raster's CRS first unless the layer is in it
    already.  The raster then holds the masked array and the updated copy of
    the profile, and the layer that was passed in is not modified. *)
Theorem clip_raster_success raster polygon r lp p lc cube dst g src ds
    clipped t st :
  heap st !! raster = Some (ORaster r) →
  profile r = Some lp →
  heap st !! lp = Some (OProfile p) →
  _datacube r = Some lc →
  heap st !! lc = Some (ONdarray cube) →
  p !! "crs" = Some (PCrs dst) →
  heap st !! polygon = Some (OGdf g) →
  gdf_crs g = Some src →
  memfile_write p cube = Ok ds →
  mask_crop ds (if crs_ne src dst
                then map (transform_geom src dst) (geometry g)
                else geometry g) = Ok (clipped, t) →
  ∃ st' ld lq,
    clip_raster raster polygon st = (Ok raster, st') ∧
    heap st' !! raster =
      Some (ORaster (set_profile (Some lq) (set_datacube (Some ld) r))) ∧
    heap st' !! ld = Some (ONdarray clipped) ∧
    heap st' !! lq = Some (OProfile (clipped_profile_of p clipped t)) ∧
    heap st' !! polygon = Some (OGdf g).
Proof.
  intros Hself Hp Hlp Hd Hc Hcrs Hg Hsrc Hw Hm.
  destruct (reproject_run polygon g src dst st Hg Hsrc)
    as (polygon' & st1 & Hre & Hpres & Hg' & _).
  pose proof (clip_raster_run _ _ _ _ _ _ _ _ _ _ _ _
                Hself Hp Hlp Hd Hc Hcrs Hre Hpres Hg') as Hrun.
  rewrite Hw in Hrun.
  assert (Hgeo : geometry (if crs_ne src dst then to_crs src dst g else g)
                 = if crs_ne src dst
                   then map (transform_geom src dst) (geometry g)
                   else geometry g)
    by (destruct (crs_ne src dst); reflexivity).
  rewrite Hgeo, Hm in Hrun.
  destruct (after_clip_lookups raster r p clipped t st1 (Hpres _ _ Hself))
    as (ld & lq & L1 & L2 & L3).
  exists (after_clip raster r p clipped t st1), ld, lq.
  repeat split; try assumption.
  assert (Hne : polygon ≠ raster).
  { intros ->. rewrite Hself in Hg. discriminate. }
  unfold after_clip. cbn [heap].
  rewrite lookup_insert_ne by congruence.
  apply lookup_after_alloc, lookup_after_alloc, Hpres, Hg.
Qed.

(** X13.  An error of the dataset write or of the masking primitive (a
    layer that does not intersect the raster, say) comes out of
    [clip_raster] as it is, and the raster is left as it was. *)
Theorem clip_raster_mask_error raster polygon r lp p lc cube dst g src e st :
  heap st !! raster = Some (ORaster r) →
  profile r = Some lp →
  heap st !! lp = Some (OProfile p) →
  _datacube r = Some lc →
  heap st !! lc = Some (ONdarray cube) →
  p !! "crs" = Some (PCrs dst) →
  heap st !! polygon = Some (OGdf g) →
  gdf_crs g = Some src →
  memfile_write p cube = Raise e ∨
  (∃ ds, memfile_write p cube = Ok ds ∧
         mask_crop ds (if crs_ne src dst
                       then map (transform_geom src dst) (geometry g)
                       else geometry g) = Raise e) →
  ∃ st',
    clip_raster raster polygon st = (Raise e, st') ∧
    heap st' !! raster = Some (ORaster r) ∧
    heap st' !! lp = Some (OProfile p) ∧
    heap st' !! lc = Some (ONdarray cube).
Proof.
  intros Hself Hp Hlp Hd Hc Hcrs Hg Hsrc Herr.
  destruct (reproject_run polygon g src dst st Hg Hsrc)
    as (polygon' & st1 & Hre & Hpres & Hg' & _).
  pose proof (clip_raster_run _ _ _ _ _ _ _ _ _ _ _ _
                Hself Hp Hlp Hd Hc Hcrs Hre Hpres Hg') as Hrun.
  assert (Hgeo : geometry (if crs_ne src dst then to_crs src dst g else g)
                 = if crs_ne src dst
                   then map (transform_geom src dst) (geometry g)
                   else geometry g)
    by (destruct (crs_ne src dst); reflexivity).
  exists st1. split; [|auto].
  destruct Herr as [Hw|(ds & Hw & Hm)]; rewrite Hw in Hrun; [exact Hrun|].
  rewrite Hgeo, Hm in Hrun. exact Hrun.
Qed.

(** X14.  A profile without a "crs" entry makes [clip_raster] raise
    [KeyError] for that key before anything else happens. *)
Theorem clip_raster_missing_crs raster polygon r lp (p : gmap string pval) st :
  heap st !! raster = Some (ORaster r) →
  profile r = Some lp →
  heap st !! lp = Some (OProfile p) →
  p !! "crs" = None →
  clip_raster raster polygon st = (Raise (KeyError "crs"), st).
Proof.
  intros Hself Hp Hlp Hcrs. unfold clip_raster.
  rewrite (run_bind_ok _ _ _ _ _ (get_raster_ok _ _ _ Hself)), Hp.
  rewrite (run_bind_ok _ _ _ _ _ (get_profile_ok _ _ _ Hlp)), Hcrs.
  reflexivity.
Qed.

(** X15.  However [clip_raster] fails, no object that existed before the
    call is modified: the raster, its cube, its profile and the layer are
    all as they were. *)
Theorem clip_raster_failure_preserves raster polygon e st st' :
  clip_raster raster polygon st = (Raise e, st') →
  ∀ l o, heap st !! l = Some o → heap st' !! l = Some o.
Proof.
  unfold clip_raster. rewrite run_bind. unfold get_raster.
  rewrite run_bind. unfold load.
  destruct (heap st !! raster) as [[r| | |]|] eqn:Hself; simpl;
    try (intros [= <- <-]; auto; fail).
  destruct (profile r) as [lp|]; [|intros [= <- <-]; auto].
  rewrite run_bind. unfold get_profile. rewrite run_bind. unfold load.
  destruct (heap st !! lp) as [[| |p|]|] eqn:Hlp; simpl;
    try (intros [= <- <-]; auto; fail).
  destruct (p !! "crs") as [[| | | |dst|]|] eqn:Hcrs;
    try (intros [= <- <-]; auto; fail).
  rewrite run_bind.
  destruct (reproject_gdf polygon (Some dst) st) as [[polygon'|e1] st1] eqn:Hre.
  2:{ intros [= <- <-]. apply (reproject_preserves _ _ _ _ _ Hre). }
  destruct (reproject_preserves _ _ _ _ _ Hre) as [Hpres Hgdf].
  destruct (Hgdf polygon' eq_refl) as [g Hg].
  unfold datacube.
  rewrite run_bind,
    (run_bind_ok _ _ _ _ _ (get_raster_ok _ _ _ (Hpres _ _ Hself))).
  simpl. destruct (_datacube r) as [lc|]; [|intros [= <- <-]; auto].
  rewrite run_bind. unfold get_ndarray. rewrite run_bind. unfold load.
  destruct (heap st1 !! lc) as [[|cube| |]|] eqn:Hc; simpl;
    try (intros [= <- <-]; auto; fail).
  rewrite run_bind, run_lift.
  destruct (memfile_write p cube) as [ds|e2]; [|intros [= <- <-]; auto].
  rewrite (run_bind_ok _ _ _ _ _ (get_gdf_ok _ _ _ Hg)).
  rewrite run_bind, run_lift.
  destruct (mask_crop ds (geometry g)) as [[clipped t]|e3];
    [|intros [= <- <-]; auto].
  rewrite run_bind, run_alloc, run_bind, run_alloc.
  unfold datacube_set. simpl heap. simpl stdout.
  erewrite bind_setattr;
    [|simpl; apply lookup_after_alloc, lookup_after_alloc, Hpres, Hself].
  simpl heap. simpl stdout.
  erewrite bind_setattr; [|simpl; apply lookup_insert_eq].
  unfold mret, M_ret. intros [=].
Qed.

(** X16.  [reproject_gdf] prints one line, naming the two CRSs, exactly
    when it reprojects; a layer that is already in the target CRS produces
    no output. *)
Theorem reproject_gdf_output gdf g src dst st :
  heap st !! gdf = Some (OGdf g) →
  gdf_crs g = Some src →
  stdout (snd (reproject_gdf gdf (Some dst) st)) =
  app (stdout st)
    (if crs_ne src dst
     then ["Reprojecting GeoDataFrame from " +:+ crs_str src
           +:+ " to " +:+ crs_str dst]
     else []).
Proof.
  intros Hg Hc.
  destruct (reproject_run gdf g src dst st Hg Hc)
    as (polygon' & st1 & -> & _ & _ & Hout).
  exact Hout.
Qed.

End ClipRuns.

(** X12: the raster loaded from [/data] and the point layer in EPSG:4326. *)
Lemma clip_raster_success_witness :
  ∃ st' ld lq,
    clip_raster 1%positive 4%positive Demo.with_polygon = (Ok 1%positive, st') ∧
    heap st' !! 1%positive =
      Some (ORaster (set_profile (Some lq)
                       (set_datacube (Some ld) Demo.loaded_raster))) ∧
    heap st' !! ld = Some (ONdarray Demo.clipped222) ∧
    heap st' !! lq =
      Some (OProfile (clipped_profile_of Demo.profile222 Demo.clipped222
                        (0, 1)%Z)) ∧
    heap st' !! 4%positive = Some (OGdf Demo.polygon).
Proof.
  apply (clip_raster_success 1%positive 4%positive Demo.loaded_raster
           2%positive Demo.profile222 3%positive Demo.cube222 32633%Z
           Demo.polygon 4326%Z
           {| ds_profile := Demo.profile222; ds_data := Demo.cube222 |}
           Demo.clipped222 (0, 1)%Z Demo.with_polygon);
    vm_compute; reflexivity.
Defined.

(** X13: a layer without geometries, which the masking of the concrete
    stack rejects. *)
Lemma clip_raster_mask_error_witness :
  ∃ st',
    clip_raster 1%positive 4%positive Demo.with_empty_layer
      = (Raise ValueError, st') ∧
    heap st' !! 1%positive = Some (ORaster Demo.loaded_raster) ∧
    heap st' !! 2%positive = Some (OProfile Demo.profile222) ∧
    heap st' !! 3%positive = Some (ONdarray Demo.cube222).
Proof.
  apply (clip_raster_mask_error 1%positive 4%positive Demo.loaded_raster
           2%positive Demo.profile222 3%positive Demo.cube222 32633%Z
           Demo.empty_layer 32633%Z ValueError Demo.with_empty_layer);
    try (vm_compute; reflexivity).
  right. exists {| ds_profile := Demo.profile222; ds_data := Demo.cube222 |}.
  split; vm_compute; reflexivity.
Defined.

(** X14: a Raster whose profile is empty. *)
Lemma clip_raster_missing_crs_witness :
  clip_raster 3%positive 4%positive Demo.without_crs
  = (Raise (KeyError "crs"), Demo.without_crs).
Proof.
  apply (clip_raster_missing_crs 3%positive 4%positive
           Demo.without_crs_raster 1%positive ∅);
    vm_compute; reflexivity.
Defined.

(** X15 on the failing call of X13. *)
Lemma clip_raster_failure_preserves_witness :
  heap (snd (clip_raster 1%positive 4%positive Demo.with_empty_layer))
    !! 1%positive = Some (ORaster Demo.loaded_raster).
Proof.
  apply (clip_raster_failure_preserves 1%positive 4%positive ValueError
           Demo.with_empty_layer
           (snd (clip_raster 1%positive 4%positive Demo.with_empty_layer)));
    vm_compute; reflexivity.
Defined.

(** X16: the point layer, in EPSG:4326, sent to EPSG:32633. *)
Lemma reproject_gdf_output_witness :
  stdout (snd (reproject_gdf 4%positive (Some 32633%Z) Demo.with_polygon)) =
  app (stdout Demo.with_polygon)
    (if crs_ne 4326%Z 32633%Z
     then ["Reprojecting GeoDataFrame from " +:+ crs_str 4326%Z
           +:+ " to " +:+ crs_str 32633%Z]
     else []).
Proof.
  apply (reproject_gdf_output 4%positive Demo.polygon 4326%Z 32633%Z
           Demo.with_polygon);
    vm_compute; reflexivity.
Defined.

(** ** The name of the sidecar file *)

Section SidecarName.
Context `{Stack}.

Lemma replace_absent_id old new s :
  old ≠ "" →
  (∀ k, String.prefix old (PyStr.drop k s) = false) →
  PyStr.replace old new s = s.
Proof.
  intros Hold. induction s as [|c s IH]; intros Hno.
  - apply replace_nil, Hold.
  - rewrite replace_no_match; [|exact Hold|apply (Hno 0)].
    f_equal. apply IH. intros k. apply (Hno (S k)).
Qed.

Lemma drop_length_app a b : PyStr.drop (String.length a) (a +:+ b) = b.
Proof. induction a as [|c a IH]; simpl; auto. Qed.

Lemma prefix_app a b : String.prefix a (a +:+ b) = true.
Proof.
  induction a as [|c a IH]; simpl.
  - destruct b; reflexivity.
  - rewrite IH. destruct (ascii_dec c c); [reflexivity|congruence].
Qed.

Lemma append_nil_l s : "" +:+ s = s.
Proof. reflexivity. Qed.

Lemma append_cons c a b : String c a +:+ b = String c (a +:+ b).
Proof. reflexivity. Qed.

(** The first occurrence is replaced and the scan goes on behind it. *)
Lemma replace_first_occurrence old new stem rest :
  old ≠ "" →
  (∀ k, k < String.length stem →
        String.prefix old (PyStr.drop k (stem +:+ old +:+ rest)) = false) →
  PyStr.replace old new (stem +:+ old +:+ rest)
  = stem +:+ new +:+ PyStr.replace old new rest.
Proof.
  intros Hold. induction stem as [|c stem IH]; intros Hno.
  - rewrite !append_nil_l.
    rewrite replace_match; [|exact Hold|apply prefix_app].
    rewrite drop_length_app. reflexivity.
  - rewrite !append_cons. rewrite replace_no_match.
    + f_equal. apply IH. intros k Hk.
      specialize (Hno (S k)). rewrite append_cons in Hno. apply Hno.
      simpl. lia.
    + exact Hold.
    + specialize (Hno 0). rewrite append_cons in Hno. apply Hno. simpl. lia.
Qed.

Lemma append_nil_r s : s +:+ "" = s.
Proof.
  induction s as [|c s IH]; [reflexivity|].
  rewrite append_cons, IH. reflexivity.
Qed.

(** X17.  A raster file named [stem ++ "SPECTRAL_IMAGE.TIF"], the pattern
    occurring nowhere before the end, has the sidecar name
    [stem ++ "METADATA.XML"]. *)
Theorem xml_filename_suffix (p stem : string) :
  posixpath.basename p = stem +:+ "SPECTRAL_IMAGE.TIF" →
  (∀ k, k < String.length stem →
        String.prefix "SPECTRAL_IMAGE.TIF"
          (PyStr.drop k (stem +:+ "SPECTRAL_IMAGE.TIF")) = false) →
  xml_filename_of p = stem +:+ "METADATA.XML".
Proof.
  intros Hb Hno. unfold xml_filename_of. rewrite Hb.
  change (stem +:+ "SPECTRAL_IMAGE.TIF")
    with (stem +:+ "SPECTRAL_IMAGE.TIF" +:+ "").
  rewrite replace_first_occurrence.
  - rewrite replace_nil by discriminate. reflexivity.
  - discriminate.
  - exact Hno.
Qed.

(** X18.  When the name of the raster file does not contain the pattern
    (the match is case sensitive), the derived name is the name of the
    raster file: [find_metadata_file] then returns the raster file itself,
    provided the listing of its directory shows it. *)
Theorem sidecar_is_raster_itself self r (p : string) (listing : list string) st :
  heap st !! self = Some (ORaster r) →
  path r = Some p →
  (∀ k, String.prefix "SPECTRAL_IMAGE.TIF"
          (PyStr.drop k (posixpath.basename p)) = false) →
  listdir (posixpath.dirname p) = Ok listing →
  posixpath.basename p ∈ listing →
  find_metadata_file self st =
  (Ok (posixpath.join (posixpath.dirname p) (posixpath.basename p)), st).
Proof.
  intros Hself Hp Hno Hl Hin.
  rewrite (find_metadata_file_run _ _ _ _ Hself Hp), Hl. simpl.
  unfold xml_filename_of.
  rewrite replace_absent_id; [|discriminate|exact Hno].
  rewrite search_listing_spec, decide_True by exact Hin. reflexivity.
Qed.

End SidecarName.

(** X17 on the file name used in [/data]. *)
Lemma xml_filename_suffix_witness :
  xml_filename_of "/data/T1_SPECTRAL_IMAGE.TIF" = "T1_" +:+ "METADATA.XML".
Proof.
  apply (xml_filename_suffix "/data/T1_SPECTRAL_IMAGE.TIF" "T1_").
  - reflexivity.
  - intros k Hk. do 3 (destruct k as [|k]; [reflexivity|]).
    simpl in Hk. lia.
Defined.

(** X18 on a file of [/data] whose name has no "SPECTRAL_IMAGE.TIF". *)
Lemma sidecar_is_raster_itself_witness :
  find_metadata_file 1%positive (Demo.at_path "/data/README.txt")
  = (Ok (posixpath.join (posixpath.dirname "/data/README.txt")
           (posixpath.basename "/data/README.txt")),
     Demo.at_path "/data/README.txt").
Proof.
  apply (sidecar_is_raster_itself 1%positive
           (Demo.path_only "/data/README.txt") "/data/README.txt"
           ["README.txt"; "T1_SPECTRAL_IMAGE.TIF"; "T1_METADATA.XML"]).
  - vm_compute. reflexivity.
  - reflexivity.
  - intros k. do 11 (destruct k as [|k]; [reflexivity|]). reflexivity.
  - reflexivity.
  - apply list_elem_of_here.
Defined.

(** ** Loading: the resulting object, and what a failure leaves *)

Section LoadRuns.
Context `{Stack}.

Lemma sidecar_of_found p (listing : list string) text md :
  listdir (posixpath.dirname p) = Ok listing →
  xml_filename_of p ∈ listing →
  read_text (posixpath.join (posixpath.dirname p) (xml_filename_of p))
    = Ok text →
  xmltodict_parse text = Ok md →
  sidecar_of p = Ok md.
Proof.
  intros Hl Hin Hr Hx. unfold sidecar_of. rewrite Hl. simpl.
  rewrite search_listing_spec, decide_True by exact Hin. simpl.
  rewrite Hr. simpl. exact Hx.
Qed.

(** X19.  When the raster file opens, the sidecar is listed beside it,
    can be read and parsed, and its band table gives a convertible
    wavelength per band, [load_from_file] succeeds and replaces all six
    attributes: profile and cube as read from the file, path as given, name
    the basename of the path, metadata the parsed tree, wavelength the
    converted vector.  Nothing of the previous attribute values survives,
    and no other object is modified. *)
Theorem load_from_file_success self r0 (p : string) src_profile src_data
    (listing : list string) text md (items : list xml) (wl : list scalar) st :
  heap st !! self = Some (ORaster r0) →
  rasterio_read p = Ok (src_profile, src_data) →
  listdir (posixpath.dirname p) = Ok listing →
  PyStr.replace "SPECTRAL_IMAGE.TIF" "METADATA.XML" (posixpath.basename p)
    ∈ listing →
  read_text (posixpath.join (posixpath.dirname p)
               (PyStr.replace "SPECTRAL_IMAGE.TIF" "METADATA.XML"
                  (posixpath.basename p))) = Ok text →
  xmltodict_parse text = Ok md →
  band_ids_of md = Ok (XList items) →
  Forall2 (λ item w, ∃ kvs s, item = XDict kvs ∧
             Py.assoc "wavelengthCenterOfBand" kvs = Some (XStr s) ∧
             np_float32 s = Some w) items wl →
  ∃ st' lp lc,
    load_from_file self p st = (Ok tt, st') ∧
    heap st' !! self =
      Some (ORaster {| wavelength := Some wl; _datacube := Some lc;
                       metadata := md; profile := Some lp;
                       name := Some (posixpath.basename p);
                       path := Some p |}) ∧
    heap st' !! lc = Some (ONdarray src_data) ∧
    heap st' !! lp = Some (OProfile src_profile) ∧
    ∀ l o, l ≠ self → heap st !! l = Some o → heap st' !! l = Some o.
Proof.
  intros Hself Hr Hl Hin Ht Hx Hids F.
  pose proof (sidecar_of_found p listing text md Hl Hin Ht Hx) as Hmd.
  assert (Hwl : wavelengths_of md = Ok wl).
  { destruct (field_vector _ _ _ F) as (values & E1 & E2).
    unfold wavelengths_of. rewrite Hids. simpl. rewrite E1. simpl. exact E2. }
  rewrite (load_from_file_run _ _ _ _ Hself), Hr. cbv zeta.
  rewrite Hmd, Hwl.
  destruct (opened_others self r0 p src_profile src_data st Hself)
    as (lp & lc & Hself1 & Hlc1 & Hlp1 & Hlc & Hlp).
  eexists _, lp, lc. split; [reflexivity|].
  split.
  { rewrite (assign_lookup_self _ _ _ _
               (assign_lookup_self _ (set_metadata md) _ _ Hself1)).
    reflexivity. }
  split; [rewrite !assign_lookup_ne by exact Hlc; exact Hlc1|].
  split; [rewrite !assign_lookup_ne by exact Hlp; exact Hlp1|].
  intros l o Hne Ho. rewrite !assign_lookup_ne by exact Hne.
  unfold opened. cbn [heap].
  rewrite lookup_insert_ne by congruence.
  apply lookup_after_alloc.
  rewrite lookup_insert_ne by congruence.
  apply lookup_after_alloc. exact Ho.
Qed.

(** X20.  [load_from_file] is not all or nothing.  Called on an existing
    Raster for a file that opens but has no sidecar listed beside it, it
    raises [FileNotFoundError] after profile, cube, path and name have been
    replaced: the Raster is left with the new values of these four and its
    previous metadata and wavelength. *)
Theorem load_from_file_half_done self r0 (p : string) src_profile src_data
    (listing : list string) st :
  heap st !! self = Some (ORaster r0) →
  rasterio_read p = Ok (src_profile, src_data) →
  listdir (posixpath.dirname p) = Ok listing →
  PyStr.replace "SPECTRAL_IMAGE.TIF" "METADATA.XML" (posixpath.basename p)
    ∉ listing →
  ∃ st' lp lc,
    load_from_file self p st = (Raise FileNotFoundError, st') ∧
    heap st' !! self =
      Some (ORaster {| wavelength := wavelength r0; _datacube := Some lc;
                       metadata := metadata r0; profile := Some lp;
                       name := Some (posixpath.basename p);
                       path := Some p |}) ∧
    heap st' !! lc = Some (ONdarray src_data) ∧
    heap st' !! lp = Some (OProfile src_profile).
Proof.
  intros Hself Hr Hl Hnin.
  rewrite (load_from_file_run _ _ _ _ Hself), Hr. cbv zeta.
  rewrite (sidecar_of_absent _ _ Hl Hnin).
  destruct (opened_others self r0 p src_profile src_data st Hself)
    as (lp & lc & Hself1 & Hlc1 & Hlp1 & _ & _).
  eexists _, lp, lc. split; [reflexivity|].
  split; [exact Hself1|]. split; assumption.
Qed.

(** X21.  The [datacube] property stores whatever it is given, without
    any check, and reads it back: after [raster.datacube = value] the
    getter returns [value], and the other attributes are as before. *)
Theorem datacube_set_get self r value st :
  heap st !! self = Some (ORaster r) →
  (datacube_set self value ≫= λ _, datacube self) st =
  (Ok value,
   {| heap := <[self := ORaster (set_datacube value r)]> (heap st);
      stdout := stdout st |}).
Proof.
  intros Hself. unfold datacube_set.
  rewrite (bind_setattr _ _ _ _ _ Hself). unfold datacube.
  rewrite (run_bind_ok _ _ _ _ _
             (get_raster_ok self (set_datacube value r)
                {| heap := <[self := ORaster (set_datacube value r)]> (heap st);
                   stdout := stdout st |}
                (lookup_insert_eq _ _ _))).
  reflexivity.
Qed.

End LoadRuns.

(** X19: the file of [/data] loaded into a Raster that was built in
    memory. *)
Lemma load_from_file_success_witness :
  ∃ st' lp lc,
    load_from_file 2%positive "/data/T1_SPECTRAL_IMAGE.TIF"
      (Demo.in_memory Demo.negating) = (Ok tt, st') ∧
    heap st' !! 2%positive =
      Some (ORaster {| wavelength := Some [Demo.f32 450; Demo.f32 550];
                       _datacube := Some lc;
                       metadata := Demo.two_bands; profile := Some lp;
                       name := Some (posixpath.basename
                                       "/data/T1_SPECTRAL_IMAGE.TIF");
                       path := Some "/data/T1_SPECTRAL_IMAGE.TIF" |}) ∧
    heap st' !! lc = Some (ONdarray Demo.cube222) ∧
    heap st' !! lp = Some (OProfile Demo.profile222) ∧
    ∀ l o, l ≠ 2%positive →
           heap (Demo.in_memory Demo.negating) !! l = Some o →
           heap st' !! l = Some o.
Proof.
  apply (load_from_file_success 2%positive
           (Demo.in_memory_raster Demo.negating)
           "/data/T1_SPECTRAL_IMAGE.TIF" Demo.profile222 Demo.cube222
           ["README.txt"; "T1_SPECTRAL_IMAGE.TIF"; "T1_METADATA.XML"]
           Demo.two_bands_text Demo.two_bands
           [Demo.band_entry "450" "2" "1"; Demo.band_entry "550" "3" "0"]).
  - vm_compute. reflexivity.
  - reflexivity.
  - reflexivity.
  - vm_compute. apply list_elem_of_further, list_elem_of_further,
      list_elem_of_here.
  - vm_compute. reflexivity.
  - vm_compute. reflexivity.
  - reflexivity.
  - solve_items.
Defined.

(** X20: the file of [/lonely] loaded into a Raster that was built in
    memory. *)
Lemma load_from_file_half_done_witness :
  ∃ st' lp lc,
    load_from_file 2%positive "/lonely/T2_SPECTRAL_IMAGE.TIF"
      (Demo.in_memory Demo.negating) = (Raise FileNotFoundError, st') ∧
    heap st' !! 2%positive =
      Some (ORaster {| wavelength := wavelength (Demo.in_memory_raster Demo.negating);
                       _datacube := Some lc;
                       metadata := metadata (Demo.in_memory_raster Demo.negating);
                       profile := Some lp;
                       name := Some (posixpath.basename
                                       "/lonely/T2_SPECTRAL_IMAGE.TIF");
                       path := Some "/lonely/T2_SPECTRAL_IMAGE.TIF" |}) ∧
    heap st' !! lc = Some (ONdarray Demo.cube222) ∧
    heap st' !! lp = Some (OProfile Demo.profile222).
Proof.
  apply (load_from_file_half_done 2%positive
           (Demo.in_memory_raster Demo.negating)
           "/lonely/T2_SPECTRAL_IMAGE.TIF" Demo.profile222 Demo.cube222
           ["T2_SPECTRAL_IMAGE.TIF"]).
  - vm_compute. reflexivity.
  - reflexivity.
  - reflexivity.
  - vm_compute. intros Hin.
    apply elem_of_cons in Hin as [Heq|Hin]; [discriminate Heq|inversion Hin].
Defined.

(** X21: the cube of a Raster set to [None]. *)
Lemma datacube_set_get_witness :
  (datacube_set 2%positive None ≫= λ _, datacube 2%positive)
    (Demo.in_memory Demo.two_bands) =
  (Ok None,
   {| heap := <[2%positive :=
                  ORaster (set_datacube None
                             (Demo.in_memory_raster Demo.two_bands))]>
                (heap (Demo.in_memory Demo.two_bands));
      stdout := stdout (Demo.in_memory Demo.two_bands) |}).
Proof.
  apply (datacube_set_get 2%positive (Demo.in_memory_raster Demo.two_bands)).
  vm_compute. reflexivity.
Defined.

(** X22 on the raster loaded from [/data]. *)
Lemma rescale_keeps_old_array_witness :
  ∃ st' lc',
    rescale 1%positive Demo.loaded = (Ok 1%positive, st') ∧
    fst (datacube 1%positive st') = Ok (Some lc') ∧
    lc' ≠ 3%positive ∧
    heap st' !! 3%positive = Some (ONdarray Demo.cube222).
Proof.
  apply (rescale_keeps_old_array 1%positive 3%positive Demo.loaded_raster
           Demo.cube222 [Demo.f32 2; Demo.f32 3] [Demo.f32 1; Demo.f32 0]
           Demo.loaded);
    vm_compute; reflexivity.
Defined.

(** ** Where the sidecar path points *)

Section SidecarPath.
Context `{Stack}.

Lemma rfind_succ_cons c d s :
  PyStr.rfind_succ c (String d s) =
  match PyStr.rfind_succ c s with
  | S k => S (S k)
  | O => if Ascii.eqb d c then 1 else 0
  end.
Proof. reflexivity. Qed.

(** What follows the last separator contains none. *)
Lemma rfind_succ_drop c s :
  PyStr.rfind_succ c (PyStr.drop (PyStr.rfind_succ c s) s) = 0.
Proof.
  induction s as [|d s IH]; [reflexivity|].
  rewrite rfind_succ_cons.
  destruct (PyStr.rfind_succ c s) as [|k] eqn:E.
  - destruct (Ascii.eqb d c) eqn:Ed; simpl.
    + exact E.
    + rewrite E, Ed. reflexivity.
  - simpl. simpl in IH. exact IH.
Qed.

Lemma rfind_succ_zero_cons c d s :
  PyStr.rfind_succ c (String d s) = 0 →
  Ascii.eqb d c = false ∧ PyStr.rfind_succ c s = 0.
Proof.
  rewrite rfind_succ_cons.
  destruct (PyStr.rfind_succ c s); [|discriminate].
  destruct (Ascii.eqb d c); [discriminate|auto].
Qed.

Lemma rfind_succ_app_zero c a b :
  PyStr.rfind_succ c a = 0 → PyStr.rfind_succ c b = 0 →
  PyStr.rfind_succ c (a +:+ b) = 0.
Proof.
  induction a as [|d a IH]; intros Ha Hb; [exact Hb|].
  apply rfind_succ_zero_cons in Ha as [Hd Ha].
  rewrite append_cons, rfind_succ_cons, (IH Ha Hb), Hd. reflexivity.
Qed.

(** [str.replace] brings in no separator that was not in its arguments. *)
Lemma replace_scan_no_sep c old new k s :
  PyStr.rfind_succ c new = 0 → PyStr.rfind_succ c s = 0 →
  PyStr.rfind_succ c (PyStr.replace_scan old new k s) = 0.
Proof.
  intros Hnew. revert k. induction s as [|d s IH]; intros k Hs; [reflexivity|].
  apply rfind_succ_zero_cons in Hs as [Hd Hs].
  destruct k as [|k]; cbn [PyStr.replace_scan]; [|apply IH, Hs].
  destruct (String.prefix old (String d s)).
  - apply rfind_succ_app_zero; [exact Hnew|apply IH, Hs].
  - rewrite rfind_succ_cons, (IH 0 Hs), Hd. reflexivity.
Qed.

Lemma xml_filename_no_sep p :
  PyStr.rfind_succ posixpath.sep (xml_filename_of p) = 0.
Proof.
  unfold xml_filename_of, PyStr.replace.
  apply replace_scan_no_sep; [reflexivity|].
  apply rfind_succ_drop.
Qed.

(** Appending a name without separator does not move the last separator. *)
Lemma rfind_succ_app_name c a f :
  PyStr.rfind_succ c f = 0 →
  PyStr.rfind_succ c (a +:+ f) = PyStr.rfind_succ c a.
Proof.
  intros Hf. induction a as [|d a IH]; [exact Hf|].
  rewrite append_cons, !rfind_succ_cons, IH. reflexivity.
Qed.

Lemma rfind_succ_endswith a :
  posixpath.endswith_sep a = true →
  PyStr.rfind_succ posixpath.sep a = String.length a.
Proof.
  induction a as [|d a IH]; [discriminate|].
  intros He. rewrite rfind_succ_cons. destruct a as [|d' a].
  - simpl in *. rewrite He. reflexivity.
  - rewrite (IH He). reflexivity.
Qed.

Lemma take_length_app a b : PyStr.take (String.length a) (a +:+ b) = a.
Proof.
  induction a as [|c a IH]; [destruct b; reflexivity|].
  rewrite append_cons. simpl. rewrite IH. reflexivity.
Qed.

Lemma endswith_app_sep a : posixpath.endswith_sep (a +:+ "/") = true.
Proof.
  induction a as [|c a IH]; [reflexivity|].
  rewrite append_cons. destruct a as [|d a]; [reflexivity|exact IH].
Qed.

Lemma startswith_no_sep f :
  PyStr.rfind_succ posixpath.sep f = 0 → posixpath.startswith_sep f = false.
Proof.
  destruct f as [|c f]; [reflexivity|].
  intros Hf. apply rfind_succ_zero_cons in Hf as [Hc _]. exact Hc.
Qed.

(** The basename of a joined path is the name that was joined. *)
Lemma basename_join d f :
  PyStr.rfind_succ posixpath.sep f = 0 →
  posixpath.basename (posixpath.join d f) = f.
Proof.
  intros Hf. unfold posixpath.join. rewrite (startswith_no_sep _ Hf).
  unfold posixpath.basename.
  destruct (String.eqb_spec d "") as [->|Hd]; simpl orb.
  - rewrite append_nil_l, Hf. reflexivity.
  - destruct (posixpath.endswith_sep d) eqn:He.
    + rewrite (rfind_succ_app_name _ _ _ Hf), (rfind_succ_endswith _ He).
      apply drop_length_app.
    + change (d +:+ "/" +:+ f) with (d +:+ ("/" +:+ f)).
      replace (d +:+ ("/" +:+ f)) with ((d +:+ "/") +:+ f).
      2:{ clear. induction d as [|c d IH]; [reflexivity|].
          rewrite !append_cons, IH. reflexivity. }
      rewrite (rfind_succ_app_name _ _ _ Hf),
        (rfind_succ_endswith _ (endswith_app_sep d)).
      apply drop_length_app.
Qed.

Lemma rstrip_cons c d s :
  PyStr.rstrip c (String d s) =
  match PyStr.rstrip c s with
  | EmptyString => if Ascii.eqb d c then EmptyString else String d EmptyString
  | t => String d t
  end.
Proof. reflexivity. Qed.

Lemma rstrip_not_endswith s :
  posixpath.endswith_sep (PyStr.rstrip posixpath.sep s) = false.
Proof.
  induction s as [|d s IH]; [reflexivity|].
  rewrite rstrip_cons.
  destruct (PyStr.rstrip posixpath.sep s) as [|e t].
  - destruct (Ascii.eqb d posixpath.sep) eqn:Ed; [reflexivity|].
    simpl. exact Ed.
  - exact IH.
Qed.

Lemma rstrip_app_sep d :
  posixpath.endswith_sep d = false →
  PyStr.rstrip posixpath.sep (d +:+ "/") = d.
Proof.
  induction d as [|c d IH]; [reflexivity|].
  intros He. rewrite append_cons, rstrip_cons. destruct d as [|c' d].
  - simpl in He. rewrite append_nil_l. simpl. rewrite He. reflexivity.
  - rewrite (IH He). reflexivity.
Qed.

Lemma all_eq_endswith d :
  d ≠ "" → PyStr.all_eq posixpath.sep d = true →
  posixpath.endswith_sep d = true.
Proof.
  induction d as [|c d IH]; [congruence|]. intros _ Ha.
  simpl in Ha. apply andb_prop in Ha as [Hc Ha].
  destruct d as [|c' d]; [exact Hc|]. apply IH; [discriminate|exact Ha].
Qed.

Lemma all_eq_app_sep d :
  PyStr.all_eq posixpath.sep (d +:+ "/") = PyStr.all_eq posixpath.sep d.
Proof.
  induction d as [|c d IH]; [reflexivity|].
  rewrite append_cons. simpl. rewrite IH. reflexivity.
Qed.

(** A directory name is empty, made of separators only, or does not end
    with a separator. *)
Lemma dirname_shape p :
  posixpath.dirname p = "" ∨
  PyStr.all_eq posixpath.sep (posixpath.dirname p) = true ∨
  posixpath.endswith_sep (posixpath.dirname p) = false.
Proof.
  unfold posixpath.dirname.
  set (head := PyStr.take (PyStr.rfind_succ posixpath.sep p) p).
  destruct (String.eqb_spec head "") as [->|Hne]; [left; reflexivity|].
  simpl negb. simpl andb.
  destruct (PyStr.all_eq posixpath.sep head) eqn:Ha; simpl.
  - right. left. exact Ha.
  - right. right. apply rstrip_not_endswith.
Qed.

(** Joining a name to a directory name and taking the directory part gives
    the directory name back. *)
Lemma dirname_join d f :
  PyStr.rfind_succ posixpath.sep f = 0 →
  d = "" ∨ PyStr.all_eq posixpath.sep d = true
  ∨ posixpath.endswith_sep d = false →
  posixpath.dirname (posixpath.join d f) = d.
Proof.
  intros Hf Hd. unfold posixpath.join. rewrite (startswith_no_sep _ Hf).
  destruct (String.eqb_spec d "") as [->|Hne]; simpl orb.
  - rewrite append_nil_l. unfold posixpath.dirname. rewrite Hf. reflexivity.
  - destruct Hd as [->|[Ha|He]]; [congruence| |].
    + rewrite (all_eq_endswith _ Hne Ha). unfold posixpath.dirname.
      rewrite (rfind_succ_app_name _ _ _ Hf),
        (rfind_succ_endswith _ (all_eq_endswith _ Hne Ha)), take_length_app.
      rewrite Ha. simpl. rewrite andb_false_r. reflexivity.
    + rewrite He.
      change (d +:+ "/" +:+ f) with (d +:+ ("/" +:+ f)).
      replace (d +:+ ("/" +:+ f)) with ((d +:+ "/") +:+ f).
      2:{ clear. induction d as [|c d IH]; [reflexivity|].
          rewrite !append_cons, IH. reflexivity. }
      unfold posixpath.dirname.
      rewrite (rfind_succ_app_name _ _ _ Hf),
        (rfind_succ_endswith _ (endswith_app_sep d)), take_length_app.
      rewrite all_eq_app_sep.
      assert (Ha : PyStr.all_eq posixpath.sep d = false).
      { destruct (PyStr.all_eq posixpath.sep d) eqn:Ha; [|reflexivity].
        rewrite (all_eq_endswith _ Hne Ha) in He. discriminate. }
      rewrite Ha.
      assert (Hn : String.eqb (d +:+ "/") "" = false).
      { destruct d; reflexivity. }
      rewrite Hn. simpl. apply rstrip_app_sep, He.
Qed.

(** X23.  The path that [find_metadata_file] returns lies beside the
    raster file: its directory part is the directory part of the raster's
    path, and its last component is the raster's basename with
    "SPECTRAL_IMAGE.TIF" replaced by "METADATA.XML".  The call changes
    nothing. *)
Theorem sidecar_beside_raster self r (p q : string) st st' :
  heap st !! self = Some (ORaster r) →
  path r = Some p →
  find_metadata_file self st = (Ok q, st') →
  posixpath.dirname q = posixpath.dirname p ∧
  posixpath.basename q =
    PyStr.replace "SPECTRAL_IMAGE.TIF" "METADATA.XML" (posixpath.basename p) ∧
  st' = st.
Proof.
  intros Hself Hp. rewrite (find_metadata_file_run _ _ _ _ Hself Hp).
  destruct (listdir (posixpath.dirname p)) as [listing|e]; simpl;
    [|intros [=]].
  rewrite search_listing_spec.
  destruct (decide (xml_filename_of p ∈ listing)); intros [= <- <-].
  split; [|split; [|reflexivity]].
  - apply dirname_join; [apply xml_filename_no_sep|apply dirname_shape].
  - apply basename_join, xml_filename_no_sep.
Qed.

End SidecarPath.

(** X23 on the raster loaded from [/data]. *)
Lemma sidecar_beside_raster_witness :
  posixpath.dirname "/data/T1_METADATA.XML"
    = posixpath.dirname "/data/T1_SPECTRAL_IMAGE.TIF" ∧
  posixpath.basename "/data/T1_METADATA.XML" =
    PyStr.replace "SPECTRAL_IMAGE.TIF" "METADATA.XML"
      (posixpath.basename "/data/T1_SPECTRAL_IMAGE.TIF") ∧
  Demo.loaded = Demo.loaded.
Proof.
  apply (sidecar_beside_raster 1%positive Demo.loaded_raster
           "/data/T1_SPECTRAL_IMAGE.TIF" "/data/T1_METADATA.XML"
           Demo.loaded Demo.loaded);
    vm_compute; reflexivity.
Defined.

(** ** get_metadata, and what reproject_gdf leaves alone *)

Section Readers.
Context `{Stack}.

(** X24.  When the sidecar is listed beside the raster, [get_metadata]
    reads that very file and returns the tree xmltodict makes of its text;
    an error of reading or of parsing comes out as it is.  The Raster is not
    changed. *)
Theorem get_metadata_spec self r (p : string) (listing : list string) st :
  heap st !! self = Some (ORaster r) →
  path r = Some p →
  listdir (posixpath.dirname p) = Ok listing →
  PyStr.replace "SPECTRAL_IMAGE.TIF" "METADATA.XML" (posixpath.basename p)
    ∈ listing →
  get_metadata self st =
  (match read_text
           (posixpath.join (posixpath.dirname p)
              (PyStr.replace "SPECTRAL_IMAGE.TIF" "METADATA.XML"
                 (posixpath.basename p))) with
   | Ok my_xml => xmltodict_parse my_xml
   | Raise e => Raise e
   end, st).
Proof.
  intros Hself Hp Hl Hin.
  rewrite (get_metadata_run _ _ _ _ Hself Hp). unfold sidecar_of.
  rewrite Hl. simpl.
  rewrite search_listing_spec, decide_True by exact Hin. simpl.
  destruct (read_text _); reflexivity.
Qed.

(** X25.  [reproject_gdf] never modifies an object that exists: whether
    it returns the layer it was given, a new one, or raises, every object
    of the heap is afterwards what it was before. *)
Theorem reproject_gdf_pure gdf dst out st st' l o :
  reproject_gdf gdf dst st = (out, st') →
  heap st !! l = Some o →
  heap st' !! l = Some o.
Proof.
  intros Hrun. apply (proj1 (reproject_preserves _ _ _ _ _ Hrun)).
Qed.

End Readers.

(** X24 on the raster loaded from [/data]. *)
Lemma get_metadata_spec_witness :
  get_metadata 1%positive Demo.loaded =
  (match read_text
           (posixpath.join (posixpath.dirname "/data/T1_SPECTRAL_IMAGE.TIF")
              (PyStr.replace "SPECTRAL_IMAGE.TIF" "METADATA.XML"
                 (posixpath.basename "/data/T1_SPECTRAL_IMAGE.TIF"))) with
   | Ok my_xml => xmltodict_parse my_xml
   | Raise e => Raise e
   end, Demo.loaded).
Proof.
  apply (get_metadata_spec 1%positive Demo.loaded_raster
           "/data/T1_SPECTRAL_IMAGE.TIF"
           ["README.txt"; "T1_SPECTRAL_IMAGE.TIF"; "T1_METADATA.XML"]).
  - vm_compute. reflexivity.
  - reflexivity.
  - reflexivity.
  - vm_compute. apply list_elem_of_further, list_elem_of_further,
      list_elem_of_here.
Defined.

(** X25: the raster of [with_polygon] after the point layer was sent to
    EPSG:32633. *)
Lemma reproject_gdf_pure_witness :
  heap (snd (reproject_gdf 4%positive (Some 32633%Z) Demo.with_polygon))
    !! 1%positive = Some (ORaster Demo.loaded_raster).
Proof.
  apply (reproject_gdf_pure (H := Demo.types) 4%positive (Some 32633%Z)
           (fst (reproject_gdf (H := Demo.types) 4%positive (Some 32633%Z)
                   Demo.with_polygon))
           Demo.with_polygon);
    vm_compute; reflexivity.
Defined.
